(** * Canvas service of Refly: a shallow embedding and its properties

    The development follows the class [CanvasService]: the relational store
    reached through Prisma, the object store reached through MinIO, the search
    index, the job queue and the Yjs documents are explicit components of a
    state that every operation threads; an exception is an [Err] result that
    keeps the effects made before it was raised. Every write to the relational
    store is recorded in a log of commits, and every call of an injected
    service in a log of calls. *)

From stdpp Require Import gmap strings list fin_maps sorting pretty.
From Stdlib Require Import ZArith.

Open Scope string_scope.
Open Scope Z_scope.
Open Scope list_scope.
Open Scope stdpp_scope.

(** ** JavaScript values *)

(** A string field that may be absent ([undefined], [null]) is represented by
    the empty string: the service only ever tests such fields for truthiness,
    and the empty string is as falsy as an absent value. *)
Definition truthy (s : string) : bool := negb (String.eqb s "").

(** [a || b] on strings. *)
Definition or_else (a b : string) : string := if truthy a then a else b.

(** A JavaScript string as the sequence of its UTF-16 code units, which is
    what [slice] and [join] work on. The strings that the service slices are
    kept in this form; those that it only compares, stores and passes on are
    kept as [string]. *)
Definition Utf16 : Type := list N.

(** [parts.join(sep)] *)
Fixpoint utf16_join (sep : Utf16) (parts : list Utf16) : Utf16 :=
  match parts with
  | [] => []
  | [part] => part
  | part :: parts' => part ++ sep ++ utf16_join sep parts'
  end.

(** The code units of a text in ASCII: the codes of its characters. *)
Definition utf16_of_ascii (text : string) : Utf16 :=
  map Ascii.N_of_ascii (String.list_ascii_of_string text).

Inductive Error :=
| CanvasNotFoundError
| TypeError (message : string)
| JsError (message : string)
| S3Error (code : string)
| PrismaClientError (code : string)
| InvalidObjectNameError (name : string)
| ServiceError (message : string).

#[global] Instance Error_eq_dec : EqDecision Error.
Proof. solve_decision. Defined.

Inductive Result (A : Type) :=
| Ok (a : A)
| Err (e : Error).
Arguments Ok {A} a.
Arguments Err {A} e.

(** ** Canvas documents (Yjs) *)

Record CanvasNodeData := {
  nd_entityId : string;
  nd_title : string;
  nd_metadata : string
}.

Record CanvasNode := {
  node_type : string;
  node_data : option CanvasNodeData;
  node_rest : string
}.

Record CanvasEdge := {
  edge_source : string;
  edge_target : string
}.

#[global] Instance CanvasNodeData_eq_dec : EqDecision CanvasNodeData.
Proof. solve_decision. Defined.
#[global] Instance CanvasNode_eq_dec : EqDecision CanvasNode.
Proof. solve_decision. Defined.
#[global] Instance CanvasEdge_eq_dec : EqDecision CanvasEdge.
Proof. solve_decision. Defined.

(** The JSON content of a [Y.Doc]: the shared text [title] and the shared
    arrays [nodes] and [edges]. *)
Record YDoc := {
  yd_title : string;
  yd_nodes : list CanvasNode;
  yd_edges : list CanvasEdge
}.

#[global] Instance YDoc_eq_dec : EqDecision YDoc.
Proof. solve_decision. Defined.

(** [new Y.Doc()] *)
Definition new_YDoc : YDoc := {| yd_title := ""; yd_nodes := []; yd_edges := [] |}.

(** What an object of the object store can hold: nothing (zero bytes), bytes
    on which the decoder of Yjs throws, or the update that
    [Y.encodeStateAsUpdate] wrote for a document. What the decoder throws
    depends on the bytes, so bytes that are no update carry it. *)
Inductive Buffer :=
| EmptyBuffer
| MalformedBuffer (thrown : Error)
| UpdateBuffer (content : YDoc).

Definition buffer_length (b : Buffer) : nat :=
  match b with
  | EmptyBuffer => 0
  | MalformedBuffer _ => 1
  | UpdateBuffer _ => 2
  end.

Definition encodeStateAsUpdate (doc : YDoc) : Buffer := UpdateBuffer doc.

(** [Y.applyUpdate(doc, state)]. Every call of the service applies the update
    to a document constructed just before, so the merge yields the encoded
    content. On zero bytes the decoder throws its error for the end of the
    input; on other bytes that are no update it throws what these bytes make
    it throw. *)
Definition applyUpdate (doc : YDoc) (state : Buffer) : Result YDoc :=
  match state with
  | UpdateBuffer content => Ok content
  | EmptyBuffer => Err (JsError "Unexpected end of array")
  | MalformedBuffer thrown => Err thrown
  end.

(** ** Relational store *)

(** Rows of the [canvases] table; the table is keyed by its unique column
    [canvasId], which is therefore not repeated in the row. *)
Record Canvas := {
  cv_uid : string;
  cv_title : string;
  cv_status : string;
  cv_stateStorageKey : string;
  cv_minimapStorageKey : string;
  cv_createdAt : Z;
  cv_updatedAt : Z;
  cv_deletedAt : option Z
}.

(** Rows of [duplicate_records], keyed by the auto-incremented [pk]. *)
Record DuplicateRecord := {
  dr_uid : string;
  dr_sourceId : string;
  dr_targetId : string;
  dr_entityType : string;
  dr_status : string
}.

Record CanvasEntityRelation := {
  rel_canvasId : string;
  rel_entityId : string;
  rel_entityType : string;
  rel_deletedAt : option Z
}.

(** Rows of [users], keyed by [uid]. *)
Record UserRow := {
  usr_name : string;
  usr_nickname : string;
  usr_avatar : string
}.

Record ActionResult := {
  ar_resultId : string;
  ar_version : Z;
  ar_title : string;
  ar_input : option string;
  ar_targetId : string;
  ar_targetType : string
}.

Record ActionStep := {
  as_resultId : string;
  as_version : Z;
  as_content : Utf16
}.

Record Document := {
  doc_docId : string;
  doc_title : string;
  doc_contentPreview : string
}.

Record Resource := {
  res_resourceId : string;
  res_title : string;
  res_contentPreview : string
}.

Record Db := {
  canvases : gmap string Canvas;
  duplicateRecords : gmap nat DuplicateRecord;
  relations : list CanvasEntityRelation;
  users : gmap string UserRow;
  actionResults : list ActionResult;
  actionSteps : list ActionStep;
  documents : list Document;
  resources : list Resource
}.

Definition set_canvases (f : gmap string Canvas → gmap string Canvas) (d : Db) : Db :=
  {| canvases := f (canvases d); duplicateRecords := duplicateRecords d;
     relations := relations d; users := users d;
     actionResults := actionResults d; actionSteps := actionSteps d;
     documents := documents d; resources := resources d |}.

Definition set_duplicateRecords
    (f : gmap nat DuplicateRecord → gmap nat DuplicateRecord) (d : Db) : Db :=
  {| canvases := canvases d; duplicateRecords := f (duplicateRecords d);
     relations := relations d; users := users d;
     actionResults := actionResults d; actionSteps := actionSteps d;
     documents := documents d; resources := resources d |}.

Definition set_relations
    (f : list CanvasEntityRelation → list CanvasEntityRelation) (d : Db) : Db :=
  {| canvases := canvases d; duplicateRecords := duplicateRecords d;
     relations := f (relations d); users := users d;
     actionResults := actionResults d; actionSteps := actionSteps d;
     documents := documents d; resources := resources d |}.

(** The write statements the service issues, as they reach the database. *)
Inductive DbOp :=
| CanvasCreate (canvasId : string)
| CanvasUpdate (canvasId : string)
| DuplicateRecordCreate (pk : nat)
| DuplicateRecordUpdate (pk : nat) (status : string)
| RelationUpdateMany (count : nat)
| RelationCreateMany (count : nat).

#[global] Instance DbOp_eq_dec : EqDecision DbOp.
Proof. solve_decision. Defined.

(** A statement, or the body of a [$transaction]: it either fails, and then
    leaves the database as it was, or yields a result, the write statements it
    made and the new database. *)
Definition Tx (A : Type) : Type := Db → Result (A * list DbOp * Db).

Definition tx_ret {A} (a : A) : Tx A := λ d, Ok (a, [], d).

Definition tx_bind {A B} (t : Tx A) (k : A → Tx B) : Tx B := λ d,
  match t d with
  | Ok (a, ops, d') =>
      match k a d' with
      | Ok (b, ops', d'') => Ok (b, ops ++ ops', d'')
      | Err e => Err e
      end
  | Err e => Err e
  end.

Definition tx_read {A} (f : Db → A) : Tx A := λ d, Ok (f d, [], d).

(** *** Statements on [canvases] *)

Definition set_cv_status (status : string) (c : Canvas) : Canvas :=
  {| cv_uid := cv_uid c; cv_title := cv_title c; cv_status := status;
     cv_stateStorageKey := cv_stateStorageKey c;
     cv_minimapStorageKey := cv_minimapStorageKey c;
     cv_createdAt := cv_createdAt c; cv_updatedAt := cv_updatedAt c;
     cv_deletedAt := cv_deletedAt c |}.

Definition set_cv_deletedAt (t : Z) (c : Canvas) : Canvas :=
  {| cv_uid := cv_uid c; cv_title := cv_title c; cv_status := cv_status c;
     cv_stateStorageKey := cv_stateStorageKey c;
     cv_minimapStorageKey := cv_minimapStorageKey c;
     cv_createdAt := cv_createdAt c; cv_updatedAt := cv_updatedAt c;
     cv_deletedAt := Some t |}.

(** Prisma sets an [@updatedAt] column on every update. *)
Definition touch (now : Z) (c : Canvas) : Canvas :=
  {| cv_uid := cv_uid c; cv_title := cv_title c; cv_status := cv_status c;
     cv_stateStorageKey := cv_stateStorageKey c;
     cv_minimapStorageKey := cv_minimapStorageKey c;
     cv_createdAt := cv_createdAt c; cv_updatedAt := now;
     cv_deletedAt := cv_deletedAt c |}.

(** Modelled from the spec: the Prisma schema is not part of the sources, and
    the data model does not say which title a row gets when none is given.
    [default_title] stands for the default of the column; no property depends
    on its value. *)
Definition default_title : string := "Untitled".

(** Modelled from the spec: the Prisma schema is not part of the sources. The
    data model gives [canvasId] as unique, so an insert with a taken id is
    refused (error P2002); [status] defaults to ready, the timestamps to the
    time of the insert, and a new row is live. *)
Definition canvas_create (now : Z) (uid canvasId title : string)
    (status : option string) (stateStorageKey : string) : Tx (string * Canvas) := λ d,
  match canvases d !! canvasId with
  | Some _ => Err (PrismaClientError "P2002")
  | None =>
      let row := {| cv_uid := uid; cv_title := title;
                    cv_status := default "ready" status;
                    cv_stateStorageKey := stateStorageKey;
                    cv_minimapStorageKey := "";
                    cv_createdAt := now; cv_updatedAt := now;
                    cv_deletedAt := None |} in
      Ok ((canvasId, row), [CanvasCreate canvasId],
          set_canvases (insert canvasId row) d)
  end.

(** [canvas.findFirst] and [canvas.findUnique] with [canvasId] in the [where]
    clause: the row of that id, if it passes the other conditions. *)
Definition canvas_find (canvasId : string) (cond : Canvas → bool) : Tx (option Canvas) :=
  tx_read (λ d, match canvases d !! canvasId with
                | Some c => if cond c then Some c else None
                | None => None
                end).

(** [canvas.update({ where: { canvasId, ... }, data })]; Prisma throws P2025
    when no row has the id and passes the other conditions. *)
Definition canvas_update_where (now : Z) (canvasId : string) (cond : Canvas → bool)
    (data : Canvas → Canvas) : Tx Canvas := λ d,
  match canvases d !! canvasId with
  | Some c =>
      if cond c then
        let c' := touch now (data c) in
        Ok (c', [CanvasUpdate canvasId], set_canvases (insert canvasId c') d)
      else Err (PrismaClientError "P2025")
  | None => Err (PrismaClientError "P2025")
  end.

Definition canvas_update (now : Z) (canvasId : string) (data : Canvas → Canvas) : Tx Canvas :=
  canvas_update_where now canvasId (λ _, true) data.

Definition is_live (c : Canvas) : bool := bool_decide (cv_deletedAt c = None).
Definition owned_by (uid : string) (c : Canvas) : bool := bool_decide (cv_uid c = uid).

(** *** Statements on [duplicate_records] *)

Definition set_dr_status (status : string) (r : DuplicateRecord) : DuplicateRecord :=
  {| dr_uid := dr_uid r; dr_sourceId := dr_sourceId r; dr_targetId := dr_targetId r;
     dr_entityType := dr_entityType r; dr_status := status |}.

(** The auto-incremented key of the next row: one that no row has. *)
Definition next_pk (m : gmap nat DuplicateRecord) : nat := fresh (dom m).

Definition duplicateRecord_create (r : DuplicateRecord) : Tx (nat * DuplicateRecord) := λ d,
  let pk := next_pk (duplicateRecords d) in
  Ok ((pk, r), [DuplicateRecordCreate pk], set_duplicateRecords (insert pk r) d).

Definition duplicateRecord_update (pk : nat) (status : string) : Tx DuplicateRecord := λ d,
  match duplicateRecords d !! pk with
  | Some r =>
      let r' := set_dr_status status r in
      Ok (r', [DuplicateRecordUpdate pk status], set_duplicateRecords (insert pk r') d)
  | None => Err (PrismaClientError "P2025")
  end.

(** *** Statements on [canvas_entity_relations] *)

Definition rel_live (r : CanvasEntityRelation) : bool := bool_decide (rel_deletedAt r = None).

Definition relation_findMany (cond : CanvasEntityRelation → bool) : Tx (list CanvasEntityRelation) :=
  tx_read (λ d, filter (λ r, cond r = true) (relations d)).

Definition soft_delete (now : Z) (r : CanvasEntityRelation) : CanvasEntityRelation :=
  {| rel_canvasId := rel_canvasId r; rel_entityId := rel_entityId r;
     rel_entityType := rel_entityType r; rel_deletedAt := Some now |}.

(** [updateMany({ where, data: { deletedAt } })] *)
Definition relation_updateMany (cond : CanvasEntityRelation → bool) (now : Z) : Tx nat := λ d,
  let n := length (filter (λ r, cond r = true) (relations d)) in
  Ok (n, [RelationUpdateMany n],
      set_relations (map (λ r, if cond r then soft_delete now r else r)) d).

(** Modelled from the spec: the Prisma schema is not part of the sources. The
    data model gives a relation row as (canvasId, entityId, entityType,
    deletedAt) and declares no unique key on it, so [skipDuplicates] has
    nothing to skip and every row of [data] is appended, live. *)
Definition relation_createMany (data : list (string * string * string)) : Tx nat := λ d,
  let rows := map (λ '(canvasId, entityId, entityType),
                     {| rel_canvasId := canvasId; rel_entityId := entityId;
                        rel_entityType := entityType; rel_deletedAt := None |}) data in
  Ok (length rows, [RelationCreateMany (length rows)],
      set_relations (λ l, l ++ rows) d).

(** *** Reads of the other tables *)

Definition user_findUnique (uid : string) : Tx (option UserRow) :=
  tx_read (λ d, users d !! uid).

Definition actionResult_findMany (cond : ActionResult → bool) : Tx (list ActionResult) :=
  tx_read (λ d, filter (λ r, cond r = true) (actionResults d)).

Definition actionStep_findMany (cond : ActionStep → bool) : Tx (list ActionStep) :=
  tx_read (λ d, filter (λ r, cond r = true) (actionSteps d)).

Definition document_findMany (cond : Document → bool) : Tx (list Document) :=
  tx_read (λ d, filter (λ r, cond r = true) (documents d)).

Definition resource_findMany (cond : Resource → bool) : Tx (list Resource) :=
  tx_read (λ d, filter (λ r, cond r = true) (resources d)).

(** *** [canvas.findMany] with [orderBy], [skip] and [take] *)

(** [orderBy: { updatedAt: 'desc' }] *)
Definition newer_first (a b : string * Canvas) : Prop :=
  cv_updatedAt (snd b) ≤ cv_updatedAt (snd a).

#[global] Instance newer_first_dec a b : Decision (newer_first a b).
Proof. unfold newer_first. apply _. Defined.

(** Prisma refuses a negative [skip]; a negative [take] counts both [skip] and
    [take] from the end of the ordered rows. *)
Definition paginate {A} (skip take : Z) (rows : list A) : Result (list A) :=
  if skip <? 0 then Err (PrismaClientError "P2009")
  else if take <? 0
       then Ok (reverse (firstn (Z.to_nat (- take)) (skipn (Z.to_nat skip) (reverse rows))))
       else Ok (firstn (Z.to_nat take) (skipn (Z.to_nat skip) rows)).

Definition canvas_findMany (cond : Canvas → bool) (skip take : Z) : Tx (list (string * Canvas)) := λ d,
  let rows := filter (λ r, cond (snd r) = true) (map_to_list (canvases d)) in
  match paginate skip take (merge_sort newer_first rows) with
  | Ok page => Ok (page, [], d)
  | Err e => Err e
  end.

(** ** Collaborators and the state of the world *)

Record EsCanvas := {
  es_title : string;
  es_createdAt : option Z;
  es_updatedAt : Z;
  es_uid : string
}.

(** A job of the queue [QUEUE_DELETE_KNOWLEDGE_ENTITY]; its [jobId] is the
    entity id. *)
Record DeleteKnowledgeEntityJobData := {
  job_uid : string;
  job_entityId : string;
  job_entityType : string
}.

Inductive CanvasContentItem :=
| Answered (question : string) (answer : Utf16)
| Previewed (title contentPreview : string).

Record ModelInfo := { model_name : string }.

(** The calls the service makes on the services injected into it. *)
Inductive ServiceCall :=
| CallGenCanvasID
| CallDuplicateDocument (uid docId title : string)
| CallDuplicateResource (uid resourceId title : string)
| CallDuplicateActionResult (uid sourceResultId targetId : string)
| CallDuplicateFilesNoCopy (uid sourceEntityId sourceUid targetEntityId : string)
| CallGetDefaultModel
| CallGenerateCanvasTitle (contentItems : list CanvasContentItem).

(** The services injected into [CanvasService] whose code lies outside it, as
    an interface over a state [W] of their own. The knowledge, action, misc and
    subscription services own their tables; the canvas service alone writes
    [Canvas.status] and [DuplicateRecord.status]. A duplication returns the id
    of the entity it made, or nothing. *)
Class Collaborators (W : Type) := {
  genCanvasID : W → string * W;
  generateFileURL : string → string;
  duplicateDocument : string → string → string → W → Result (option string) * W;
  duplicateResource : string → string → string → W → Result (option string) * W;
  duplicateActionResult : string → string → string → W → Result (option string) * W;
  duplicateFilesNoCopy : string → string → string → string → W → Result () * W;
  getDefaultModel : W → Result (option ModelInfo) * W;
  generateCanvasTitle : list CanvasContentItem → option ModelInfo → W → Result string * W;
  (** [JSON.parse(input)?.query]: the [query] member, if any, or a syntax error *)
  parseQuery : string → Result (option string)
}.

Record State (W : Type) := {
  db : Db;
  dbLog : list (list DbOp);
  objects : gmap string Buffer;
  searchIndex : gmap string EsCanvas;
  deleteKnowledgeQueue : list DeleteKnowledgeEntityJobData;
  serviceCalls : list ServiceCall;
  clock : Z;
  world : W
}.
Arguments db {W} _.
Arguments dbLog {W} _.
Arguments objects {W} _.
Arguments searchIndex {W} _.
Arguments deleteKnowledgeQueue {W} _.
Arguments serviceCalls {W} _.
Arguments clock {W} _.
Arguments world {W} _.
Arguments Build_State {W} _ _ _ _ _ _ _ _.

Record User := { uid : string }.

Section Service.
Context {W : Type} {collaborators : Collaborators W}.

(** ** The monad of the service: state and exceptions *)

Definition M (A : Type) : Type := State W → Result A * State W.

Definition ret {A} (a : A) : M A := λ s, (Ok a, s).

Definition bind {A B} (m : M A) (k : A → M B) : M B := λ s,
  match m s with
  | (Ok a, s') => k a s'
  | (Err e, s') => (Err e, s')
  end.

Definition throw {A} (e : Error) : M A := λ s, (Err e, s).

(** [try { m } catch (error) { handler error }] *)
Definition try_catch {A} (m : M A) (handler : Error → M A) : M A := λ s,
  match m s with
  | (Ok a, s') => (Ok a, s')
  | (Err e, s') => handler e s'
  end.

Definition lift {A} (r : Result A) : M A := λ s, (r, s).

Notation "x <~ m ;; k" := (bind m (λ x, k))
  (at level 100, m at next level, k at level 200, right associativity).
Notation "m ;;; k" := (bind m (λ _, k))
  (at level 100, k at level 200, right associativity).

(** [await Promise.all(ps)]. The promises run to completion one after the
    other, in the order of the array: how their awaits interleave is not
    modelled. Every promise runs, also after one was rejected (the queue of
    [pLimit] goes on as well), and the result is rejected with the first
    rejection. *)
Fixpoint Promise_all {A} (ps : list (M A)) : M (list A) :=
  match ps with
  | [] => ret []
  | p :: ps' => λ s,
      match p s with
      | (Ok a, s1) =>
          match Promise_all ps' s1 with
          | (Ok l, s2) => (Ok (a :: l), s2)
          | (Err e, s2) => (Err e, s2)
          end
      | (Err e, s1) => (Err e, snd (Promise_all ps' s1))
      end
  end.

Definition void {A} (m : M A) : M () := _ <~ m;; ret ().

(** [new Date()] *)
Definition now : M Z := λ s,
  (Ok (clock s),
   Build_State (db s) (dbLog s) (objects s) (searchIndex s)
     (deleteKnowledgeQueue s) (serviceCalls s) (Z.succ (clock s)) (world s)).

(** A statement sent on its own, or a [$transaction]: it commits as a whole,
    and the log gets the writes of the commit as one entry. *)
Definition commit {A} (t : Tx A) : M A := λ s,
  match t (db s) with
  | Ok (a, ops, d') =>
      (Ok a,
       Build_State d' (dbLog s ++ (if ops is [] then [] else [ops]))
         (objects s) (searchIndex s) (deleteKnowledgeQueue s)
         (serviceCalls s) (clock s) (world s))
  | Err e => (Err e, s)
  end.

Definition prisma {A} (statement : Tx A) : M A := commit statement.
Definition prisma_transaction {A} (body : Tx A) : M A := commit body.

(** A call of an injected service. What the service does to stores of its own
    is part of its state [W]; the call is recorded, and the stores of the
    canvas service (its tables, its objects, its index and its queue) are not
    handed to it. A property that spans a call therefore speaks of the canvas
    service's own writes only. *)
Definition call {A} (c : ServiceCall) (f : W → Result A * W) : M A := λ s,
  let '(r, w) := f (world s) in
  (r, Build_State (db s) (dbLog s) (objects s) (searchIndex s)
        (deleteKnowledgeQueue s) (serviceCalls s ++ [c]) (clock s) w).

(** *** Object store

    The MinIO client: every method checks the name of the object first and
    refuses the empty name; [getObject] throws for a key that holds no object,
    [putObject] overwrites, [removeObject] succeeds whether or not the key
    holds an object. A stream read with [streamToBuffer] is the buffer it
    carries. *)

Definition with_objects (f : gmap string Buffer → gmap string Buffer) (s : State W) : State W :=
  Build_State (db s) (dbLog s) (f (objects s)) (searchIndex s)
    (deleteKnowledgeQueue s) (serviceCalls s) (clock s) (world s).

Definition minio_getObject (key : string) : M Buffer := λ s,
  if negb (truthy key) then (Err (InvalidObjectNameError key), s)
  else
    match objects s !! key with
    | Some b => (Ok b, s)
    | None => (Err (S3Error "NoSuchKey"), s)
    end.

Definition minio_putObject (key : string) (b : Buffer) : M () := λ s,
  if negb (truthy key) then (Err (InvalidObjectNameError key), s)
  else (Ok (), with_objects (insert key b) s).

Definition minio_removeObject (key : string) : M () := λ s,
  if negb (truthy key) then (Err (InvalidObjectNameError key), s)
  else (Ok (), with_objects (delete key) s).

(** *** Search index *)

Definition with_searchIndex (f : gmap string EsCanvas → gmap string EsCanvas)
    (s : State W) : State W :=
  Build_State (db s) (dbLog s) (objects s) (f (searchIndex s))
    (deleteKnowledgeQueue s) (serviceCalls s) (clock s) (world s).

(** Modelled from the spec: [ElasticsearchService] is not part of the sources.
    The search index adapter upserts the summary of a canvas under the id of
    the canvas; an upsert keeps the creation time it is not given. *)
Definition elasticsearch_upsertCanvas (id : string) (doc : EsCanvas) : M () := λ s,
  let created := match es_createdAt doc, searchIndex s !! id with
                 | None, Some old => es_createdAt old
                 | c, _ => c
                 end in
  (Ok (), with_searchIndex
            (insert id {| es_title := es_title doc; es_createdAt := created;
                          es_updatedAt := es_updatedAt doc; es_uid := es_uid doc |}) s).

(** Modelled from the spec: [ElasticsearchService] is not part of the sources.
    The search index adapter deletes the summary stored under an id. *)
Definition elasticsearch_deleteCanvas (id : string) : M () := λ s,
  (Ok (), with_searchIndex (delete id) s).

(** *** Job queue *)

Definition with_deleteKnowledgeQueue
    (f : list DeleteKnowledgeEntityJobData → list DeleteKnowledgeEntityJobData)
    (s : State W) : State W :=
  Build_State (db s) (dbLog s) (objects s) (searchIndex s)
    (f (deleteKnowledgeQueue s)) (serviceCalls s) (clock s) (world s).

(** BullMQ drops a job whose [jobId] is that of a job already in the queue. *)
Definition enqueue_job (job : DeleteKnowledgeEntityJobData)
    (queue : list DeleteKnowledgeEntityJobData) : list DeleteKnowledgeEntityJobData :=
  if bool_decide (job_entityId job ∈ map job_entityId queue)
  then queue
  else queue ++ [job].

Definition deleteKnowledgeQueue_add (job : DeleteKnowledgeEntityJobData) : M () := λ s,
  (Ok (), with_deleteKnowledgeQueue (enqueue_job job) s).

(** ** The operations of [CanvasService] *)

(** A canvas row with the id it is stored under, as Prisma returns it. *)
Definition CanvasPo : Type := string * Canvas.

Record CanvasDetail := {
  cd_canvas : CanvasPo;
  cd_minimapUrl : option string
}.

Definition minimapUrl_of (c : Canvas) : option string :=
  if truthy (cv_minimapStorageKey c)
  then Some (generateFileURL (cv_minimapStorageKey c))
  else None.

Definition listCanvases (user : User) (page pageSize : Z) : M (list CanvasDetail) :=
  canvases <~ prisma (canvas_findMany (λ c, owned_by (uid user) c && is_live c)
                        ((page - 1) * pageSize) pageSize);;
  ret (map (λ canvas, {| cd_canvas := canvas;
                         cd_minimapUrl := minimapUrl_of (snd canvas) |}) canvases).

Definition getCanvasDetail (user : User) (canvasId : string) : M CanvasDetail :=
  canvas <~ prisma (canvas_find canvasId (λ c, owned_by (uid user) c && is_live c));;
  match canvas with
  | None => throw CanvasNotFoundError
  | Some canvas =>
      ret {| cd_canvas := (canvasId, canvas); cd_minimapUrl := minimapUrl_of canvas |}
  end.

Definition getCanvasYDoc (stateStorageKey : string) : M (option YDoc) :=
  if negb (truthy stateStorageKey) then ret None
  else
    try_catch
      (state <~ minio_getObject stateStorageKey;;
       if (buffer_length state =? 0)%nat then throw (JsError "Canvas state is empty")
       else
         doc <~ lift (applyUpdate new_YDoc state);;
         ret (Some doc))
      (λ error, ret None).

Definition saveCanvasYDoc (stateStorageKey : string) (doc : YDoc) : M () :=
  minio_putObject stateStorageKey (encodeStateAsUpdate doc).

Record RawCanvasData := {
  raw_title : string;
  raw_nodes : list CanvasNode;
  raw_edges : list CanvasEdge;
  raw_owner : string * option UserRow;
  raw_minimapUrl : option string
}.

Definition getCanvasRawData (user : User) (canvasId : string) : M RawCanvasData :=
  canvas <~ prisma (canvas_find canvasId (λ c, owned_by (uid user) c && is_live c));;
  match canvas with
  | None => throw CanvasNotFoundError
  | Some canvas =>
      userPo <~ prisma (user_findUnique (uid user));;
      doc <~ getCanvasYDoc (cv_stateStorageKey canvas);;
      ret {| raw_title := cv_title canvas;
             raw_nodes := default [] (yd_nodes <$> doc);
             raw_edges := default [] (yd_edges <$> doc);
             raw_owner := (cv_uid canvas, userPo);
             raw_minimapUrl := minimapUrl_of canvas |}
  end.

(** [ydoc.getText('title').insert(0, title)] on a text that is empty *)
Definition set_yd_title (title : string) (doc : YDoc) : YDoc :=
  {| yd_title := title; yd_nodes := yd_nodes doc; yd_edges := yd_edges doc |}.

(** [ydoc.getText('title').insert(0, text)] on the text of a document made
    just before: the insertion reads [text.length], which throws for a text
    that is not given. *)
Definition ytext_insert (text : option string) (doc : YDoc) : Result YDoc :=
  match text with
  | Some text => Ok (set_yd_title text doc)
  | None => Err (TypeError "Cannot read properties of undefined (reading 'length')")
  end.

(** The title of the request is optional. Prisma takes a field that is
    undefined as not given, so the row is inserted with the default of the
    column; the text of the document is written after the insert. *)
Definition createCanvas (user : User) (title : option string) : M CanvasPo :=
  canvasId <~ call CallGenCanvasID (λ w, let '(id, w') := genCanvasID w in (Ok id, w'));;
  let stateStorageKey := "state/" +:+ canvasId in
  t <~ now;;
  canvas <~ prisma (canvas_create t (uid user) canvasId (default default_title title)
                      None stateStorageKey);;
  ydoc <~ lift (ytext_insert title new_YDoc);;
  saveCanvasYDoc stateStorageKey ydoc;;;
  elasticsearch_upsertCanvas (fst canvas)
    {| es_title := cv_title (snd canvas);
       es_createdAt := Some (cv_createdAt (snd canvas));
       es_updatedAt := cv_updatedAt (snd canvas);
       es_uid := cv_uid (snd canvas) |};;;
  ret canvas.

Definition deleteCanvas (user : User) (canvasId : string) (deleteAllFiles : bool) : M () :=
  canvas <~ prisma (canvas_find canvasId (λ c, owned_by (uid user) c && is_live c));;
  match canvas with
  | None => throw CanvasNotFoundError
  | Some canvas =>
      t <~ now;;
      let cleanups : list (M ()) :=
        [ void (prisma (canvas_update t canvasId (set_cv_deletedAt t)));
          elasticsearch_deleteCanvas canvasId ] in
      let cleanups :=
        if truthy (cv_stateStorageKey canvas)
        then cleanups ++ [minio_removeObject (cv_stateStorageKey canvas)]
        else cleanups in
      cleanups <~
        (if deleteAllFiles then
           relations <~ prisma (relation_findMany
                                  (λ r, bool_decide (rel_canvasId r = canvasId) && rel_live r));;
           let entities := map (λ r, (rel_entityId r, rel_entityType r)) relations in
           ret (cleanups ++
                map (λ entity,
                       deleteKnowledgeQueue_add
                         {| job_uid := cv_uid canvas;
                            job_entityId := fst entity;
                            job_entityType := snd entity |}) entities)
         else ret cleanups);;
      void (Promise_all cleanups)
  end.

(** *** Duplication *)

Record DuplicateCanvasRequest := {
  req_title : string;
  req_canvasId : string;
  req_duplicateEntities : bool
}.

Record DuplicateCanvasJobData := {
  jd_uid : string;
  jd_title : string;
  jd_sourceCanvasId : string;
  jd_targetCanvasId : string;
  jd_duplicateEntities : bool;
  jd_dupRecord : nat * DuplicateRecord
}.

(** [node.data.entityId = entityId] *)
Definition set_entityId (entityId : string) (node : CanvasNode) : CanvasNode :=
  {| node_type := node_type node;
     node_data := (λ data, {| nd_entityId := entityId; nd_title := nd_title data;
                               nd_metadata := nd_metadata data |}) <$> node_data node;
     node_rest := node_rest node |}.

(** The task that [_duplicateCanvas] runs for one node; the node it returns is
    the node as the task leaves it. *)
Definition duplicateNodeEntity (user_uid targetCanvasId : string) (node : CanvasNode)
    : M CanvasNode :=
  let entityType := node_type node in
  match node_data node with
  | None => throw (TypeError "Cannot destructure property 'entityId' of 'node.data'")
  | Some data =>
      let entityId := nd_entityId data in
      if String.eqb entityType "document" then
        doc <~ call (CallDuplicateDocument user_uid entityId (nd_title data))
                 (duplicateDocument user_uid entityId (nd_title data));;
        ret (match doc with Some docId => set_entityId docId node | None => node end)
      else if String.eqb entityType "resource" then
        resource <~ call (CallDuplicateResource user_uid entityId (nd_title data))
                      (duplicateResource user_uid entityId (nd_title data));;
        ret (match resource with
             | Some resourceId => set_entityId resourceId node
             | None => node
             end)
      else if String.eqb entityType "skillResponse" then
        result <~ call (CallDuplicateActionResult user_uid entityId targetCanvasId)
                    (duplicateActionResult user_uid entityId targetCanvasId);;
        ret (match result with Some resultId => set_entityId resultId node | None => node end)
      else ret node
  end.

Definition _duplicateCanvas (jobData : DuplicateCanvasJobData) : M () :=
  let uid := jd_uid jobData in
  let title := jd_title jobData in
  let sourceCanvasId := jd_sourceCanvasId jobData in
  let targetCanvasId := jd_targetCanvasId jobData in
  let dupRecord := jd_dupRecord jobData in
  user <~ prisma (user_findUnique uid);;
  match user with
  | None => ret ()
  | Some _ =>
      sourceCanvas <~ prisma (canvas_find sourceCanvasId is_live);;
      match sourceCanvas with
      | None => throw CanvasNotFoundError
      | Some sourceCanvas =>
          doc <~ (if truthy (cv_stateStorageKey sourceCanvas) then
                    state <~ minio_getObject (cv_stateStorageKey sourceCanvas);;
                    lift (applyUpdate new_YDoc state)
                  else ret new_YDoc);;
          let nodes := yd_nodes doc in
          nodes <~ (if jd_duplicateEntities jobData
                    then Promise_all (map (duplicateNodeEntity uid targetCanvasId) nodes)
                    else ret nodes);;
          (if bool_decide (cv_uid sourceCanvas ≠ uid)
           then call (CallDuplicateFilesNoCopy uid sourceCanvasId
                        (cv_uid sourceCanvas) targetCanvasId)
                  (duplicateFilesNoCopy uid sourceCanvasId
                     (cv_uid sourceCanvas) targetCanvasId)
           else ret ());;;
          let doc := {| yd_title := title; yd_nodes := nodes; yd_edges := yd_edges doc |} in
          let stateStorageKey := "state/" +:+ targetCanvasId in
          minio_putObject stateStorageKey (encodeStateAsUpdate doc);;;
          t <~ now;;
          prisma_transaction
            (tx_bind (canvas_update t targetCanvasId (set_cv_status "ready")) (λ _,
             tx_bind (duplicateRecord_update (fst dupRecord) "finish") (λ _,
             tx_ret ())))
      end
  end.

Definition duplicateCanvas (user : User) (param : DuplicateCanvasRequest)
    (checkOwnership : bool) : M CanvasPo :=
  let title := req_title param in
  let canvasId := req_canvasId param in
  canvas <~ prisma (canvas_find canvasId
                      (λ c, is_live c &&
                            (if checkOwnership then owned_by (uid user) c else true)));;
  match canvas with
  | None => throw CanvasNotFoundError
  | Some canvas =>
      newCanvasId <~ call CallGenCanvasID
                       (λ w, let '(id, w') := genCanvasID w in (Ok id, w'));;
      let newTitle := or_else title (cv_title canvas) in
      let stateStorageKey := "state/" +:+ newCanvasId in
      t <~ now;;
      newCanvas <~ prisma (canvas_create t (uid user) newCanvasId newTitle
                             (Some "duplicating") stateStorageKey);;
      dupRecord <~ prisma (duplicateRecord_create
                             {| dr_uid := uid user; dr_sourceId := canvasId;
                                dr_targetId := newCanvasId; dr_entityType := "canvas";
                                dr_status := "pending" |});;
      try_catch
        (_duplicateCanvas
           {| jd_uid := uid user; jd_title := newTitle; jd_sourceCanvasId := canvasId;
              jd_targetCanvasId := newCanvasId;
              jd_duplicateEntities := req_duplicateEntities param;
              jd_dupRecord := dupRecord |})
        (λ error,
           prisma (duplicateRecord_update (fst dupRecord) "failed");;;
           throw error);;;
      ret newCanvas
  end.

(** The statements of [duplicateCanvas] that come before its [try] block: they
    yield the row of the target canvas and the job handed to
    [_duplicateCanvas]. *)
Definition duplicateCanvas_setup (user : User) (param : DuplicateCanvasRequest)
    (checkOwnership : bool) : M (CanvasPo * DuplicateCanvasJobData) :=
  let title := req_title param in
  let canvasId := req_canvasId param in
  canvas <~ prisma (canvas_find canvasId
                      (λ c, is_live c &&
                            (if checkOwnership then owned_by (uid user) c else true)));;
  match canvas with
  | None => throw CanvasNotFoundError
  | Some canvas =>
      newCanvasId <~ call CallGenCanvasID
                       (λ w, let '(id, w') := genCanvasID w in (Ok id, w'));;
      let newTitle := or_else title (cv_title canvas) in
      let stateStorageKey := "state/" +:+ newCanvasId in
      t <~ now;;
      newCanvas <~ prisma (canvas_create t (uid user) newCanvasId newTitle
                             (Some "duplicating") stateStorageKey);;
      dupRecord <~ prisma (duplicateRecord_create
                             {| dr_uid := uid user; dr_sourceId := canvasId;
                                dr_targetId := newCanvasId; dr_entityType := "canvas";
                                dr_status := "pending" |});;
      ret (newCanvas,
           {| jd_uid := uid user; jd_title := newTitle; jd_sourceCanvasId := canvasId;
              jd_targetCanvasId := newCanvasId;
              jd_duplicateEntities := req_duplicateEntities param;
              jd_dupRecord := dupRecord |})
  end.

(** The [catch] block of [duplicateCanvas]. *)
Definition duplicateCanvas_catch {A} (dupRecord : nat * DuplicateRecord) (error : Error) : M A :=
  prisma (duplicateRecord_update (fst dupRecord) "failed");;;
  throw error.

(** *** Sessions of the collaboration service *)

(** Modelled from the spec: [CollabService] is not part of the sources. Its
    [loadDocument] fetches the blob at the state key of the entity it is given
    and fails soft: a missing key, a missing, empty or malformed blob leave the
    document empty. *)
Definition collab_loadDocument (canvas : Canvas) : M YDoc :=
  doc <~ getCanvasYDoc (cv_stateStorageKey canvas);;
  ret (default new_YDoc doc).

(** Modelled from the spec: [CollabService] is not part of the sources. Its
    [storeDocument] persists the snapshot of a document under the state key of
    the entity. *)
Definition collab_storeDocument (canvas : Canvas) (document : YDoc) : M () := λ s,
  (Ok (), with_objects (insert (cv_stateStorageKey canvas) (encodeStateAsUpdate document)) s).

(** Modelled from the spec: [CollabService] is not part of the sources. A
    direct connection is a take-mutate-release session: it loads the document
    of the entity, [transact] applies the mutation as one step, and
    [disconnect] flushes the document to the state key of the entity. *)
Definition collab_directConnection (canvas : Canvas) (transact : YDoc → YDoc) : M () :=
  document <~ collab_loadDocument canvas;;
  collab_storeDocument canvas (transact document).

(** *** updateCanvas *)

Definition set_cv_title (title : string) (c : Canvas) : Canvas :=
  {| cv_uid := cv_uid c; cv_title := title; cv_status := cv_status c;
     cv_stateStorageKey := cv_stateStorageKey c;
     cv_minimapStorageKey := cv_minimapStorageKey c;
     cv_createdAt := cv_createdAt c; cv_updatedAt := cv_updatedAt c;
     cv_deletedAt := cv_deletedAt c |}.

Definition set_cv_minimapStorageKey (key : string) (c : Canvas) : Canvas :=
  {| cv_uid := cv_uid c; cv_title := cv_title c; cv_status := cv_status c;
     cv_stateStorageKey := cv_stateStorageKey c;
     cv_minimapStorageKey := key;
     cv_createdAt := cv_createdAt c; cv_updatedAt := cv_updatedAt c;
     cv_deletedAt := cv_deletedAt c |}.

Definition updateCanvas (user : User) (canvasId : string)
    (title minimapStorageKey : option string) : M CanvasPo :=
  let cond := λ c, owned_by (uid user) c && is_live c in
  canvas <~ prisma (canvas_find canvasId cond);;
  match canvas with
  | None => throw CanvasNotFoundError
  | Some canvas =>
      let originalMinimap := cv_minimapStorageKey canvas in
      let updates := λ c,
        let c := match title with Some title => set_cv_title title c | None => c end in
        match minimapStorageKey with
        | Some key => set_cv_minimapStorageKey key c
        | None => c
        end in
      t <~ now;;
      updatedCanvas <~ prisma_transaction (canvas_update_where t canvasId cond updates);;
      (match title with
       | Some title => collab_directConnection updatedCanvas (set_yd_title title)
       | None => ret ()
       end);;;
      (match minimapStorageKey with
       | Some key =>
           if truthy originalMinimap && negb (String.eqb key originalMinimap)
           then minio_removeObject originalMinimap
           else ret ()
       | None => ret ()
       end);;;
      elasticsearch_upsertCanvas canvasId
        {| es_title := cv_title updatedCanvas; es_createdAt := None;
           es_updatedAt := cv_updatedAt updatedCanvas; es_uid := cv_uid updatedCanvas |};;;
      ret (canvasId, updatedCanvas)
  end.

(** *** Entity relations *)

Record Entity := {
  entityId : string;
  entityType : string
}.

#[global] Instance Entity_eq_dec : EqDecision Entity.
Proof. solve_decision. Defined.

(** [node.data?.entityId] *)
Definition node_entityId (node : CanvasNode) : string :=
  match node_data node with
  | Some data => nd_entityId data
  | None => ""
  end.

(** The entities that the nodes of a document refer to. *)
Definition entities_of_nodes (nodes : list CanvasNode) : list Entity :=
  filter (λ entity, truthy (entityId entity) && truthy (entityType entity) = true)
    (map (λ node, {| entityId := node_entityId node; entityType := node_type node |}) nodes).

Definition syncCanvasEntityRelation (canvasId : string) : M () :=
  canvas <~ prisma (canvas_find canvasId (λ _, true));;
  match canvas with
  | None => throw CanvasNotFoundError
  | Some canvas =>
      ydoc <~ collab_loadDocument canvas;;
      let nodes := yd_nodes ydoc in
      let entities := entities_of_nodes nodes in
      existingRelations <~
        prisma (relation_findMany
                  (λ r, bool_decide (rel_canvasId r = canvasId) && rel_live r));;
      let entityIds : gset string := list_to_set (map entityId entities) in
      let relationsToRemove :=
        filter (λ relation, rel_entityId relation ∉ entityIds) existingRelations in
      let existingEntityIds : gset string :=
        list_to_set (map rel_entityId existingRelations) in
      let relationsToCreate :=
        filter (λ entity, entityId entity ∉ existingEntityIds) entities in
      t <~ now;;
      void (Promise_all
        [ void (prisma (relation_updateMany
                  (λ r, bool_decide (rel_canvasId r = canvasId)
                        && bool_decide (rel_entityId r ∈ map rel_entityId relationsToRemove)
                        && rel_live r) t));
          void (prisma (relation_createMany
                  (map (λ entity, (canvasId, entityId entity, entityType entity))
                     relationsToCreate))) ])
  end.

(** [distinct: [key]]: one row for each value of the key, the first one. *)
Fixpoint distinct_by {A K} `{EqDecision K} (key : A → K) (seen : list K) (rows : list A) : list A :=
  match rows with
  | [] => []
  | r :: rows' =>
      if bool_decide (key r ∈ seen) then distinct_by key seen rows'
      else r :: distinct_by key (key r :: seen) rows'
  end.

(** [entities.find((e) => e.entityId === entityId && e.entityType === entityType)]
    behind the guard [entityId && entityType] *)
Definition node_matches (entities : list Entity) (node : CanvasNode) : bool :=
  let entityId' := node_entityId node in
  let entityType' := node_type node in
  truthy entityId' && truthy entityType' &&
  existsb (λ e, String.eqb (entityId e) entityId' && String.eqb (entityType e) entityType')
    entities.

(** [nodes.forEach((node, index) => ...)], collecting the indices to remove *)
Fixpoint indices_toRemove (entities : list Entity) (index : nat) (nodes : list CanvasNode)
    : list nat :=
  match nodes with
  | [] => []
  | node :: nodes' =>
      if node_matches entities node
      then index :: indices_toRemove entities (S index) nodes'
      else indices_toRemove entities (S index) nodes'
  end.

(** The body of the transaction on the document: the indices are collected,
    reversed, and each is deleted with [nodes.delete(index, 1)]. *)
Definition remove_entity_nodes (entities : list Entity) (document : YDoc) : YDoc :=
  let nodes := yd_nodes document in
  let toRemove := indices_toRemove entities 0 nodes in
  let toRemove := reverse toRemove in
  {| yd_title := yd_title document;
     yd_nodes := foldl (λ nodes index, delete index nodes) nodes toRemove;
     yd_edges := yd_edges document |}.

Definition relation_of_entities (entities : list Entity) (r : CanvasEntityRelation) : bool :=
  bool_decide (rel_entityId r ∈ map entityId entities)
  && bool_decide (rel_entityType r ∈ map entityType entities)
  && rel_live r.

Definition deleteEntityNodesFromCanvas (entities : list Entity) (canvasId : string) : M () :=
  canvas <~ prisma (canvas_find canvasId (λ _, true));;
  match canvas with
  | None => ret ()
  | Some canvas =>
      collab_directConnection canvas (remove_entity_nodes entities);;;
      t <~ now;;
      void (prisma (relation_updateMany
                      (λ r, bool_decide (rel_canvasId r = canvasId)
                            && relation_of_entities entities r) t))
  end.

Definition deleteEntityNodesFromCanvases (entities : list Entity) : M () :=
  relations <~ prisma (tx_bind (relation_findMany (relation_of_entities entities))
                         (λ rows, tx_ret (distinct_by rel_canvasId [] rows)));;
  let canvasIds := map rel_canvasId relations in
  if (length canvasIds =? 0)%nat then ret ()
  else void (Promise_all (map (deleteEntityNodesFromCanvas entities) canvasIds)).

(** *** Auto-naming *)

(** The line feed, one code unit. *)
Definition newline : Utf16 := [10%N].

(** [content.slice(0, 500)]: the first 500 code units. *)
Definition slice_500 (content : Utf16) : Utf16 := take 500 content.

Definition contentItem_of_result (result : ActionResult) : M CanvasContentItem :=
  steps <~ prisma (actionStep_findMany
                     (λ s, String.eqb (as_resultId s) (ar_resultId result)
                           && (as_version s =? ar_version result)));;
  query <~ lift (parseQuery (default "{}" (ar_input result)));;
  let question := default (ar_title result) query in
  let answer := utf16_join newline (map (λ s, slice_500 (as_content s)) steps) in
  ret (Answered question answer).

Definition autoNameCanvas (user : User) (canvasId : string) (directUpdate : bool) : M string :=
  canvas <~ prisma (canvas_find canvasId (λ c, owned_by (uid user) c && is_live c));;
  match canvas with
  | None => throw CanvasNotFoundError
  | Some canvas =>
      results <~ prisma (actionResult_findMany
                           (λ r, String.eqb (ar_targetId r) canvasId
                                 && String.eqb (ar_targetType r) "canvas"));;
      contentItems <~ Promise_all (map contentItem_of_result results);;
      contentItems <~
        (if (length contentItems =? 0)%nat then
           relations <~
             prisma (relation_findMany
                       (λ r, String.eqb (rel_canvasId r) canvasId
                             && bool_decide (rel_entityType r ∈ ["resource"; "document"])
                             && rel_live r));;
           documents <~
             prisma (document_findMany
                       (λ d, bool_decide (doc_docId d ∈ map rel_entityId relations)));;
           resources <~
             prisma (resource_findMany
                       (λ r, bool_decide (res_resourceId r ∈ map rel_entityId relations)));;
           ret (contentItems
                ++ map (λ d, Previewed (doc_title d) (doc_contentPreview d)) documents
                ++ map (λ r, Previewed (res_title r) (res_contentPreview r)) resources)
         else ret contentItems);;
      if (length contentItems =? 0)%nat then ret ""
      else
        defaultModel <~ call CallGetDefaultModel getDefaultModel;;
        newTitle <~ call (CallGenerateCanvasTitle contentItems)
                      (generateCanvasTitle contentItems defaultModel);;
        (if directUpdate && truthy newTitle
         then void (updateCanvas user canvasId (Some newTitle) None)
         else ret ());;;
        ret newTitle
  end.

Record AutoNameCanvasJobData := {
  aj_uid : string;
  aj_canvasId : string
}.

(** The worker of the auto-naming queue: a job of a user that has no row is
    dropped with a warning. *)
Definition autoNameCanvasFromQueue (jobData : AutoNameCanvasJobData) : M () :=
  let uid := aj_uid jobData in
  let canvasId := aj_canvasId jobData in
  user <~ prisma (user_findUnique uid);;
  match user with
  | None => ret ()
  | Some _ =>
      result <~ autoNameCanvas {| uid := uid |} canvasId true;;
      ret ()
  end.

End Service.

(** ** Test doubles of the collaborators

    The state of the doubles counts the ids handed out so far. *)

Inductive Behaviour :=
| Forks           (* a duplication makes an entity and returns its id *)
| ReturnsNothing  (* a duplication returns nothing *)
| Throws.         (* a duplication throws *)

Definition test_duplicate (b : Behaviour) (prefix : string) (w : nat)
    : Result (option string) * nat :=
  match b with
  | Forks => (Ok (Some (prefix +:+ pretty w)), S w)
  | ReturnsNothing => (Ok None, w)
  | Throws => (Err (ServiceError "storage quota exceeded"), w)
  end.

Definition test_collaborators (b : Behaviour) : Collaborators nat := {|
  genCanvasID := λ w, ("c-" +:+ pretty w, S w);
  generateFileURL := λ key, "https://static.test/" +:+ key;
  duplicateDocument := λ _ _ _, test_duplicate b "d-";
  duplicateResource := λ _ _ _, test_duplicate b "r-";
  duplicateActionResult := λ _ _ _, test_duplicate b "ar-";
  duplicateFilesNoCopy := λ _ _ _ _ w, (Ok (), w);
  getDefaultModel := λ w, (Ok (Some {| model_name := "test-model" |}), w);
  generateCanvasTitle := λ _ _ w, (Ok "Generated title", w);
  parseQuery := λ _, Ok None
|}.

Definition empty_db : Db := {|
  canvases := ∅; duplicateRecords := ∅; relations := []; users := ∅;
  actionResults := []; actionSteps := []; documents := []; resources := []
|}.

Definition test_state (d : Db) (blobs : gmap string Buffer) : State nat :=
  Build_State d [] blobs ∅ [] [] 1000 0%nat.

Definition alice : User := {| uid := "u-alice" |}.
Definition bob : User := {| uid := "u-bob" |}.

Definition a_user_row : UserRow :=
  {| usr_name := "alice"; usr_nickname := "Alice"; usr_avatar := "" |}.

Definition a_canvas (owner : string) (key : string) (updated : Z) (deleted : option Z) : Canvas :=
  {| cv_uid := owner; cv_title := "Plan"; cv_status := "ready";
     cv_stateStorageKey := key; cv_minimapStorageKey := "";
     cv_createdAt := 1; cv_updatedAt := updated; cv_deletedAt := deleted |}.

Definition a_node (type entityId : string) : CanvasNode :=
  {| node_type := type;
     node_data := Some {| nd_entityId := entityId; nd_title := "t"; nd_metadata := "{}" |};
     node_rest := "pos" |}.

Definition a_doc (nodes : list CanvasNode) : YDoc :=
  {| yd_title := "Plan"; yd_nodes := nodes; yd_edges := [] |}.

(** ** Concrete states *)

(** A database with two users and a canvas of the first, which has a document
    node and a memo node. *)
Definition db_alice : Db :=
  {| canvases := {[ "c-src" := a_canvas "u-alice" "state/c-src" 5 None ]};
     duplicateRecords := ∅; relations := [];
     users := {[ "u-alice" := a_user_row; "u-bob" := a_user_row ]};
     actionResults := []; actionSteps := []; documents := []; resources := [] |}.

Definition blobs_alice : gmap string Buffer :=
  {[ "state/c-src" :=
       UpdateBuffer (a_doc [a_node "document" "doc-src"; a_node "memo" "memo-src"]) ]}.

Definition s_alice : State nat := test_state db_alice blobs_alice.

(** The same, but the table of users is empty. *)
Definition db_no_user : Db :=
  {| canvases := {[ "c-src" := a_canvas "u-alice" "state/c-src" 5 None ]};
     duplicateRecords := ∅; relations := []; users := ∅;
     actionResults := []; actionSteps := []; documents := []; resources := [] |}.

Definition s_no_user : State nat := test_state db_no_user blobs_alice.

Definition duplicate_request (fork : bool) : DuplicateCanvasRequest :=
  {| req_title := ""; req_canvasId := "c-src"; req_duplicateEntities := fork |}.

(** A canvas whose only node is a resource, with a live relation row that
    gives the same entity id the type document. *)
Definition db_relation : Db :=
  {| canvases := {[ "c-1" := a_canvas "u-alice" "state/c-1" 5 None ]};
     duplicateRecords := ∅;
     relations := [ {| rel_canvasId := "c-1"; rel_entityId := "e-1";
                       rel_entityType := "document"; rel_deletedAt := None |} ];
     users := {[ "u-alice" := a_user_row ]};
     actionResults := []; actionSteps := []; documents := []; resources := [] |}.

Definition s_relation : State nat :=
  test_state db_relation {[ "state/c-1" := UpdateBuffer (a_doc [a_node "resource" "e-1"]) ]}.

(** Three canvases of one user: one deleted, two live. *)
Definition db_listing : Db :=
  {| canvases := {[ "c-old" := a_canvas "u-alice" "state/c-old" 9 (Some 10);
                    "c-a" := a_canvas "u-alice" "state/c-a" 3 None;
                    "c-b" := a_canvas "u-alice" "state/c-b" 7 None ]};
     duplicateRecords := ∅; relations := []; users := {[ "u-alice" := a_user_row ]};
     actionResults := []; actionSteps := []; documents := []; resources := [] |}.

Definition s_listing : State nat := test_state db_listing ∅.

(** A canvas with a document node and a memo node, and the live relation row
    of the document. *)
Definition db_document : Db :=
  {| canvases := {[ "c-1" := a_canvas "u-alice" "state/c-1" 5 None ]};
     duplicateRecords := ∅;
     relations := [ {| rel_canvasId := "c-1"; rel_entityId := "d-1";
                       rel_entityType := "document"; rel_deletedAt := None |} ];
     users := {[ "u-alice" := a_user_row ]};
     actionResults := []; actionSteps := []; documents := []; resources := [] |}.

Definition s_document : State nat :=
  test_state db_document
    {[ "state/c-1" := UpdateBuffer (a_doc [a_node "document" "d-1"; a_node "memo" "m-1"]) ]}.

(** Collaborators whose parser refuses an input that is cut short. *)
Definition parsing_collaborators : Collaborators nat := {|
  genCanvasID := λ w, ("c-" +:+ pretty w, S w);
  generateFileURL := λ key, "https://static.test/" +:+ key;
  duplicateDocument := λ _ _ _, test_duplicate Forks "d-";
  duplicateResource := λ _ _ _, test_duplicate Forks "r-";
  duplicateActionResult := λ _ _ _, test_duplicate Forks "ar-";
  duplicateFilesNoCopy := λ _ _ _ _ w, (Ok (), w);
  getDefaultModel := λ w, (Ok (Some {| model_name := "test-model" |}), w);
  generateCanvasTitle := λ _ _ w, (Ok "Generated title", w);
  parseQuery := λ input,
    if String.eqb input "{" then Err (JsError "Unexpected end of JSON input") else Ok None
|}.

(** The canvas of the first state, but nothing is stored under its state
    key. *)
Definition s_unreadable : State nat := test_state db_alice ∅.

(** The bytes of an image: no update of a document. *)
Definition an_image : Buffer := MalformedBuffer (JsError "Integer out of Range").

(** A canvas with a minimap. *)
Definition db_minimap : Db :=
  {| canvases := {[ "c-1" := {| cv_uid := "u-alice"; cv_title := "Plan"; cv_status := "ready";
                                cv_stateStorageKey := "state/c-1";
                                cv_minimapStorageKey := "minimap/old";
                                cv_createdAt := 1; cv_updatedAt := 5;
                                cv_deletedAt := None |} ]};
     duplicateRecords := ∅; relations := []; users := {[ "u-alice" := a_user_row ]};
     actionResults := []; actionSteps := []; documents := []; resources := [] |}.

Definition s_minimap : State nat :=
  test_state db_minimap {[ "minimap/old" := an_image ]}.

(** A canvas with one action result, which has two steps; the input of the
    result is as given. The content of the second step is 499 letters and one
    character outside the basic plane, which takes two code units. *)
Definition db_answered (input : option string) : Db :=
  {| canvases := {[ "c-1" := a_canvas "u-alice" "state/c-1" 5 None ]};
     duplicateRecords := ∅; relations := []; users := {[ "u-alice" := a_user_row ]};
     actionResults := [ {| ar_resultId := "ar-1"; ar_version := 0;
                           ar_title := "What is a canvas?"; ar_input := input;
                           ar_targetId := "c-1"; ar_targetType := "canvas" |} ];
     actionSteps := [ {| as_resultId := "ar-1"; as_version := 0;
                         as_content := utf16_of_ascii "A board of nodes." |};
                      {| as_resultId := "ar-1"; as_version := 0;
                         as_content := replicate 499 97%N ++ [55357%N; 56832%N] |} ];
     documents := []; resources := [] |}.

Definition s_answered (input : option string) : State nat :=
  test_state (db_answered input)
    {[ "state/c-1" := UpdateBuffer (a_doc [a_node "memo" "m-1"]) ]}.

(** A canvas with a document node and a memo node, and two live relation rows
    of the document: the row of the canvas, and a row of a canvas id that has
    no canvas row. *)
Definition db_orphan : Db :=
  {| canvases := {[ "c-1" := a_canvas "u-alice" "state/c-1" 5 None ]};
     duplicateRecords := ∅;
     relations := [ {| rel_canvasId := "c-1"; rel_entityId := "d-1";
                       rel_entityType := "document"; rel_deletedAt := None |};
                    {| rel_canvasId := "c-2"; rel_entityId := "d-1";
                       rel_entityType := "document"; rel_deletedAt := None |} ];
     users := {[ "u-alice" := a_user_row ]};
     actionResults := []; actionSteps := []; documents := []; resources := [] |}.

Definition s_orphan : State nat :=
  test_state db_orphan
    {[ "state/c-1" := UpdateBuffer (a_doc [a_node "document" "d-1"; a_node "memo" "m-1"]) ]}.

(** A canvas whose only node is a document node with an empty entity id, and
    the live relation row of that pair. *)
Definition db_unnamed : Db :=
  {| canvases := {[ "c-1" := a_canvas "u-alice" "state/c-1" 5 None ]};
     duplicateRecords := ∅;
     relations := [ {| rel_canvasId := "c-1"; rel_entityId := "";
                       rel_entityType := "document"; rel_deletedAt := None |} ];
     users := {[ "u-alice" := a_user_row ]};
     actionResults := []; actionSteps := []; documents := []; resources := [] |}.

Definition s_unnamed : State nat :=
  test_state db_unnamed {[ "state/c-1" := UpdateBuffer (a_doc [a_node "document" ""]) ]}.

(** * Vocabulary of the properties *)

Section Vocabulary.
Context {W : Type} {collaborators : Collaborators W}.
Implicit Types (s : State W) (user : User).

(** The rows that [listCanvases] may return for a user. *)
Definition listed_for user s (d : CanvasDetail) : Prop :=
  canvases (db s) !! fst (cd_canvas d) = Some (snd (cd_canvas d))
  ∧ cv_uid (snd (cd_canvas d)) = uid user
  ∧ cv_deletedAt (snd (cd_canvas d)) = None.

Definition newest_updated_first (a b : CanvasDetail) : Prop :=
  cv_updatedAt (snd (cd_canvas b)) ≤ cv_updatedAt (snd (cd_canvas a)).

(** The live relation rows of a canvas. *)
Definition live_relations (canvasId : string) (d : Db) : list CanvasEntityRelation :=
  filter (λ r, rel_canvasId r = canvasId ∧ rel_deletedAt r = None) (relations d).

(** What a call of an injected service may change: the state of the services
    and the record of the calls, nothing of the stores of the canvas
    service. *)
Definition only_services s s' : Prop :=
  db s' = db s ∧ dbLog s' = dbLog s ∧ objects s' = objects s
  ∧ searchIndex s' = searchIndex s
  ∧ deleteKnowledgeQueue s' = deleteKnowledgeQueue s
  ∧ clock s' = clock s.

(** How the node written to the target relates to the node of the source when
    entities are duplicated: a node of a duplicable type for which the service
    returned an entity has the id of that entity and is otherwise the same; any
    other node is the same. *)
Inductive forked (user_uid targetCanvasId : string) : CanvasNode → CanvasNode → Prop :=
| forked_document node data w docId w' :
    node_type node = "document" → node_data node = Some data →
    duplicateDocument user_uid (nd_entityId data) (nd_title data) w = (Ok (Some docId), w') →
    forked user_uid targetCanvasId node (set_entityId docId node)
| forked_resource node data w resourceId w' :
    node_type node = "resource" → node_data node = Some data →
    duplicateResource user_uid (nd_entityId data) (nd_title data) w
      = (Ok (Some resourceId), w') →
    forked user_uid targetCanvasId node (set_entityId resourceId node)
| forked_skillResponse node data w resultId w' :
    node_type node = "skillResponse" → node_data node = Some data →
    duplicateActionResult user_uid (nd_entityId data) targetCanvasId w
      = (Ok (Some resultId), w') →
    forked user_uid targetCanvasId node (set_entityId resultId node)
| forked_nothing_returned node data w w' :
    node_data node = Some data →
    (node_type node = "document"
     ∧ duplicateDocument user_uid (nd_entityId data) (nd_title data) w = (Ok None, w'))
    ∨ (node_type node = "resource"
       ∧ duplicateResource user_uid (nd_entityId data) (nd_title data) w = (Ok None, w'))
    ∨ (node_type node = "skillResponse"
       ∧ duplicateActionResult user_uid (nd_entityId data) targetCanvasId w = (Ok None, w')) →
    forked user_uid targetCanvasId node node
| forked_other node :
    node_type node ∉ ["document"; "resource"; "skillResponse"] →
    forked user_uid targetCanvasId node node.

(** The nodes that a reader finds under a state key: those of the document
    stored there, none when [getCanvasYDoc] finds no document. *)
Definition stored_nodes (key : string) s : list CanvasNode :=
  match fst (getCanvasYDoc key s) with
  | Ok (Some doc) => yd_nodes doc
  | _ => []
  end.


(** The statuses that the commits of a log write to a duplicate record, in the
    order of the log. *)
Definition status_updates (pk : nat) (log : list (list DbOp)) : list string :=
  omap (λ op, match op with
              | DuplicateRecordUpdate pk' status =>
                  if bool_decide (pk' = pk) then Some status else None
              | _ => None
              end) (concat log).

(** Both rows were inserted by one commit of the log. *)
Definition created_in_one_commit (canvasId : string) (pk : nat) (log : list (list DbOp)) : Prop :=
  Exists (λ ops, CanvasCreate canvasId ∈ ops ∧ DuplicateRecordCreate pk ∈ ops) log.




(** The relation row that the reconciliation inserts for an entity. *)
Definition relation_for (canvasId : string) (entity : Entity) : CanvasEntityRelation :=
  {| rel_canvasId := canvasId; rel_entityId := entityId entity;
     rel_entityType := entityType entity; rel_deletedAt := None |}.

(** The entity that a node refers to. *)
Definition entity_of_node (node : CanvasNode) : Entity :=
  {| entityId := node_entityId node; entityType := node_type node |}.

(** The entity that a relation row refers to. *)
Definition entity_of_relation (r : CanvasEntityRelation) : Entity :=
  {| entityId := rel_entityId r; entityType := rel_entityType r |}.


(** How far [deleteEntityNodesFromCanvases] has got when the canvases of
    [processed] have had their task, from the state [s0] it started in: a
    relation row is as it was or, if it was live and for the entities, is
    soft-deleted, and it is soft-deleted if its canvas is processed and has a
    row; a stored document has the nodes it had or has lost the matching ones,
    and has lost them if its canvas is processed. *)
Definition relation_progress (entities : list Entity) (canvases0 : gmap string Canvas)
    (processed : list string) (r0 r : CanvasEntityRelation) : Prop :=
  (r = r0 ∨ ∃ t, relation_of_entities entities r0 = true ∧ r = soft_delete t r0)
  ∧ (rel_canvasId r0 ∈ processed → is_Some (canvases0 !! rel_canvasId r0) →
     relation_of_entities entities r0 = true → rel_deletedAt r ≠ None).

Definition removal_progress (entities : list Entity) s0 (processed : list string) s : Prop :=
  canvases (db s) = canvases (db s0)
  ∧ (∀ key, stored_nodes key s = stored_nodes key s0
            ∨ stored_nodes key s
              = filter (λ n, node_matches entities n = false) (stored_nodes key s0))
  ∧ (∀ canvasId c, canvasId ∈ processed → canvases (db s0) !! canvasId = Some c →
       stored_nodes (cv_stateStorageKey c) s
       = filter (λ n, node_matches entities n = false)
           (stored_nodes (cv_stateStorageKey c) s0))
  ∧ Forall2 (relation_progress entities (canvases (db s0)) processed)
      (relations (db s0)) (relations (db s)).


(** A computation keeps a relation between the state it starts in and the
    state it ends in, whatever its result. *)
Definition frames {A} (P : State W → State W → Prop) (m : M A) : Prop :=
  ∀ s r s', m s = (r, s') → P s s'.

(** What a duplication may change besides the state of the injected services,
    the log of commits and the clock: the canvas row of the target, the
    duplicate record of the run and the object under the state key of the
    target. *)
Definition duplication_frame (targetCanvasId : string) (pk : nat) s s' : Prop :=
  relations (db s') = relations (db s)
  ∧ users (db s') = users (db s)
  ∧ searchIndex s' = searchIndex s
  ∧ deleteKnowledgeQueue s' = deleteKnowledgeQueue s
  ∧ (∀ canvasId, canvasId ≠ targetCanvasId →
       canvases (db s') !! canvasId = canvases (db s) !! canvasId)
  ∧ (∀ pk', pk' ≠ pk → duplicateRecords (db s') !! pk' = duplicateRecords (db s) !! pk')
  ∧ (∀ key, key ≠ "state/" +:+ targetCanvasId → objects s' !! key = objects s !! key).

(** The action results that target a canvas. *)
Definition results_of (canvasId : string) (d : Db) : list ActionResult :=
  filter (λ r, ar_targetId r = canvasId ∧ ar_targetType r = "canvas") (actionResults d).

(** The item that auto-naming makes of an action result whose input parses:
    the question is the query of the input, or the title of the result when
    the input has none; the answer joins the first 500 UTF-16 code units of
    each step of the result with line feeds, in the order of the steps. *)
Definition answered_by (d : Db) (result : ActionResult) (item : CanvasContentItem) : Prop :=
  ∃ query,
    parseQuery (default "{}" (ar_input result)) = Ok query
    ∧ item = Answered (default (ar_title result) query)
               (utf16_join newline
                  (map (λ step, slice_500 (as_content step))
                     (filter (λ step, as_resultId step = ar_resultId result
                                      ∧ as_version step = ar_version result)
                        (actionSteps d)))).

(** The previews of the documents, then of the resources, whose id is the
    entity id of a live document or resource relation of a canvas. *)
Definition previews_of (canvasId : string) (d : Db) : list CanvasContentItem :=
  let entityIds :=
    map rel_entityId
      (filter (λ r, rel_canvasId r = canvasId
                    ∧ rel_entityType r ∈ ["resource"; "document"]
                    ∧ rel_deletedAt r = None) (relations d)) in
  map (λ doc, Previewed (doc_title doc) (doc_contentPreview doc))
    (filter (λ doc, doc_docId doc ∈ entityIds) (documents d))
  ++ map (λ res, Previewed (res_title res) (res_contentPreview res))
       (filter (λ res, res_resourceId res ∈ entityIds) (resources d)).

(** The items from which a title is generated: one per action result of the
    canvas, in the order of the table; the previews only when there is no
    action result. *)
Definition content_of (canvasId : string) (d : Db) (items : list CanvasContentItem) : Prop :=
  ∃ answered,
    Forall2 (answered_by d) (results_of canvasId d) answered
    ∧ items = match answered with [] => previews_of canvasId d | _ => answered end.

(** The calls that auto-naming makes on the injected services for the items
    it has collected. *)
Definition naming_calls (items : list CanvasContentItem) : list ServiceCall :=
  match items with
  | [] => []
  | _ => [CallGetDefaultModel; CallGenerateCanvasTitle items]
  end.

(** The call that a duplication makes for a node when entities are
    duplicated: one for a document, a resource or a skill response, none for a
    node of another type. *)
Definition duplication_call (user_uid targetCanvasId : string) (node : CanvasNode)
    : list ServiceCall :=
  match node_data node with
  | None => []
  | Some data =>
      if bool_decide (node_type node = "document")
      then [CallDuplicateDocument user_uid (nd_entityId data) (nd_title data)]
      else if bool_decide (node_type node = "resource")
      then [CallDuplicateResource user_uid (nd_entityId data) (nd_title data)]
      else if bool_decide (node_type node = "skillResponse")
      then [CallDuplicateActionResult user_uid (nd_entityId data) targetCanvasId]
      else []
  end.

End Vocabulary.

(** * Properties *)

Section Properties.
Context {W : Type} {collaborators : Collaborators W}.
Implicit Types (s : State W) (user : User).

(** ** The monad *)

Lemma commit_read {A} (f : Db → A) s : commit (tx_read f) s = (Ok (f (db s)), s).
Proof. destruct s. unfold commit, tx_read. simpl. by rewrite app_nil_r. Qed.

Lemma bind_Ok {A B} (m : M A) (k : A → M B) s a s1 :
  m s = (Ok a, s1) → bind m k s = k a s1.
Proof. unfold bind. by intros ->. Qed.

Lemma bind_Err {A B} (m : M A) (k : A → M B) s e s1 :
  m s = (Err e, s1) → bind m k s = (Err e, s1).
Proof. unfold bind. by intros ->. Qed.

Lemma bind_inv {A B} (m : M A) (k : A → M B) s r s' :
  bind m k s = (r, s') →
  (∃ a s1, m s = (Ok a, s1) ∧ k a s1 = (r, s')) ∨
  (∃ e, m s = (Err e, s') ∧ r = Err e).
Proof.
  unfold bind. destruct (m s) as [[a|e] s1]; intros H.
  - left. eauto.
  - right. inversion H; subst. eauto.
Qed.

Lemma prisma_read {A} (f : Db → A) s : prisma (tx_read f) s = (Ok (f (db s)), s).
Proof. apply commit_read. Qed.

Lemma canvas_find_run canvasId cond s :
  prisma (canvas_find canvasId cond) s =
  (Ok (match canvases (db s) !! canvasId with
       | Some c => if cond c then Some c else None
       | None => None
       end), s).
Proof. apply commit_read. Qed.

(** ** Listing and reading canvases *)

Lemma sublist_reverse {A} (l k : list A) :
  l `sublist_of` k → reverse l `sublist_of` reverse k.
Proof.
  induction 1 as [|x l k _ IH|x l k _ IH].
  - constructor.
  - rewrite !reverse_cons. by apply sublist_app.
  - rewrite reverse_cons. by apply sublist_inserts_r.
Qed.

Lemma paginate_sublist {A} skip take (rows page : list A) :
  paginate skip take rows = Ok page → page `sublist_of` rows.
Proof.
  unfold paginate. destruct (skip <? 0); [done|].
  destruct (take <? 0); intros [= <-].
  - rewrite <- (reverse_involutive rows) at 2. apply sublist_reverse.
    etrans; [apply sublist_take | apply sublist_drop].
  - etrans; [apply sublist_take | apply sublist_drop].
Qed.

Lemma paginate_Err {A} skip take (rows : list A) e :
  paginate skip take rows = Err e → skip < 0.
Proof.
  unfold paginate. destruct (skip <? 0) eqn:E; [lia|]. by destruct (take <? 0).
Qed.

Lemma StronglySorted_sublist {A} (R : relation A) (l k : list A) :
  l `sublist_of` k → StronglySorted R k → StronglySorted R l.
Proof.
  induction 1 as [|x l k Hs IH|x l k Hs IH]; intros Hk.
  - constructor.
  - apply StronglySorted_inv in Hk as [Hk Hx]. constructor; [by apply IH|].
    rewrite Forall_forall in Hx. apply Forall_forall. intros y Hy.
    apply Hx. by eapply elem_of_sublist.
  - apply StronglySorted_inv in Hk as [Hk _]. by apply IH.
Qed.

#[local] Instance newer_first_trans : Transitive newer_first.
Proof. unfold newer_first. intros a b c. lia. Qed.

#[local] Instance newer_first_total : Total newer_first.
Proof. unfold newer_first. intros a b. lia. Qed.

Lemma listCanvases_Ok s user page pageSize details s' :
  listCanvases user page pageSize s = (Ok details, s') →
  s' = s ∧ Forall (listed_for user s) details
  ∧ StronglySorted newest_updated_first details.
Proof.
  unfold listCanvases, bind, prisma, commit, canvas_findMany.
  destruct (paginate _ _ _) as [rows|e] eqn:Hp; [|done].
  unfold ret. intros [= <- <-].
  apply paginate_sublist in Hp.
  split; [destruct s; simpl; by rewrite app_nil_r|]. split.
  - apply Forall_forall. intros d [[id c] [-> Hin]]%list_elem_of_fmap.
    assert ((id, c) ∈ merge_sort newer_first
              (filter (λ r, owned_by (uid user) r.2 && is_live r.2 = true)
                 (map_to_list (canvases (db s))))) as Hin'.
    { by eapply elem_of_sublist. }
    rewrite merge_sort_Permutation in Hin'.
    apply list_elem_of_filter in Hin' as [Hc Hin']. simpl in Hc.
    apply elem_of_map_to_list in Hin'.
    apply andb_true_iff in Hc as [Ho Hl].
    unfold owned_by in Ho. unfold is_live in Hl.
    apply bool_decide_eq_true in Ho. apply bool_decide_eq_true in Hl.
    by unfold listed_for.
  - apply StronglySorted_fmap with (R1 := newer_first); [done|].
    eapply StronglySorted_sublist; [done|].
    apply StronglySorted_merge_sort; apply _.
Qed.

Lemma listCanvases_Err s user page pageSize e s' :
  listCanvases user page pageSize s = (Err e, s') →
  s' = s ∧ (page - 1) * pageSize < 0.
Proof.
  unfold listCanvases, bind, prisma, commit, canvas_findMany.
  destruct (paginate _ _ _) as [rows|e'] eqn:Hp; [done|].
  intros [= <- <-]. split; [done|]. by eapply paginate_Err.
Qed.

(** C7: a soft-deleted canvas is in no page of [listCanvases] and
    [getCanvasDetail] fails for it with the not-found error; a page of
    [listCanvases] holds only live canvases of the requesting owner, the one
    updated last first. Neither operation changes the state; [listCanvases]
    fails only on a negative offset. *)
Theorem deleted_canvas_is_hidden s user page pageSize :
  match listCanvases user page pageSize s with
  | (Ok details, s') =>
      s' = s
      ∧ Forall (listed_for user s) details
      ∧ StronglySorted newest_updated_first details
      ∧ ∀ canvasId c,
          canvases (db s) !! canvasId = Some c → cv_deletedAt c ≠ None →
          canvasId ∉ map (λ d, fst (cd_canvas d)) details
  | (Err e, s') => s' = s ∧ (page - 1) * pageSize < 0
  end
  ∧ ∀ canvasId c,
      canvases (db s) !! canvasId = Some c → cv_deletedAt c ≠ None →
      getCanvasDetail user canvasId s = (Err CanvasNotFoundError, s).
Proof.
  split.
  - destruct (listCanvases user page pageSize s) as [[details|e] s'] eqn:Hl.
    + apply listCanvases_Ok in Hl as (-> & Hall & Hsorted).
      repeat split; try done.
      intros canvasId c Hc Hdel [d [-> Hd]]%list_elem_of_fmap.
      eapply Forall_forall in Hall; [|done].
      destruct Hall as (Hrow & _ & Hlive). congruence.
    + by apply listCanvases_Err in Hl.
  - intros canvasId c Hc Hdel. unfold getCanvasDetail.
    erewrite bind_Ok; [|apply canvas_find_run]. rewrite Hc.
    unfold is_live. rewrite (bool_decide_eq_false_2 _ Hdel).
    by rewrite andb_false_r.
Qed.

(** ** Creating a canvas and reading it back *)

Lemma truthy_state_key canvasId : truthy ("state/" +:+ canvasId) = true.
Proof. reflexivity. Qed.

Lemma getCanvasYDoc_stored key doc s :
  truthy key = true →
  objects s !! key = Some (UpdateBuffer doc) →
  getCanvasYDoc key s = (Ok (Some doc), s).
Proof.
  intros Hk Ho. unfold getCanvasYDoc. rewrite Hk. simpl.
  unfold try_catch, bind, minio_getObject. by rewrite Hk, Ho.
Qed.

(** C8: after [createCanvas] succeeds for a title, [getCanvasRawData] on the
    new canvas succeeds for the same user and returns that title, no node and
    no edge. *)
Theorem createCanvas_then_getCanvasRawData s user title canvas s' :
  createCanvas user (Some title) s = (Ok canvas, s') →
  ∃ raw, getCanvasRawData user (fst canvas) s' = (Ok raw, s')
         ∧ raw_title raw = title ∧ raw_nodes raw = [] ∧ raw_edges raw = [].
Proof.
  unfold createCanvas, bind, call, now, prisma, commit, canvas_create, lift, ytext_insert.
  destruct (genCanvasID (world s)) as [canvasId w'] eqn:Hid. simpl.
  destruct (canvases (db s) !! canvasId) eqn:Hfree; [done|]. simpl.
  intros [= <- <-]. simpl.
  unfold getCanvasRawData.
  erewrite bind_Ok; [|apply canvas_find_run]. simpl.
  rewrite lookup_insert_eq. simpl.
  unfold owned_by, is_live. simpl. rewrite !bool_decide_eq_true_2 by done. simpl.
  erewrite bind_Ok; [|apply prisma_read].
  erewrite bind_Ok.
  2:{ apply getCanvasYDoc_stored; [apply truthy_state_key|]. simpl.
      apply lookup_insert_eq. }
  eexists. split; [reflexivity|]. done.
Qed.

(** ** Deleting a canvas *)

Lemma enqueue_all_run {X} (mk : X → DeleteKnowledgeEntityJobData) rows s :
  Promise_all (map (λ x, deleteKnowledgeQueue_add (mk x)) rows) s =
  (Ok (map (λ _, ()) rows),
   with_deleteKnowledgeQueue
     (λ q, foldl (λ q job, enqueue_job job q) q (map mk rows)) s).
Proof.
  revert s. induction rows as [|x rows IH]; intros s; simpl.
  - unfold ret. by destruct s.
  - unfold deleteKnowledgeQueue_add at 1. by rewrite IH.
Qed.

Lemma enqueue_job_grows job q x :
  x ∈ map job_entityId q → x ∈ map job_entityId (enqueue_job job q).
Proof.
  unfold enqueue_job. case_bool_decide; [done|].
  rewrite map_app. intros ?. apply elem_of_app. by left.
Qed.

Lemma enqueue_job_in job q : job_entityId job ∈ map job_entityId (enqueue_job job q).
Proof.
  unfold enqueue_job. case_bool_decide; [done|].
  rewrite map_app. apply elem_of_app. right. simpl. apply list_elem_of_here.
Qed.

Lemma enqueue_all_grows jobs q x :
  x ∈ map job_entityId q →
  x ∈ map job_entityId (foldl (λ q job, enqueue_job job q) q jobs).
Proof.
  revert q. induction jobs as [|job jobs IH]; intros q Hx; simpl; [done|].
  apply IH. by apply enqueue_job_grows.
Qed.

Lemma enqueue_all_in jobs q job :
  job ∈ jobs →
  job_entityId job ∈ map job_entityId (foldl (λ q job, enqueue_job job q) q jobs).
Proof.
  revert q. induction jobs as [|job' jobs IH]; intros q Hin; simpl.
  - by apply elem_of_nil in Hin.
  - apply elem_of_cons in Hin as [->|Hin]; [|by apply IH].
    apply enqueue_all_grows, enqueue_job_in.
Qed.

(** C10: [deleteCanvas] fails only with the not-found error, and then changes
    nothing; when it succeeds the canvas row is soft-deleted, the entry of the
    canvas is gone from the search index and its state blob from the object
    store, and the relation rows are exactly what they were: with
    [deleteAllFiles] the entity of every live relation row of the canvas has a
    job in the queue, and that is all that happens to them. *)
Theorem deleteCanvas_keeps_relations s user canvasId deleteAllFiles :
  match deleteCanvas user canvasId deleteAllFiles s with
  | (Ok _, s') =>
      relations (db s') = relations (db s)
      ∧ ∃ c c',
          canvases (db s) !! canvasId = Some c
          ∧ cv_uid c = uid user ∧ cv_deletedAt c = None
          ∧ canvases (db s') = <[canvasId := c']> (canvases (db s))
          ∧ cv_deletedAt c' = Some (clock s)
          ∧ searchIndex s' = delete canvasId (searchIndex s)
          ∧ objects s' = (if truthy (cv_stateStorageKey c)
                          then delete (cv_stateStorageKey c) (objects s)
                          else objects s)
          ∧ if deleteAllFiles
            then ∀ r, r ∈ live_relations canvasId (db s) →
                      rel_entityId r ∈ map job_entityId (deleteKnowledgeQueue s')
            else deleteKnowledgeQueue s' = deleteKnowledgeQueue s
  | (Err e, s') => e = CanvasNotFoundError ∧ s' = s
  end.
Proof.
  unfold deleteCanvas.
  erewrite bind_Ok; [|apply canvas_find_run].
  destruct (canvases (db s) !! canvasId) as [c|] eqn:Hc; [|done].
  destruct (owned_by (uid user) c && is_live c) eqn:Hcond; [|done].
  apply andb_true_iff in Hcond as [Ho Hl].
  apply bool_decide_eq_true in Ho. apply bool_decide_eq_true in Hl.
  unfold bind at 1. unfold now at 1.
  destruct deleteAllFiles.
  - erewrite bind_Ok.
    2:{ erewrite bind_Ok; [|apply prisma_read]. reflexivity. }
    rewrite map_map.
    assert (∀ r, r ∈ live_relations canvasId (db s) →
              r ∈ filter (λ r, bool_decide (rel_canvasId r = canvasId) && rel_live r = true)
                    (relations (db s))) as Hlive.
    { intros r [[H1 H2] Hr]%list_elem_of_filter. apply list_elem_of_filter.
      split; [|done]. unfold rel_live. by rewrite !bool_decide_eq_true_2. }
    destruct (truthy (cv_stateStorageKey c)) eqn:Hk; simpl;
      unfold void, bind, ret, prisma, commit, canvas_update, canvas_update_where,
        elasticsearch_deleteCanvas, minio_removeObject; simpl; rewrite ?Hk; simpl;
      rewrite Hc; simpl;
      rewrite enqueue_all_run; simpl;
      (split; [done|]); eexists _, _; rewrite ?Hk;
      (repeat split; try done);
      intros r Hr;
      apply (enqueue_all_in _ _ {| job_uid := cv_uid c; job_entityId := rel_entityId r;
                                   job_entityType := rel_entityType r |});
      apply list_elem_of_fmap; exists r; auto.
  - erewrite bind_Ok; [|reflexivity].
    destruct (truthy (cv_stateStorageKey c)) eqn:Hk; simpl;
      unfold void, bind, ret, prisma, commit, canvas_update, canvas_update_where,
        elasticsearch_deleteCanvas, minio_removeObject; simpl; rewrite ?Hk; simpl;
      rewrite Hc; simpl;
      (split; [done|]); eexists _, _; rewrite ?Hk; by repeat split.
Qed.

(** ** Auto-naming *)

Lemma filter_none {A} (P : A → Prop) `{∀ x, Decision (P x)} (l : list A) :
  (∀ x, x ∈ l → ¬ P x) → filter P l = [].
Proof.
  induction l as [|x l IH]; intros Hl; [done|].
  rewrite filter_cons. destruct (decide (P x)) as [Hx|_].
  - exfalso. eapply Hl; [apply list_elem_of_here|done].
  - apply IH. intros y Hy. apply Hl. by apply list_elem_of_further.
Qed.

(** C9: for a live canvas of the user that no action result targets and whose
    live document and resource relations lead to no document and no resource,
    [autoNameCanvas] returns the empty title and leaves the whole state as it
    was: in particular nothing is added to the calls made on the injected
    services, so neither the default model is looked up nor a title
    generated. *)
Theorem autoNameCanvas_without_content s user canvasId directUpdate c :
  canvases (db s) !! canvasId = Some c →
  cv_uid c = uid user →
  cv_deletedAt c = None →
  (∀ r, r ∈ actionResults (db s) →
        ¬ (ar_targetId r = canvasId ∧ ar_targetType r = "canvas")) →
  (∀ r, r ∈ live_relations canvasId (db s) →
        rel_entityType r ∈ ["resource"; "document"] →
        (∀ d, d ∈ documents (db s) → doc_docId d ≠ rel_entityId r)
        ∧ (∀ x, x ∈ resources (db s) → res_resourceId x ≠ rel_entityId r)) →
  autoNameCanvas user canvasId directUpdate s = (Ok "", s)
  ∧ serviceCalls (snd (autoNameCanvas user canvasId directUpdate s)) = serviceCalls s.
Proof.
  intros Hc Ho Hl Hresults Hrelated.
  assert (autoNameCanvas user canvasId directUpdate s = (Ok "", s)) as Hrun;
    [|by rewrite Hrun].
  unfold autoNameCanvas.
  erewrite bind_Ok; [|apply canvas_find_run]. rewrite Hc.
  unfold owned_by, is_live. rewrite !bool_decide_eq_true_2 by done. simpl.
  erewrite bind_Ok; [|apply prisma_read].
  rewrite filter_none.
  2:{ intros r Hr Hcond. apply (Hresults r Hr).
      apply andb_true_iff in Hcond as [H1 H2].
      by apply String.eqb_eq in H1, H2. }
  simpl. erewrite bind_Ok; [|reflexivity]. simpl.
  erewrite bind_Ok.
  2:{ erewrite bind_Ok; [|apply prisma_read].
      erewrite bind_Ok; [|apply prisma_read].
      erewrite bind_Ok; [|apply prisma_read].
      reflexivity. }
  set (rels := filter _ (relations (db s))).
  assert (∀ r, r ∈ rels → r ∈ live_relations canvasId (db s)
                          ∧ rel_entityType r ∈ ["resource"; "document"]) as Hrels.
  { intros r [Hcond Hr]%list_elem_of_filter.
    apply andb_true_iff in Hcond as [Hcond H3].
    apply andb_true_iff in Hcond as [H1 H2].
    apply String.eqb_eq in H1. apply bool_decide_eq_true in H2, H3.
    split; [|done]. apply list_elem_of_filter. done. }
  rewrite !filter_none.
  - done.
  - intros x Hx Hcond. apply bool_decide_eq_true in Hcond.
    apply list_elem_of_fmap in Hcond as [r [Heq Hr]].
    destruct (Hrels r Hr) as [H1 H2].
    destruct (Hrelated r H1 H2) as [_ Hres]. by apply (Hres x).
  - intros d Hd Hcond. apply bool_decide_eq_true in Hcond.
    apply list_elem_of_fmap in Hcond as [r [Heq Hr]].
    destruct (Hrels r Hr) as [H1 H2].
    destruct (Hrelated r H1 H2) as [Hdoc _]. by apply (Hdoc d).
Qed.

(** ** Frames *)

Lemma only_services_refl s : only_services s s.
Proof. by unfold only_services. Qed.

Lemma only_services_trans s1 s2 s3 :
  only_services s1 s2 → only_services s2 s3 → only_services s1 s3.
Proof. unfold only_services. intros (?&?&?&?&?&?) (?&?&?&?&?&?). repeat split; congruence. Qed.

Lemma call_frame {A} c (f : W → Result A * W) s r s' :
  call c f s = (r, s') → only_services s s'.
Proof.
  unfold call. destruct (f (world s)) as [r' w]. intros [= <- <-].
  by unfold only_services.
Qed.

Lemma call_inv {A} c (f : W → Result A * W) s r s' :
  call c f s = (r, s') → ∃ w', f (world s) = (r, w').
Proof. unfold call. destruct (f (world s)) as [r' w]. intros [= <- <-]. eauto. Qed.

Lemma Promise_all_frame {A} (ps : list (M A)) (P : State W → State W → Prop) :
  (∀ s, P s s) → (∀ s1 s2 s3, P s1 s2 → P s2 s3 → P s1 s3) →
  Forall (λ p, ∀ s r s', p s = (r, s') → P s s') ps →
  ∀ s r s', Promise_all ps s = (r, s') → P s s'.
Proof.
  intros Hrefl Htrans. induction 1 as [|p ps Hp Hps IH]; intros s r s'; simpl.
  - unfold ret. intros [= <- <-]. apply Hrefl.
  - destruct (p s) as [[a|e] s1] eqn:E1; apply Hp in E1.
    + destruct (Promise_all ps s1) as [[l|e] s2] eqn:E2; apply IH in E2;
        intros [= <- <-]; eauto.
    + destruct (Promise_all ps s1) as [r2 s2] eqn:E2; apply IH in E2.
      simpl. intros [= <- <-]. eauto.
Qed.

Lemma duplicateNodeEntity_frame user_uid targetCanvasId node s r s' :
  duplicateNodeEntity user_uid targetCanvasId node s = (r, s') → only_services s s'.
Proof.
  unfold duplicateNodeEntity. destruct (node_data node) as [data|].
  2:{ intros [= <- <-]. apply only_services_refl. }
  repeat case_match;
    try (intros [(a & s1 & Hc & Hk)|(e & Hc & ->)]%bind_inv;
         [apply call_frame in Hc; unfold ret in Hk; by inversion Hk; subst
         |by apply call_frame in Hc]).
  intros [= <- <-]. apply only_services_refl.
Qed.

Lemma duplicateNodeEntity_forked user_uid targetCanvasId node s node' s' :
  duplicateNodeEntity user_uid targetCanvasId node s = (Ok node', s') →
  forked user_uid targetCanvasId node node'.
Proof.
  unfold duplicateNodeEntity. destruct (node_data node) as [data|] eqn:Hd; [|done].
  destruct (String.eqb (node_type node) "document") eqn:E1.
  { apply String.eqb_eq in E1.
    intros [(a & s1 & Hc & Hk)|(e & Hc & ?)]%bind_inv; [|done].
    apply call_inv in Hc as [w' Hc]. unfold ret in Hk.
    destruct a as [docId|]; inversion Hk; subst.
    - by eapply forked_document.
    - eapply forked_nothing_returned; eauto. }
  destruct (String.eqb (node_type node) "resource") eqn:E2.
  { apply String.eqb_eq in E2.
    intros [(a & s1 & Hc & Hk)|(e & Hc & ?)]%bind_inv; [|done].
    apply call_inv in Hc as [w' Hc]. unfold ret in Hk.
    destruct a as [resourceId|]; inversion Hk; subst.
    - by eapply forked_resource.
    - eapply forked_nothing_returned; eauto. }
  destruct (String.eqb (node_type node) "skillResponse") eqn:E3.
  { apply String.eqb_eq in E3.
    intros [(a & s1 & Hc & Hk)|(e & Hc & ?)]%bind_inv; [|done].
    apply call_inv in Hc as [w' Hc]. unfold ret in Hk.
    destruct a as [resultId|]; inversion Hk; subst.
    - by eapply forked_skillResponse.
    - eapply forked_nothing_returned; eauto 10. }
  intros [= <- <-]. apply forked_other.
  apply String.eqb_neq in E1, E2, E3.
  rewrite !elem_of_cons. rewrite elem_of_nil. tauto.
Qed.

Lemma Promise_all_forked user_uid targetCanvasId nodes s nodes' s' :
  Promise_all (map (duplicateNodeEntity user_uid targetCanvasId) nodes) s = (Ok nodes', s') →
  Forall2 (forked user_uid targetCanvasId) nodes nodes'.
Proof.
  revert s nodes'. induction nodes as [|node nodes IH]; intros s nodes'; simpl.
  - unfold ret. intros [= <- <-]. constructor.
  - destruct (duplicateNodeEntity _ _ node s) as [[node'|e] s1] eqn:E1; [|done].
    destruct (Promise_all _ s1) as [[l|e] s2] eqn:E2; [|done].
    intros [= <- <-]. constructor; [by eapply duplicateNodeEntity_forked|by eapply IH].
Qed.

(** ** The copy body of a duplication *)

Lemma stored_nodes_of_update key doc s :
  truthy key = true → objects s !! key = Some (UpdateBuffer doc) →
  stored_nodes key s = yd_nodes doc.
Proof.
  intros Hk Ho. unfold stored_nodes. by rewrite (getCanvasYDoc_stored _ doc).
Qed.

Lemma stored_nodes_no_key key s : truthy key = false → stored_nodes key s = [].
Proof. intros Hk. unfold stored_nodes, getCanvasYDoc. by rewrite Hk. Qed.

Lemma load_source_inv key s r s1 :
  (if truthy key
   then bind (minio_getObject key) (λ state, lift (applyUpdate new_YDoc state))
   else ret new_YDoc) s = (r, s1) →
  s1 = s ∧ ∀ doc, r = Ok doc → yd_nodes doc = stored_nodes key s.
Proof.
  destruct (truthy key) eqn:Hk.
  - unfold bind, minio_getObject, lift. rewrite Hk. simpl.
    destruct (objects s !! key) as [[|?|content]|] eqn:Ho; simpl;
      intros [= <- <-]; (split; [done|]); intros doc [= <-].
    by rewrite (stored_nodes_of_update _ content).
  - unfold ret. intros [= <- <-]. split; [done|]. intros doc [= <-].
    by rewrite stored_nodes_no_key.
Qed.

Lemma fork_step_inv (dup : bool) user_uid targetCanvasId nodes s r s1 :
  (if dup
   then Promise_all (map (duplicateNodeEntity user_uid targetCanvasId) nodes)
   else ret nodes) s = (r, s1) →
  only_services s s1
  ∧ ∀ nodes', r = Ok nodes' →
      if dup then Forall2 (forked user_uid targetCanvasId) nodes nodes' else nodes' = nodes.
Proof.
  destruct dup.
  - intros H. split.
    + revert H. apply Promise_all_frame;
        [apply only_services_refl|apply only_services_trans|].
      apply Forall_forall. intros p [node [-> _]]%list_elem_of_fmap.
      intros ???. apply duplicateNodeEntity_frame.
    + intros nodes' ->. by eapply Promise_all_forked.
  - unfold ret. intros [= <- <-]. split; [apply only_services_refl|]. by intros ? [= <-].
Qed.

Lemma files_step_inv (other : bool) c (f : W → Result () * W) s r s1 :
  (if other then call c f else ret ()) s = (r, s1) → only_services s s1.
Proof.
  destruct other; [apply call_frame|].
  unfold ret. intros [= <- <-]. apply only_services_refl.
Qed.

(** What [_duplicateCanvas] leaves behind: a failure leaves the relational
    store as it was; a return without the row of the user leaves everything as
    it was; otherwise the target blob holds the title, the nodes of the source
    (forked if asked for) and the edges of the source, and one commit has set
    the canvas ready and the record finished. *)
Lemma _duplicateCanvas_outcome jd s :
  match _duplicateCanvas jd s with
  | (Err e, s') => db s' = db s ∧ dbLog s' = dbLog s
  | (Ok _, s') =>
      match users (db s) !! jd_uid jd with
      | None => s' = s
      | Some _ =>
          ∃ src doc nodes' c rec,
            canvases (db s) !! jd_sourceCanvasId jd = Some src
            ∧ cv_deletedAt src = None
            ∧ yd_nodes doc = stored_nodes (cv_stateStorageKey src) s
            ∧ (if jd_duplicateEntities jd
               then Forall2 (forked (jd_uid jd) (jd_targetCanvasId jd)) (yd_nodes doc) nodes'
               else nodes' = yd_nodes doc)
            ∧ canvases (db s) !! jd_targetCanvasId jd = Some c
            ∧ duplicateRecords (db s) !! fst (jd_dupRecord jd) = Some rec
            ∧ db s' =
                set_duplicateRecords
                  (insert (fst (jd_dupRecord jd)) (set_dr_status "finish" rec))
                  (set_canvases
                     (insert (jd_targetCanvasId jd)
                        (touch (clock s) (set_cv_status "ready" c)))
                     (db s))
            ∧ dbLog s' =
                dbLog s ++ [[CanvasUpdate (jd_targetCanvasId jd);
                             DuplicateRecordUpdate (fst (jd_dupRecord jd)) "finish"]]
            ∧ objects s' =
                <["state/" +:+ jd_targetCanvasId jd :=
                    UpdateBuffer {| yd_title := jd_title jd; yd_nodes := nodes';
                                    yd_edges := yd_edges doc |}]> (objects s)
      end
  end.
Proof.
  destruct (_duplicateCanvas jd s) as [r s'] eqn:H.
  unfold _duplicateCanvas in H.
  erewrite bind_Ok in H; [|apply prisma_read].
  destruct (users (db s) !! jd_uid jd) as [u|] eqn:Hu.
  2:{ unfold ret in H. by inversion H; subst. }
  erewrite bind_Ok in H; [|apply canvas_find_run].
  destruct (canvases (db s) !! jd_sourceCanvasId jd) as [src|] eqn:Hsrc.
  2:{ unfold throw in H. by inversion H; subst. }
  destruct (is_live src) eqn:Hlive.
  2:{ unfold throw in H. by inversion H; subst. }
  apply bool_decide_eq_true in Hlive.
  apply bind_inv in H as [(doc & s1 & Hload & H)|(e & Hload & ->)].
  2:{ by apply load_source_inv in Hload as [-> _]. }
  apply load_source_inv in Hload as [-> Hdoc]. specialize (Hdoc doc eq_refl).
  apply bind_inv in H as [(nodes' & s1 & Hfork & H)|(e & Hfork & ->)].
  2:{ apply fork_step_inv in Hfork as [(?&?&_) _]. done. }
  apply fork_step_inv in Hfork as [F1 Hnodes]. specialize (Hnodes nodes' eq_refl).
  apply bind_inv in H as [([] & s2 & Hfiles & H)|(e & Hfiles & ->)].
  2:{ apply files_step_inv in Hfiles as (?&?&_). destruct F1 as (?&?&_).
      split; congruence. }
  apply files_step_inv in Hfiles.
  pose proof (only_services_trans _ _ _ F1 Hfiles) as (Fd & Fl & Fo & _ & _ & Fc).
  unfold bind, minio_putObject, now, prisma_transaction, commit in H. simpl in H.
  unfold tx_bind, canvas_update, canvas_update_where, duplicateRecord_update, tx_ret in H.
  rewrite Fd in H.
  destruct (canvases (db s) !! jd_targetCanvasId jd) as [c|] eqn:Hc; simpl in H.
  2:{ inversion H; subst. simpl. by rewrite Fl. }
  destruct (duplicateRecords (db s) !! fst (jd_dupRecord jd)) as [rec|] eqn:Hrec; simpl in H.
  2:{ inversion H; subst. simpl. by rewrite Fl. }
  inversion H; subst; clear H. simpl.
  exists src, doc, nodes', c, rec. rewrite Fl, Fo, Fc. by repeat split.
Qed.

(** ** Duplicating a canvas *)

Lemma next_pk_fresh (m : gmap nat DuplicateRecord) : m !! next_pk m = None.
Proof. apply not_elem_of_dom. unfold next_pk. apply is_fresh. Qed.

Lemma duplicateCanvas_split user param checkOwnership s :
  duplicateCanvas user param checkOwnership s =
  bind (duplicateCanvas_setup user param checkOwnership)
    (λ '(newCanvas, jobData),
       bind (try_catch (_duplicateCanvas jobData)
               (duplicateCanvas_catch (jd_dupRecord jobData)))
         (λ _, ret newCanvas)) s.
Proof.
  unfold duplicateCanvas, duplicateCanvas_setup, bind.
  destruct (prisma _ s) as [[[src|]|e] s1]; try done.
  destruct (call _ _ s1) as [[newCanvasId|e] s2]; try done.
  destruct (now s2) as [[t|e] s3]; try done.
  destruct (prisma _ s3) as [[newCanvas|e] s4]; try done.
Qed.

(** What the statements before the [try] block have done when they succeed. *)
Lemma duplicateCanvas_setup_Ok user param checkOwnership s newCanvas jd s1 :
  duplicateCanvas_setup user param checkOwnership s = (Ok (newCanvas, jd), s1) →
  let pk := next_pk (duplicateRecords (db s)) in
  ∃ src,
    canvases (db s) !! req_canvasId param = Some src
    ∧ cv_deletedAt src = None
    ∧ (checkOwnership = true → cv_uid src = uid user)
    ∧ fst newCanvas = fst (genCanvasID (world s))
    ∧ canvases (db s) !! fst newCanvas = None
    ∧ cv_status (snd newCanvas) = "duplicating"
    ∧ cv_uid (snd newCanvas) = uid user
    ∧ jd_uid jd = uid user
    ∧ jd_sourceCanvasId jd = req_canvasId param
    ∧ jd_targetCanvasId jd = fst newCanvas
    ∧ jd_duplicateEntities jd = req_duplicateEntities param
    ∧ jd_title jd = or_else (req_title param) (cv_title src)
    ∧ fst (jd_dupRecord jd) = pk
    ∧ dr_status (snd (jd_dupRecord jd)) = "pending"
    ∧ dr_sourceId (snd (jd_dupRecord jd)) = req_canvasId param
    ∧ dr_targetId (snd (jd_dupRecord jd)) = fst newCanvas
    ∧ db s1 = set_duplicateRecords (insert pk (snd (jd_dupRecord jd)))
                (set_canvases (insert (fst newCanvas) (snd newCanvas)) (db s))
    ∧ dbLog s1 = dbLog s ++ [[CanvasCreate (fst newCanvas)]; [DuplicateRecordCreate pk]]
    ∧ objects s1 = objects s.
Proof.
  unfold duplicateCanvas_setup.
  erewrite bind_Ok; [|apply canvas_find_run].
  destruct (canvases (db s) !! req_canvasId param) as [src|] eqn:Hsrc; [|done].
  destruct (is_live src && _) eqn:Hcond; [|done].
  apply andb_true_iff in Hcond as [Hl Ho]. apply bool_decide_eq_true in Hl.
  unfold bind, call, now, prisma, commit, canvas_create, duplicateRecord_create.
  destruct (genCanvasID (world s)) as [newCanvasId w'] eqn:Hid. simpl.
  destruct (canvases (db s) !! newCanvasId) eqn:Hfree; [done|]. simpl.
  unfold ret. intros [= <- <- <-]. simpl.
  exists src. repeat split; try done.
  - intros ->. unfold owned_by in Ho. by apply bool_decide_eq_true in Ho.
  - by rewrite <- app_assoc.
Qed.

Lemma duplicateCanvas_setup_Err user param checkOwnership s e s1 :
  duplicateCanvas_setup user param checkOwnership s = (Err e, s1) →
  db s1 = db s.
Proof.
  unfold duplicateCanvas_setup.
  erewrite bind_Ok; [|apply canvas_find_run].
  destruct (canvases (db s) !! req_canvasId param) as [src|] eqn:Hsrc.
  2:{ by intros [= <- <-]. }
  destruct (is_live src && _) eqn:Hcond.
  2:{ by intros [= <- <-]. }
  unfold bind, call, now, prisma, commit, canvas_create, duplicateRecord_create.
  destruct (genCanvasID (world s)) as [newCanvasId w'] eqn:Hid. simpl.
  destruct (canvases (db s) !! newCanvasId) eqn:Hfree; [|done]. simpl.
  by intros [= <- <-].
Qed.

(** C1: when the statements before the [try] block have succeeded and the copy
    body raises an error, [duplicateCanvas] raises that same error, the
    duplicate record of the run has the status failed, and the row of the
    target canvas is still there with the status duplicating, which is not
    ready. *)
Theorem duplicateCanvas_copy_failure user param checkOwnership s newCanvas jd s1 e s2 :
  duplicateCanvas_setup user param checkOwnership s = (Ok (newCanvas, jd), s1) →
  _duplicateCanvas jd s1 = (Err e, s2) →
  ∃ s3 record row,
    duplicateCanvas user param checkOwnership s = (Err e, s3)
    ∧ duplicateRecords (db s3) !! fst (jd_dupRecord jd) = Some record
    ∧ dr_status record = "failed"
    ∧ dr_targetId record = fst newCanvas
    ∧ canvases (db s3) !! fst newCanvas = Some row
    ∧ cv_status row = "duplicating"
    ∧ cv_status row ≠ "ready".
Proof.
  intros Hsetup Hbody.
  rewrite duplicateCanvas_split. erewrite bind_Ok; [|done].
  pose proof (_duplicateCanvas_outcome jd s1) as Hout. rewrite Hbody in Hout.
  destruct Hout as [Hdb Hlog].
  apply duplicateCanvas_setup_Ok in Hsetup
    as (src & _ & _ & _ & _ & Hfree & Hst & _ & _ & _ & _ & _ & _ & Hpk & _ & _ & Htgt & Hdb1 & _).
  unfold bind at 1. unfold try_catch. rewrite Hbody.
  unfold duplicateCanvas_catch, bind, prisma, commit, duplicateRecord_update, throw.
  rewrite Hdb, Hdb1. simpl. rewrite Hpk, lookup_insert_eq. simpl.
  eexists _, _, _. split; [done|]. simpl. rewrite !lookup_insert_eq.
  repeat split; try done. by rewrite Hst.
Qed.

(** C2, as the code has it: the duplicate record is inserted by a commit of its
    own, right after the commit that inserts the target canvas row; and in a
    run whose statements before the [try] block succeed and whose user has a
    row, the status of the record, pending at first, is written exactly once
    more: to finish by the commit that sets the canvas ready when the run
    succeeds, to failed when it raises. *)
Theorem duplicateRecord_lifecycle user param checkOwnership s newCanvas jd s1 u :
  duplicateCanvas_setup user param checkOwnership s = (Ok (newCanvas, jd), s1) →
  users (db s) !! uid user = Some u →
  let pk := fst (jd_dupRecord jd) in
  duplicateRecords (db s) !! pk = None
  ∧ dr_status <$> duplicateRecords (db s1) !! pk = Some "pending"
  ∧ dbLog s1 = dbLog s ++ [[CanvasCreate (fst newCanvas)]; [DuplicateRecordCreate pk]]
  ∧ ∃ r s' status commits,
      duplicateCanvas user param checkOwnership s = (r, s')
      ∧ dbLog s' = dbLog s1 ++ commits
      ∧ status_updates pk commits = [status]
      ∧ dr_status <$> duplicateRecords (db s') !! pk = Some status
      ∧ ((r = Ok newCanvas ∧ status = "finish"
          ∧ commits = [[CanvasUpdate (fst newCanvas); DuplicateRecordUpdate pk "finish"]])
         ∨ (∃ e, r = Err e ∧ status = "failed"
                 ∧ commits = [[DuplicateRecordUpdate pk "failed"]])).
Proof.
  intros Hsetup Hu pk.
  rewrite duplicateCanvas_split. erewrite bind_Ok; [|done].
  apply duplicateCanvas_setup_Ok in Hsetup
    as (src & _ & _ & _ & _ & Hfree & Hst & _ & Hjuid & _ & Hjtgt & _ & _ & Hpk & Hpending
        & _ & Htgt & Hdb1 & Hlog1 & _).
  pose proof (_duplicateCanvas_outcome jd s1) as Hout.
  subst pk. rewrite Hpk in *. set (pk := next_pk _) in *.
  split; [apply next_pk_fresh|].
  split; [by rewrite Hdb1; simpl; rewrite lookup_insert_eq; simpl; rewrite Hpending|].
  split; [done|].
  unfold bind at 1. unfold try_catch.
  destruct (_duplicateCanvas jd s1) as [[[]|e] s2] eqn:Hbody.
  - rewrite Hjuid, Hdb1 in Hout. simpl in Hout. rewrite Hu in Hout.
    destruct Hout as (src' & doc & nodes' & c & rec & _ & _ & _ & _ & Hc & Hrec & Hdb2 & Hlog2 & _).
    rewrite Hjtgt in *.
    eexists _, _, "finish", _. split; [done|]. split; [done|].
    split; [by unfold status_updates; cbn; rewrite bool_decide_eq_true_2|].
    split; [by rewrite Hdb2; simpl; rewrite lookup_insert_eq|].
    left. done.
  - destruct Hout as [Hdb2 Hlog2].
    unfold duplicateCanvas_catch, bind, prisma, commit, duplicateRecord_update, throw.
    rewrite Hdb2, Hdb1. simpl. rewrite Hpk. fold pk. rewrite lookup_insert_eq. simpl.
    eexists _, _, "failed", _. split; [done|]. simpl. rewrite Hlog2.
    split; [done|].
    split; [by unfold status_updates; cbn; rewrite bool_decide_eq_true_2|].
    split; [by rewrite lookup_insert_eq|].
    right. eauto.
Qed.

(** C6, as the code has it: [duplicateCanvas] fails with the not-found error,
    and changes nothing, so that neither a canvas row nor a duplicate record is
    created, when the source canvas is missing or soft-deleted, and, if the
    caller asked for the ownership check, when the source is not owned by the
    requesting user. *)
Theorem duplicateCanvas_source_not_found user param checkOwnership s :
  match canvases (db s) !! req_canvasId param with
  | None => True
  | Some src => cv_deletedAt src ≠ None ∨ (checkOwnership = true ∧ cv_uid src ≠ uid user)
  end →
  duplicateCanvas user param checkOwnership s = (Err CanvasNotFoundError, s).
Proof.
  intros H. unfold duplicateCanvas.
  erewrite bind_Ok; [|apply canvas_find_run].
  destruct (canvases (db s) !! req_canvasId param) as [src|]; [|done].
  destruct H as [Hdel|[-> Hown]].
  - unfold is_live. by rewrite (bool_decide_eq_false_2 _ Hdel).
  - unfold owned_by. rewrite (bool_decide_eq_false_2 _ Hown). by rewrite andb_false_r.
Qed.

Lemma stored_nodes_objects key s1 s2 :
  objects s1 = objects s2 → stored_nodes key s1 = stored_nodes key s2.
Proof.
  intros Ho. unfold stored_nodes, getCanvasYDoc.
  destruct (negb (truthy key)) eqn:Hk; [done|].
  unfold try_catch, bind, minio_getObject. rewrite Hk, Ho.
  destruct (objects s2 !! key) as [[|?|doc]|]; done.
Qed.

Lemma duplicateCanvas_setup_key user param checkOwnership s newCanvas jd s1 :
  duplicateCanvas_setup user param checkOwnership s = (Ok (newCanvas, jd), s1) →
  cv_stateStorageKey (snd newCanvas) = "state/" +:+ fst newCanvas.
Proof.
  unfold duplicateCanvas_setup.
  erewrite bind_Ok; [|apply canvas_find_run].
  destruct (canvases (db s) !! req_canvasId param) as [src|] eqn:Hsrc; [|done].
  destruct (is_live src && _) eqn:Hcond; [|done].
  unfold bind, call, now, prisma, commit, canvas_create, duplicateRecord_create.
  destruct (genCanvasID (world s)) as [newCanvasId w'] eqn:Hid. simpl.
  destruct (canvases (db s) !! newCanvasId) eqn:Hfree; [done|]. simpl.
  unfold ret. by intros [= <- <- <-].
Qed.

Lemma set_entityId_keeps entityId node :
  node_type (set_entityId entityId node) = node_type node
  ∧ node_rest (set_entityId entityId node) = node_rest node
  ∧ (nd_title <$> node_data (set_entityId entityId node)) = (nd_title <$> node_data node)
  ∧ (nd_metadata <$> node_data (set_entityId entityId node)) = (nd_metadata <$> node_data node)
  ∧ (nd_entityId <$> node_data (set_entityId entityId node))
    = ((λ _, entityId) <$> node_data node).
Proof. unfold set_entityId. by destruct (node_data node). Qed.

(** C3, as the code has it: when [duplicateCanvas] succeeds for a user that
    has a row, the nodes stored for the target are, without duplication of the
    entities, the nodes stored for the source; with it, node by node, the node
    of the source, in which the id of the entity is replaced by the id that the
    service returned for it when the node is a document, a resource or a skill
    response and the service returned an entity, and nothing is changed
    otherwise. *)
Theorem duplicateCanvas_nodes user param checkOwnership s newCanvas s' u src :
  duplicateCanvas user param checkOwnership s = (Ok newCanvas, s') →
  users (db s) !! uid user = Some u →
  canvases (db s) !! req_canvasId param = Some src →
  let source := stored_nodes (cv_stateStorageKey src) s in
  let target := stored_nodes (cv_stateStorageKey (snd newCanvas)) s' in
  if req_duplicateEntities param
  then Forall2 (forked (uid user) (fst newCanvas)) source target
  else target = source.
Proof.
  intros H Hu Hsrc source target. subst source target.
  rewrite duplicateCanvas_split in H.
  apply bind_inv in H as [([nc jd] & s1 & Hsetup & H)|(e & _ & ?)]; [|done].
  pose proof (duplicateCanvas_setup_key _ _ _ _ _ _ _ Hsetup) as Hkey.
  apply duplicateCanvas_setup_Ok in Hsetup
    as (src0 & Hsrc0 & _ & _ & _ & Hfree & _ & _ & Hjuid & Hjsrc & Hjtgt & Hjdup & _ & _ & _
        & _ & _ & Hdb1 & _ & Hobj1).
  pose proof (_duplicateCanvas_outcome jd s1) as Hout.
  unfold bind, try_catch in H.
  destruct (_duplicateCanvas jd s1) as [[[]|e] s2] eqn:Hbody.
  2:{ unfold duplicateCanvas_catch, bind, throw in H.
      destruct (prisma _ s2) as [[?|?] ?]; done. }
  unfold ret in H. inversion H; subst nc s2; clear H.
  rewrite Hjuid, Hdb1 in Hout. simpl in Hout. rewrite Hu in Hout.
  destruct Hout as (src' & doc & nodes' & c & rec & Hsrc' & _ & Hdoc & Hnodes & _ & _ & _ & _ & Hobj2).
  rewrite Hjsrc in Hsrc'.
  rewrite lookup_insert_ne in Hsrc' by congruence.
  assert (src' = src) as -> by congruence.
  rewrite (stored_nodes_objects _ s1 s) in Hdoc by done.
  rewrite Hkey, <- Hjtgt.
  rewrite (stored_nodes_of_update ("state/" +:+ jd_targetCanvasId jd)
             {| yd_title := jd_title jd; yd_nodes := nodes'; yd_edges := yd_edges doc |}).
  2:{ apply truthy_state_key. }
  2:{ rewrite Hobj2. apply lookup_insert_eq. }
  rewrite <- Hjdup, <- Hdoc. simpl.
  destruct (jd_duplicateEntities jd); done.
Qed.

(** ** Reconciling the relation rows of a canvas *)

Lemma getCanvasYDoc_total key s : ∃ doc, getCanvasYDoc key s = (Ok doc, s).
Proof.
  unfold getCanvasYDoc. destruct (negb (truthy key)) eqn:Hk; [by eexists|].
  unfold try_catch, bind, minio_getObject. rewrite Hk.
  destruct (objects s !! key) as [[|?|doc]|]; by eexists.
Qed.

Lemma collab_loadDocument_run canvas s :
  ∃ doc, collab_loadDocument canvas s = (Ok doc, s)
         ∧ yd_nodes doc = stored_nodes (cv_stateStorageKey canvas) s.
Proof.
  unfold collab_loadDocument, stored_nodes.
  destruct (getCanvasYDoc_total (cv_stateStorageKey canvas) s) as [doc Hdoc].
  erewrite bind_Ok; [|done]. rewrite Hdoc. simpl.
  eexists. split; [done|]. by destruct doc.
Qed.

Lemma syncCanvasEntityRelation_run canvasId s c :
  canvases (db s) !! canvasId = Some c →
  let entities := entities_of_nodes (stored_nodes (cv_stateStorageKey c) s) in
  let existing := filter (λ r, bool_decide (rel_canvasId r = canvasId) && rel_live r = true)
                    (relations (db s)) in
  let entityIds : gset string := list_to_set (map entityId entities) in
  let toRemove := filter (λ r, rel_entityId r ∉ entityIds) existing in
  let existingEntityIds : gset string := list_to_set (map rel_entityId existing) in
  let toCreate := filter (λ e, entityId e ∉ existingEntityIds) entities in
  ∃ s', syncCanvasEntityRelation canvasId s = (Ok (), s')
        ∧ relations (db s') =
            map (λ r, if bool_decide (rel_canvasId r = canvasId)
                         && bool_decide (rel_entityId r ∈ map rel_entityId toRemove)
                         && rel_live r
                      then soft_delete (clock s) r else r) (relations (db s))
            ++ map (relation_for canvasId) toCreate
        ∧ canvases (db s') = canvases (db s)
        ∧ objects s' = objects s.
Proof.
  intros Hc. simpl. unfold syncCanvasEntityRelation.
  erewrite bind_Ok; [|apply canvas_find_run]. rewrite Hc.
  destruct (collab_loadDocument_run c s) as (doc & Hload & Hnodes).
  erewrite bind_Ok; [|done]. rewrite Hnodes.
  erewrite bind_Ok; [|apply prisma_read].
  unfold bind, now, void, Promise_all, bind, prisma, commit,
    relation_updateMany, relation_createMany, ret. simpl.
  eexists. split; [done|]. simpl. rewrite map_map. done.
Qed.

Lemma filter_other_canvas_soft_delete canvasId (cond : CanvasEntityRelation → bool) t l :
  (∀ r, cond r = true → rel_canvasId r = canvasId) →
  filter (λ r, rel_canvasId r ≠ canvasId) (map (λ r, if cond r then soft_delete t r else r) l)
  = filter (λ r, rel_canvasId r ≠ canvasId) l.
Proof.
  intros Hcond. induction l as [|r l IH]; [done|].
  simpl. rewrite !filter_cons, IH.
  destruct (cond r) eqn:Hc0; [|done]. apply Hcond in Hc0.
  simpl. by rewrite !decide_False by (by intros H; apply H).
Qed.

(** C4, as the code has it: a reconciliation pass succeeds for a canvas that
    has a row, and right after it the entity ids on the live relation rows of
    the canvas are exactly the entity ids of the nodes that carry an entity id
    and a type; a live row is a row that was live before the pass or the row
    (canvasId, entityId, entityType) of such a node; the rows of the other
    canvases are what they were. *)
Theorem syncCanvasEntityRelation_entity_ids canvasId s c :
  canvases (db s) !! canvasId = Some c →
  let entities := entities_of_nodes (stored_nodes (cv_stateStorageKey c) s) in
  ∃ s', syncCanvasEntityRelation canvasId s = (Ok (), s')
    ∧ (∀ x, x ∈ map rel_entityId (live_relations canvasId (db s'))
            ↔ x ∈ map entityId entities)
    ∧ (∀ r, r ∈ live_relations canvasId (db s') →
            r ∈ live_relations canvasId (db s)
            ∨ ∃ e, e ∈ entities ∧ r = relation_for canvasId e)
    ∧ filter (λ r, rel_canvasId r ≠ canvasId) (relations (db s'))
      = filter (λ r, rel_canvasId r ≠ canvasId) (relations (db s)).
Proof.
  intros Hc entities.
  destruct (syncCanvasEntityRelation_run canvasId s c Hc) as (s' & Hrun & Hrel & _).
  fold entities in Hrel.
  set (existing := filter (λ r, bool_decide (rel_canvasId r = canvasId) && rel_live r = true)
                     (relations (db s))) in *.
  set (entityIds := list_to_set (map entityId entities) : gset string) in *.
  set (toRemove := filter (λ r, rel_entityId r ∉ entityIds) existing) in *.
  set (existingEntityIds := list_to_set (map rel_entityId existing) : gset string) in *.
  set (toCreate := filter (λ e, entityId e ∉ existingEntityIds) entities) in *.
  set (cond := λ r, bool_decide (rel_canvasId r = canvasId)
                    && bool_decide (rel_entityId r ∈ map rel_entityId toRemove)
                    && rel_live r).
  change (relations (db s') =
          map (λ r, if cond r then soft_delete (clock s) r else r) (relations (db s))
          ++ map (relation_for canvasId) toCreate) in Hrel.
  assert (∀ r, r ∈ existing ↔ r ∈ live_relations canvasId (db s)) as Hexisting.
  { intros r. unfold existing, live_relations. rewrite !list_elem_of_filter.
    unfold rel_live. rewrite andb_true_iff, !bool_decide_eq_true. done. }
  assert (∀ r, r ∈ live_relations canvasId (db s) →
               cond r = true ↔ rel_entityId r ∉ map entityId entities) as Hcond.
  { intros r Hr. pose proof Hr as [[H1 H2] _]%list_elem_of_filter.
    unfold cond, rel_live.
    rewrite (bool_decide_eq_true_2 _ H1), (bool_decide_eq_true_2 _ H2). simpl.
    rewrite andb_true_r, bool_decide_eq_true. split.
    - intros [r2 [Heq Hr2]]%list_elem_of_fmap.
      apply list_elem_of_filter in Hr2 as [Hr2 _]. rewrite Heq.
      intros Hin. apply Hr2. unfold entityIds. by apply elem_of_list_to_set.
    - intros Hnot. apply list_elem_of_fmap. exists r. split; [done|].
      apply list_elem_of_filter. split; [|by apply Hexisting].
      unfold entityIds. by rewrite elem_of_list_to_set. }
  assert (∀ r, r ∈ live_relations canvasId (db s') ↔
               (r ∈ live_relations canvasId (db s) ∧ rel_entityId r ∈ map entityId entities)
               ∨ ∃ e, e ∈ toCreate ∧ r = relation_for canvasId e) as Hlive.
  { intros r. unfold live_relations at 1. rewrite Hrel, filter_app, elem_of_app.
    rewrite !list_elem_of_filter. split.
    - intros [[[H1 H2] Hin]|[_ Hin]].
      + left. apply list_elem_of_fmap in Hin as [r0 [Heq Hr0]].
        destruct (cond r0) eqn:Hc0; [by subst r|]. subst r0.
        assert (r ∈ live_relations canvasId (db s)) as Hr.
        { by apply list_elem_of_filter. }
        split; [done|].
        destruct (decide (rel_entityId r ∈ map entityId entities)) as [|Hn]; [done|].
        apply (Hcond r Hr) in Hn. congruence.
      + right. apply list_elem_of_fmap in Hin as [e [-> He]]. eauto.
    - intros [[Hr Hin]|[e [He ->]]].
      + left. pose proof Hr as [[H1 H2] Hr0]%list_elem_of_filter.
        split; [done|]. apply list_elem_of_fmap. exists r. split; [|done].
        destruct (cond r) eqn:Hc0; [|done].
        apply (Hcond r Hr) in Hc0. done.
      + right. split; [done|]. apply list_elem_of_fmap. eauto. }
  exists s'. split; [done|]. split; [|split].
  - intros x. rewrite !list_elem_of_fmap. split.
    + intros [r [-> Hr]]. apply Hlive in Hr as [[_ Hin]|[e [He ->]]].
      * by apply list_elem_of_fmap.
      * exists e. split; [done|]. by apply list_elem_of_filter in He as [_ He].
    + intros [e [-> He]].
      destruct (decide (entityId e ∈ existingEntityIds)) as [Hex|Hnew].
      * unfold existingEntityIds in Hex. apply elem_of_list_to_set in Hex.
        apply list_elem_of_fmap in Hex as [r [Heq Hr]].
        exists r. split; [done|]. apply Hlive. left.
        split; [by apply Hexisting|]. rewrite <- Heq. by apply list_elem_of_fmap_2.
      * exists (relation_for canvasId e). split; [done|]. apply Hlive. right.
        exists e. split; [|done]. by apply list_elem_of_filter.
  - intros r [[Hr _]|[e [He ->]]]%Hlive; [by left|]. right.
    exists e. split; [|done]. by apply list_elem_of_filter in He as [_ He].
  - rewrite Hrel, filter_app.
    assert (filter (λ r, rel_canvasId r ≠ canvasId) (map (relation_for canvasId) toCreate) = [])
      as ->.
    { apply filter_none. intros r [e [-> _]]%list_elem_of_fmap. simpl. by intros H. }
    rewrite app_nil_r. apply filter_other_canvas_soft_delete.
    intros r Hc0. unfold cond in Hc0. apply andb_true_iff in Hc0 as [Hc0 _].
    apply andb_true_iff in Hc0 as [Hc0 _]. by apply bool_decide_eq_true in Hc0.
Qed.

(** ** Removing the nodes of deleted entities *)

Lemma delete_indices_filter entities (pre nodes : list CanvasNode) :
  foldl (λ nodes index, delete index nodes) (pre ++ nodes)
    (reverse (indices_toRemove entities (length pre) nodes))
  = pre ++ filter (λ n, node_matches entities n = false) nodes.
Proof.
  revert pre. induction nodes as [|node nodes IH]; intros pre; [done|].
  specialize (IH (pre ++ [node])).
  rewrite length_app, Nat.add_1_r, <- app_assoc in IH. simpl in IH.
  rewrite filter_cons. cbn [indices_toRemove].
  destruct (node_matches entities node) eqn:Hm.
  - rewrite decide_False by done.
    rewrite reverse_cons, foldl_app, IH. cbn [foldl].
    rewrite <- app_assoc. apply (delete_middle pre _ node).
  - rewrite decide_True by done. by rewrite IH, <- app_assoc.
Qed.

(** Deleting the collected indices from the last to the first removes exactly
    the matching nodes. *)
Lemma remove_entity_nodes_filter entities document :
  yd_nodes (remove_entity_nodes entities document)
  = filter (λ n, node_matches entities n = false) (yd_nodes document).
Proof. unfold remove_entity_nodes. simpl. apply (delete_indices_filter entities []). Qed.

Lemma truthy_iff (str : string) : truthy str = true ↔ str ≠ "".
Proof.
  unfold truthy. rewrite negb_true_iff. split.
  - intros H ->. by rewrite String.eqb_refl in H.
  - intros H. by apply String.eqb_neq.
Qed.

Lemma node_matches_iff entities node :
  (∀ e, e ∈ entities → entityId e ≠ "" ∧ entityType e ≠ "") →
  node_matches entities node = true ↔ entity_of_node node ∈ entities.
Proof.
  intros Hwf. unfold node_matches. rewrite !andb_true_iff, !truthy_iff, existsb_exists.
  split.
  - intros [_ [e [Hin He]]]. apply list_elem_of_In in Hin.
    apply andb_true_iff in He as [H1 H2]. apply String.eqb_eq in H1, H2.
    destruct e as [i t]. simpl in *. subst. done.
  - intros Hin. destruct (Hwf _ Hin) as [H1 H2]. simpl in *.
    split; [done|]. exists (entity_of_node node).
    split; [by apply list_elem_of_In|]. simpl. by rewrite !String.eqb_refl.
Qed.

Lemma filter_node_matches entities (nodes : list CanvasNode) :
  (∀ e, e ∈ entities → entityId e ≠ "" ∧ entityType e ≠ "") →
  filter (λ n, node_matches entities n = false) nodes
  = filter (λ n, entity_of_node n ∉ entities) nodes.
Proof.
  intros Hwf. apply list_filter_iff. intros n.
  rewrite <- (node_matches_iff entities n Hwf).
  destruct (node_matches entities n); intuition congruence.
Qed.

Lemma stored_nodes_lookup key s1 s2 :
  objects s1 !! key = objects s2 !! key → stored_nodes key s1 = stored_nodes key s2.
Proof.
  intros Ho. unfold stored_nodes, getCanvasYDoc.
  destruct (negb (truthy key)) eqn:Hk; [done|].
  unfold try_catch, bind, minio_getObject. rewrite Hk, Ho.
  destruct (objects s2 !! key) as [[|?|doc]|]; done.
Qed.

Lemma stored_nodes_falsy key s : truthy key = false → stored_nodes key s = [].
Proof. apply stored_nodes_no_key. Qed.

(** One task of [deleteEntityNodesFromCanvases]: nothing for a canvas without
    a row; otherwise the document of the canvas loses the matching nodes and
    the live relation rows of the canvas for the entities are soft-deleted. *)
Lemma deleteEntityNodesFromCanvas_run entities canvasId s :
  match canvases (db s) !! canvasId with
  | None => deleteEntityNodesFromCanvas entities canvasId s = (Ok (), s)
  | Some c =>
      ∃ s' doc,
        deleteEntityNodesFromCanvas entities canvasId s = (Ok (), s')
        ∧ yd_nodes doc = filter (λ n, node_matches entities n = false)
                           (stored_nodes (cv_stateStorageKey c) s)
        ∧ objects s' = <[cv_stateStorageKey c := UpdateBuffer doc]> (objects s)
        ∧ canvases (db s') = canvases (db s)
        ∧ relations (db s') =
            map (λ r, if bool_decide (rel_canvasId r = canvasId)
                         && relation_of_entities entities r
                      then soft_delete (clock s) r else r) (relations (db s))
  end.
Proof.
  unfold deleteEntityNodesFromCanvas.
  erewrite bind_Ok; [|apply canvas_find_run].
  destruct (canvases (db s) !! canvasId) as [c|] eqn:Hc; [|done].
  destruct (collab_loadDocument_run c s) as (doc & Hload & Hnodes).
  unfold collab_directConnection. unfold bind at 1 2. rewrite Hload.
  unfold minio_putObject, bind, now, void, bind, prisma, commit, relation_updateMany, ret.
  simpl. eexists _, _. split; [done|]. simpl.
  split; [|done]. by rewrite remove_entity_nodes_filter, Hnodes.
Qed.

Lemma filter_idemp {A} (P : A → Prop) `{∀ x, Decision (P x)} (l : list A) :
  filter P (filter P l) = filter P l.
Proof. rewrite list_filter_filter. apply list_filter_iff. tauto. Qed.

Lemma stored_nodes_put key k doc s s' :
  objects s' = <[k := UpdateBuffer doc]> (objects s) →
  stored_nodes key s' =
  if bool_decide (key = k) && truthy k then yd_nodes doc else stored_nodes key s.
Proof.
  intros Ho. case_bool_decide as Hk; simpl.
  - subst key. destruct (truthy k) eqn:Ht.
    + apply stored_nodes_of_update; [done|]. rewrite Ho. apply lookup_insert_eq.
    + by rewrite !stored_nodes_falsy.
  - apply stored_nodes_lookup. rewrite Ho. by apply lookup_insert_ne.
Qed.

Lemma removal_progress_init entities s0 : removal_progress entities s0 [] s0.
Proof.
  repeat split; try done; [by left| |].
  - intros ?? []%elem_of_nil.
  - apply Forall2_same_length_lookup. split; [done|].
    intros i r0 r H1 H2. assert (r = r0) as -> by congruence.
    split; [by left|]. intros []%elem_of_nil.
Qed.

Lemma relation_progress_step entities canvases0 processed canvasId t r0 r :
  relation_progress entities canvases0 processed r0 r →
  is_Some (canvases0 !! canvasId) →
  relation_progress entities canvases0 (canvasId :: processed) r0
    (if bool_decide (rel_canvasId r = canvasId) && relation_of_entities entities r
     then soft_delete t r else r).
Proof.
  intros [Hstep Hdone] Hc.
  assert (rel_canvasId r = rel_canvasId r0) as Hid.
  { by destruct Hstep as [->|(t0 & _ & ->)]. }
  destruct (bool_decide (rel_canvasId r = canvasId) && relation_of_entities entities r)
    eqn:Hcond.
  - apply andb_true_iff in Hcond as [H1 H2]. apply bool_decide_eq_true in H1.
    destruct Hstep as [->|(t0 & _ & ->)].
    + split; [right; eauto|]. intros _ _ _. simpl. discriminate.
    + unfold relation_of_entities, rel_live in H2. simpl in H2.
      by rewrite andb_false_r in H2.
  - split; [done|]. intros [Heq|Hin]%elem_of_cons Hex Hrel; [|by apply Hdone].
    destruct Hstep as [->|(t0 & _ & ->)]; [|simpl; discriminate].
    rewrite Hrel, andb_true_r in Hcond. by apply bool_decide_eq_false in Hcond.
Qed.

Lemma relation_progress_skip entities canvases0 processed canvasId r0 r :
  relation_progress entities canvases0 processed r0 r →
  canvases0 !! canvasId = None →
  relation_progress entities canvases0 (canvasId :: processed) r0 r.
Proof.
  intros [Hstep Hdone] Hc. split; [done|].
  intros [Heq|Hin]%elem_of_cons Hex Hrel; [|by apply Hdone].
  rewrite Heq, Hc in Hex. by destruct Hex.
Qed.

Lemma removal_progress_step entities s0 processed s canvasId :
  removal_progress entities s0 processed s →
  ∃ s', deleteEntityNodesFromCanvas entities canvasId s = (Ok (), s')
        ∧ removal_progress entities s0 (canvasId :: processed) s'.
Proof.
  intros (Hcv & Hkeys & Hdone & Hrels).
  pose proof (deleteEntityNodesFromCanvas_run entities canvasId s) as Hrun.
  rewrite Hcv in Hrun.
  destruct (canvases (db s0) !! canvasId) as [c|] eqn:Hc.
  - destruct Hrun as (s' & doc & Hrun & Hdoc & Hobj & Hcv' & Hrel').
    exists s'. split; [done|].
    assert (∀ key, stored_nodes key s' =
                   if bool_decide (key = cv_stateStorageKey c)
                   then filter (λ n, node_matches entities n = false) (stored_nodes key s)
                   else stored_nodes key s) as Hstored.
    { intros key. rewrite (stored_nodes_put key _ doc s s' Hobj).
      case_bool_decide as Hk; simpl; [|done]. subst key.
      destruct (truthy (cv_stateStorageKey c)) eqn:Ht; [done|].
      by rewrite stored_nodes_falsy. }
    split; [congruence|]. split; [|split].
    + intros key. rewrite Hstored. case_bool_decide; [|done].
      right. destruct (Hkeys key) as [->| ->]; [done|]. apply filter_idemp.
    + intros cid c' [->|Hin]%elem_of_cons Hc'.
      * assert (c' = c) as -> by congruence.
        rewrite Hstored, bool_decide_eq_true_2 by done.
        destruct (Hkeys (cv_stateStorageKey c)) as [->| ->]; [done|]. apply filter_idemp.
      * rewrite Hstored. case_bool_decide as Hk; [|by apply (Hdone cid)].
        rewrite Hk.
        destruct (Hkeys (cv_stateStorageKey c)) as [->| ->]; [done|]. apply filter_idemp.
    + rewrite Hrel'. apply Forall2_fmap_r.
      eapply Forall2_impl; [done|]. intros r0 r Hr.
      by apply relation_progress_step.
  - exists s. split; [done|]. repeat split; try done.
    + intros cid c' [->|Hin]%elem_of_cons Hc'; [congruence|by apply (Hdone cid)].
    + eapply Forall2_impl; [done|]. intros r0 r Hr.
      by apply relation_progress_skip.
Qed.

Lemma removal_progress_all entities s0 canvasIds processed s :
  removal_progress entities s0 processed s →
  ∃ s', Promise_all (map (deleteEntityNodesFromCanvas entities) canvasIds) s
        = (Ok (map (λ _, ()) canvasIds), s')
        ∧ removal_progress entities s0 (reverse canvasIds ++ processed) s'.
Proof.
  revert processed s. induction canvasIds as [|canvasId canvasIds IH]; intros processed s Hp.
  - exists s. done.
  - destruct (removal_progress_step _ _ _ _ canvasId Hp) as (s1 & Hrun & Hp1).
    destruct (IH _ _ Hp1) as (s' & Hall & Hp').
    exists s'. simpl. rewrite Hrun, Hall. split; [done|].
    by rewrite reverse_cons, <- app_assoc.
Qed.

Lemma distinct_by_keys {A K} `{EqDecision K} (key : A → K) seen (rows : list A) r :
  r ∈ rows → key r ∈ seen ∨ key r ∈ map key (distinct_by key seen rows).
Proof.
  revert seen. induction rows as [|r' rows IH]; intros seen Hin.
  - by apply elem_of_nil in Hin.
  - simpl. apply elem_of_cons in Hin as [->|Hin].
    + case_bool_decide; [by left|]. right. simpl. apply list_elem_of_here.
    + case_bool_decide.
      * by apply IH.
      * destruct (IH (key r' :: seen) Hin) as [[->|Hs]%elem_of_cons|Hd].
        -- right. simpl. apply list_elem_of_here.
        -- by left.
        -- right. simpl. by apply list_elem_of_further.
Qed.

Lemma relation_of_entities_intro entities r :
  rel_deletedAt r = None → entity_of_relation r ∈ entities →
  relation_of_entities entities r = true.
Proof.
  intros Hl Hin. unfold relation_of_entities, rel_live.
  rewrite !andb_true_iff, !bool_decide_eq_true. repeat split; [| |done].
  - by apply (list_elem_of_fmap_2 entityId) in Hin.
  - by apply (list_elem_of_fmap_2 entityType) in Hin.
Qed.

Lemma indices_toRemove_bounds entities index nodes :
  Forall (λ i, (index ≤ i < index + length nodes)%nat) (indices_toRemove entities index nodes).
Proof.
  revert index. induction nodes as [|node nodes IH]; intros index; simpl; [constructor|].
  specialize (IH (S index)).
  assert (Forall (λ i, (index ≤ i < index + S (length nodes))%nat)
            (indices_toRemove entities (S index) nodes)) as IH'.
  { eapply Forall_impl; [exact IH|]. simpl. lia. }
  destruct (node_matches entities node); [|done]. constructor; [lia|done].
Qed.

Lemma indices_toRemove_ascending entities index nodes :
  StronglySorted (λ i j, (i < j)%nat) (indices_toRemove entities index nodes).
Proof.
  revert index. induction nodes as [|node nodes IH]; intros index; simpl; [constructor|].
  destruct (node_matches entities node); [|done]. constructor; [done|].
  eapply Forall_impl; [apply indices_toRemove_bounds|]. simpl. lia.
Qed.

(** The indices are deleted from the last to the first, and each is an index
    of the array. *)
Lemma indices_toRemove_descending entities nodes :
  StronglySorted (λ i j, (j < i)%nat) (reverse (indices_toRemove entities 0 nodes))
  ∧ Forall (λ i, (i < length nodes)%nat) (reverse (indices_toRemove entities 0 nodes)).
Proof.
  split.
  - apply Sorted_StronglySorted; [intros i j k; lia|].
    apply (Sorted_reverse (λ i j, (i < j)%nat)), StronglySorted_Sorted,
      indices_toRemove_ascending.
  - apply Forall_reverse. eapply Forall_impl; [apply indices_toRemove_bounds|].
    simpl. lia.
Qed.

(** C5, as the code has it: for entities with an id and a type,
    [deleteEntityNodesFromCanvases] succeeds; the document of every canvas
    that has a row and a live relation row for one of the entities keeps
    exactly the nodes that refer to none of
    the entities, in their order, which is what deleting the collected indices
    from the last to the first leaves; every relation row for one of the
    entities whose canvas has a row is soft-deleted, and a row that was
    soft-deleted before is unchanged; in every stored document the nodes that
    refer to none of the entities are what they were, and no node is added;
    the indices that the transaction deletes are indices of the node array, in
    descending order. *)
Theorem deleteEntityNodesFromCanvases_removes entities s :
  (∀ e, e ∈ entities → entityId e ≠ "" ∧ entityType e ≠ "") →
  ∃ s',
    deleteEntityNodesFromCanvases entities s = (Ok (), s')
    ∧ (∀ r c, r ∈ relations (db s) → rel_deletedAt r = None →
              entity_of_relation r ∈ entities →
              canvases (db s) !! rel_canvasId r = Some c →
              stored_nodes (cv_stateStorageKey c) s'
              = filter (λ n, entity_of_node n ∉ entities)
                  (stored_nodes (cv_stateStorageKey c) s))
    ∧ Forall2 (λ r0 r,
                 entity_of_relation r = entity_of_relation r0
                 ∧ rel_canvasId r = rel_canvasId r0
                 ∧ (entity_of_relation r0 ∈ entities →
                    is_Some (canvases (db s) !! rel_canvasId r0) →
                    rel_deletedAt r ≠ None)
                 ∧ (rel_deletedAt r0 ≠ None → r = r0))
        (relations (db s)) (relations (db s'))
    ∧ (∀ key,
         filter (λ n, entity_of_node n ∉ entities) (stored_nodes key s')
         = filter (λ n, entity_of_node n ∉ entities) (stored_nodes key s)
         ∧ stored_nodes key s' `sublist_of` stored_nodes key s)
    ∧ (∀ document,
         let toRemove := reverse (indices_toRemove entities 0 (yd_nodes document)) in
         StronglySorted (λ i j, (j < i)%nat) toRemove
         ∧ Forall (λ i, (i < length (yd_nodes document))%nat) toRemove
         ∧ yd_nodes (remove_entity_nodes entities document)
           = filter (λ n, entity_of_node n ∉ entities) (yd_nodes document)).
Proof.
  intros Hwf. unfold deleteEntityNodesFromCanvases.
  set (rows := filter (λ r, relation_of_entities entities r = true) (relations (db s))).
  set (canvasIds := map rel_canvasId (distinct_by rel_canvasId [] rows)).
  assert (prisma (tx_bind (relation_findMany (relation_of_entities entities))
                    (λ rows, tx_ret (distinct_by rel_canvasId [] rows))) s
          = (Ok (distinct_by rel_canvasId [] rows), s)) as Hfind.
  { unfold prisma, commit, tx_bind, relation_findMany, tx_read, tx_ret. simpl.
    destruct s. simpl. by rewrite app_nil_r. }
  erewrite bind_Ok; [|exact Hfind]. fold canvasIds.
  assert (∀ r, r ∈ relations (db s) → relation_of_entities entities r = true →
               rel_canvasId r ∈ canvasIds) as Hids.
  { intros r Hr Hrel.
    destruct (distinct_by_keys rel_canvasId [] rows r) as [[]%elem_of_nil|Hin]; [|done].
    by apply list_elem_of_filter. }
  assert (∃ s' processed,
            (if (length canvasIds =? 0)%nat then ret ()
             else void (Promise_all (map (deleteEntityNodesFromCanvas entities) canvasIds))) s
            = (Ok (), s')
            ∧ removal_progress entities s processed s'
            ∧ ∀ x, x ∈ canvasIds → x ∈ processed) as (s' & processed & Hrun & Hp & Hsub).
  { destruct (removal_progress_all entities s canvasIds [] s (removal_progress_init _ _))
      as (s' & Hall & Hp).
    destruct canvasIds as [|x l] eqn:Hl.
    - exists s, []. split; [done|]. split; [apply removal_progress_init|done].
    - exists s', (reverse (x :: l) ++ []). cbn [length Nat.eqb].
      unfold void. erewrite bind_Ok; [|exact Hall]. split; [done|]. split; [done|].
      intros y Hy. rewrite app_nil_r. by apply elem_of_reverse. }
  exists s'. split; [done|].
  destruct Hp as (Hcv & Hkeys & Hdone & Hrels).
  split; [|split; [|split]].
  4:{ intros document. cbv zeta.
      destruct (indices_toRemove_descending entities (yd_nodes document)) as [H1 H2].
      split; [done|]. split; [done|].
      by rewrite remove_entity_nodes_filter, filter_node_matches. }
  - intros r c Hr Hl Hin Hc.
    rewrite <- filter_node_matches by done.
    apply (Hdone (rel_canvasId r)); [|done].
    apply Hsub, Hids; [done|]. by apply relation_of_entities_intro.
  - apply Forall2_same_length_lookup.
    split; [by eapply Forall2_length|]. intros i r0 r H0 H1.
    destruct (Forall2_lookup_lr _ _ _ _ _ _ Hrels H0 H1) as [Hstep Hd].
    apply list_elem_of_lookup_2 in H0.
    split; [by destruct Hstep as [->|(t & _ & ->)]|].
    split; [by destruct Hstep as [->|(t & _ & ->)]|].
    split.
    + intros Hin Hex. destruct (rel_deletedAt r0) as [t0|] eqn:Hl0.
      * destruct Hstep as [->|(t & _ & ->)]; [by rewrite Hl0|simpl; discriminate].
      * assert (relation_of_entities entities r0 = true) as Hrel
          by by apply relation_of_entities_intro.
        apply Hd; [|done|done]. by apply Hsub, Hids.
    + intros Hl0. destruct Hstep as [->|(t & Hrel & ->)]; [done|].
      unfold relation_of_entities, rel_live in Hrel.
      rewrite (bool_decide_eq_false_2 _ Hl0) in Hrel. by rewrite andb_false_r in Hrel.
  - intros key. destruct (Hkeys key) as [->| ->]; [done|]. split.
    + rewrite <- !filter_node_matches by done. apply filter_idemp.
    + apply sublist_filter.
Qed.

End Properties.

(** * Further properties of the service *)

Section Coverage.
Context {W : Type} {collaborators : Collaborators W}.
Implicit Types (s : State W) (user : User).

(** ** Reading the document of a canvas *)

Lemma getCanvasYDoc_run key s :
  getCanvasYDoc key s =
  (Ok (if truthy key
       then match objects s !! key with
            | Some (UpdateBuffer doc) => Some doc
            | _ => None
            end
       else None), s).
Proof.
  unfold getCanvasYDoc. destruct (truthy key) eqn:Hk; [|done]. simpl.
  unfold try_catch, bind, minio_getObject. rewrite Hk. simpl.
  destruct (objects s !! key) as [[|?|doc]|]; done.
Qed.

(** X1: [getCanvasYDoc] never raises and never changes the state: it yields a
    document exactly when the key is not empty and holds the update of that
    document, and nothing for an empty key, a key without an object, an empty
    object and bytes that are no update. *)
Theorem getCanvasYDoc_fail_soft key s :
  ∃ result,
    getCanvasYDoc key s = (Ok result, s)
    ∧ ∀ doc, result = Some doc ↔ key ≠ "" ∧ objects s !! key = Some (UpdateBuffer doc).
Proof.
  rewrite getCanvasYDoc_run. eexists. split; [reflexivity|]. intros doc.
  rewrite <- truthy_iff. destruct (truthy key).
  - destruct (objects s !! key) as [[|?|doc']|]; intuition congruence.
  - intuition congruence.
Qed.


(** X3: [getCanvasRawData] leaves the state as it is; it fails, with the not-found
    error, exactly when the canvas has no row, is soft-deleted or is not the
    user's; otherwise it succeeds whatever the object store holds under the
    state key, with the title and the owner of the row and the nodes that the
    fail-soft read of the document finds. *)
Theorem getCanvasRawData_total s user canvasId :
  match canvases (db s) !! canvasId with
  | Some c =>
      if bool_decide (cv_uid c = uid user ∧ cv_deletedAt c = None)
      then ∃ raw,
             getCanvasRawData user canvasId s = (Ok raw, s)
             ∧ raw_title raw = cv_title c
             ∧ raw_nodes raw = stored_nodes (cv_stateStorageKey c) s
             ∧ raw_owner raw = (cv_uid c, users (db s) !! uid user)
             ∧ raw_minimapUrl raw = minimapUrl_of c
      else getCanvasRawData user canvasId s = (Err CanvasNotFoundError, s)
  | None => getCanvasRawData user canvasId s = (Err CanvasNotFoundError, s)
  end.
Proof.
  unfold getCanvasRawData.
  erewrite bind_Ok; [|apply canvas_find_run].
  destruct (canvases (db s) !! canvasId) as [c|]; [|done].
  unfold owned_by, is_live. case_bool_decide as H.
  - destruct H as [H1 H2]. rewrite !bool_decide_eq_true_2 by done. simpl.
    erewrite bind_Ok; [|apply prisma_read].
    erewrite bind_Ok; [|apply getCanvasYDoc_run].
    eexists. split; [reflexivity|]. simpl. repeat split.
    unfold stored_nodes. rewrite getCanvasYDoc_run. simpl.
    destruct (truthy _); [|done]. by destruct (objects s !! _) as [[|?|doc]|].
  - destruct (bool_decide (cv_uid c = uid user)) eqn:H1;
      destruct (bool_decide (cv_deletedAt c = None)) eqn:H2; try done.
    apply bool_decide_eq_true in H1, H2. by destruct H.
Qed.

(** ** Updating a canvas *)

(** X4: [updateCanvas] fails with the not-found error, and changes nothing, when
    the canvas has no row, is soft-deleted or is not the user's. *)
Theorem updateCanvas_not_found s user canvasId title minimapStorageKey :
  match canvases (db s) !! canvasId with
  | Some c => cv_uid c ≠ uid user ∨ cv_deletedAt c ≠ None
  | None => True
  end →
  updateCanvas user canvasId title minimapStorageKey s = (Err CanvasNotFoundError, s).
Proof.
  intros H. unfold updateCanvas.
  erewrite bind_Ok; [|apply canvas_find_run].
  destruct (canvases (db s) !! canvasId) as [c|]; [|done].
  unfold owned_by, is_live. destruct H as [H|H].
  - by rewrite (bool_decide_eq_false_2 _ H).
  - rewrite (bool_decide_eq_false_2 _ H). by rewrite andb_false_r.
Qed.

Lemma collab_directConnection_run canvas transact s :
  ∃ document,
    collab_directConnection canvas transact s
    = (Ok (), with_objects (insert (cv_stateStorageKey canvas)
                              (encodeStateAsUpdate (transact document))) s)
    ∧ yd_nodes document = stored_nodes (cv_stateStorageKey canvas) s
    ∧ fst (getCanvasYDoc (cv_stateStorageKey canvas) s)
      = Ok (if truthy (cv_stateStorageKey canvas)
            then match objects s !! cv_stateStorageKey canvas with
                 | Some (UpdateBuffer doc) => Some doc
                 | _ => None
                 end
            else None)
    ∧ document = default new_YDoc
                   (if truthy (cv_stateStorageKey canvas)
                    then match objects s !! cv_stateStorageKey canvas with
                         | Some (UpdateBuffer doc) => Some doc
                         | _ => None
                         end
                    else None).
Proof.
  unfold collab_directConnection, collab_loadDocument.
  erewrite bind_Ok.
  2:{ erewrite bind_Ok; [|apply getCanvasYDoc_run]. reflexivity. }
  eexists. split; [reflexivity|]. split; [|split; [|done]].
  - unfold stored_nodes. rewrite getCanvasYDoc_run. simpl.
    destruct (truthy _); [|done]. by destruct (objects s !! _) as [[|?|doc]|].
  - by rewrite getCanvasYDoc_run.
Qed.

(** X5: For a live canvas of the user [updateCanvas] succeeds, and the row it
    returns is the row stored afterwards: the title and the minimap key are the
    given ones, or the former ones where none is given; the owner, the status,
    the state key, the creation time and the live mark are kept; the entry of
    the canvas in the search index carries the title of the row; no other
    canvas row and no relation row changes. *)
Theorem updateCanvas_row s user canvasId title minimapStorageKey c :
  canvases (db s) !! canvasId = Some c →
  cv_uid c = uid user →
  cv_deletedAt c = None →
  ∃ c' s',
    updateCanvas user canvasId title minimapStorageKey s = (Ok (canvasId, c'), s')
    ∧ canvases (db s') = <[canvasId := c']> (canvases (db s))
    ∧ cv_title c' = default (cv_title c) title
    ∧ cv_minimapStorageKey c' = default (cv_minimapStorageKey c) minimapStorageKey
    ∧ cv_uid c' = cv_uid c ∧ cv_status c' = cv_status c
    ∧ cv_stateStorageKey c' = cv_stateStorageKey c
    ∧ cv_createdAt c' = cv_createdAt c ∧ cv_deletedAt c' = None
    ∧ cv_updatedAt c' = clock s
    ∧ (es_title <$> searchIndex s' !! canvasId) = Some (cv_title c')
    ∧ (es_uid <$> searchIndex s' !! canvasId) = Some (cv_uid c)
    ∧ relations (db s') = relations (db s)
    ∧ duplicateRecords (db s') = duplicateRecords (db s).
Proof.
  intros Hc Ho Hl. unfold updateCanvas.
  erewrite bind_Ok; [|apply canvas_find_run]. rewrite Hc.
  unfold owned_by, is_live. rewrite !bool_decide_eq_true_2 by done. simpl.
  unfold bind at 1. unfold now at 1.
  unfold bind at 1. unfold prisma_transaction, commit, canvas_update_where. simpl.
  rewrite Hc. unfold owned_by, is_live. rewrite !bool_decide_eq_true_2 by done. simpl.
  set (c' := touch (clock s) _).
  set (s1 := Build_State _ _ _ _ _ _ _ _).
  assert (∃ s2, (match title with
                 | Some title => collab_directConnection c' (set_yd_title title)
                 | None => ret ()
                 end) s1 = (Ok (), s2)
                ∧ db s2 = db s1 ∧ searchIndex s2 = searchIndex s1) as (s2 & Hs2 & Hd2 & Hi2).
  { destruct title as [t|].
    - destruct (collab_directConnection_run c' (set_yd_title t) s1) as (d & Hrun & _).
      eexists. split; [exact Hrun|]. done.
    - eexists. split; [reflexivity|]. done. }
  erewrite bind_Ok; [|exact Hs2].
  assert (∃ s3, (match minimapStorageKey with
                 | Some key =>
                     if truthy (cv_minimapStorageKey c)
                        && negb (String.eqb key (cv_minimapStorageKey c))
                     then minio_removeObject (cv_minimapStorageKey c)
                     else ret ()
                 | None => ret ()
                 end) s2 = (Ok (), s3)
                ∧ db s3 = db s2 ∧ searchIndex s3 = searchIndex s2) as (s3 & Hs3 & Hd3 & Hi3).
  { destruct minimapStorageKey as [key|]; [|by eexists].
    destruct (truthy (cv_minimapStorageKey c)) eqn:Ht; simpl; [|by eexists].
    destruct (negb _); [|by eexists].
    unfold minio_removeObject. rewrite Ht. by eexists. }
  erewrite bind_Ok; [|exact Hs3].
  unfold bind, elasticsearch_upsertCanvas, ret. simpl.
  exists c'. eexists. split; [reflexivity|]. simpl.
  rewrite Hd3, Hd2, Hi3, Hi2. subst s1. simpl. rewrite !lookup_insert_eq. simpl.
  repeat split; try done;
    subst c'; simpl; destruct title, minimapStorageKey; simpl; congruence.
Qed.

(** X6: The blob of the former minimap is removed from the object store exactly
    when the canvas had a minimap and the update gives a different key; an
    update that gives the same key, or a canvas without a minimap, removes
    nothing. (An update of the minimap alone is considered: no session on the
    document is opened.) *)
Theorem updateCanvas_minimap s user canvasId key c :
  canvases (db s) !! canvasId = Some c →
  cv_uid c = uid user →
  cv_deletedAt c = None →
  objects (snd (updateCanvas user canvasId None (Some key) s))
  = if bool_decide (cv_minimapStorageKey c ≠ "" ∧ key ≠ cv_minimapStorageKey c)
    then delete (cv_minimapStorageKey c) (objects s)
    else objects s.
Proof.
  intros Hc Ho Hl. unfold updateCanvas.
  erewrite bind_Ok; [|apply canvas_find_run]. rewrite Hc.
  unfold owned_by, is_live. rewrite !bool_decide_eq_true_2 by done. simpl.
  unfold bind at 1. unfold now at 1.
  unfold bind at 1. unfold prisma_transaction, commit, canvas_update_where. simpl.
  rewrite Hc. unfold owned_by, is_live. rewrite !bool_decide_eq_true_2 by done. simpl.
  unfold bind at 1. unfold ret at 1.
  destruct (truthy (cv_minimapStorageKey c)) eqn:Ht;
    destruct (String.eqb key (cv_minimapStorageKey c)) eqn:Hk; simpl.
  - apply String.eqb_eq in Hk. rewrite bool_decide_eq_false_2; [done|]. tauto.
  - apply String.eqb_neq in Hk. unfold bind, minio_removeObject. rewrite Ht. simpl.
    apply truthy_iff in Ht. by rewrite bool_decide_eq_true_2.
  - rewrite bool_decide_eq_false_2; [done|]. intros [H _].
    apply truthy_iff in H. congruence.
  - rewrite bool_decide_eq_false_2; [done|]. intros [H _].
    apply truthy_iff in H. congruence.
Qed.

(** X7: Renaming keeps the content: after [updateCanvas] with a title alone, on a
    live canvas of the user whose state key is not empty, [getCanvasRawData]
    returns the new title with the nodes and the edges it returned before, and
    the title of the stored document is the new title. *)
Theorem updateCanvas_title_keeps_content s user canvasId title c raw :
  canvases (db s) !! canvasId = Some c →
  cv_stateStorageKey c ≠ "" →
  getCanvasRawData user canvasId s = (Ok raw, s) →
  ∃ c' s' raw' doc,
    updateCanvas user canvasId (Some title) None s = (Ok (canvasId, c'), s')
    ∧ getCanvasRawData user canvasId s' = (Ok raw', s')
    ∧ raw_title raw' = title
    ∧ raw_nodes raw' = raw_nodes raw
    ∧ raw_edges raw' = raw_edges raw
    ∧ getCanvasYDoc (cv_stateStorageKey c) s' = (Ok (Some doc), s')
    ∧ yd_title doc = title.
Proof.
  intros Hc Hkey Hraw.
  assert (cv_uid c = uid user ∧ cv_deletedAt c = None) as [Ho Hl].
  { revert Hraw. unfold getCanvasRawData.
    erewrite bind_Ok; [|apply canvas_find_run]. rewrite Hc.
    unfold owned_by, is_live.
    destruct (bool_decide (cv_uid c = uid user)) eqn:H1;
      destruct (bool_decide (cv_deletedAt c = None)) eqn:H2; try done.
    by apply bool_decide_eq_true in H1, H2. }
  apply truthy_iff in Hkey.
  assert (raw_nodes raw = default [] (yd_nodes <$> (match objects s !! cv_stateStorageKey c with
                                                    | Some (UpdateBuffer d) => Some d
                                                    | _ => None end))
          ∧ raw_edges raw = default [] (yd_edges <$> (match objects s !! cv_stateStorageKey c with
                                                      | Some (UpdateBuffer d) => Some d
                                                      | _ => None end))) as [Hn He].
  { revert Hraw. unfold getCanvasRawData.
    erewrite bind_Ok; [|apply canvas_find_run]. rewrite Hc.
    unfold owned_by, is_live. rewrite !bool_decide_eq_true_2 by done. simpl.
    erewrite bind_Ok; [|apply prisma_read].
    erewrite bind_Ok; [|apply getCanvasYDoc_run]. rewrite Hkey.
    unfold ret. by intros [= <-]. }
  unfold updateCanvas.
  erewrite bind_Ok; [|apply canvas_find_run]. rewrite Hc.
  unfold owned_by, is_live. rewrite !bool_decide_eq_true_2 by done. simpl.
  unfold bind at 1. unfold now at 1.
  unfold bind at 1. unfold prisma_transaction, commit, canvas_update_where. simpl.
  rewrite Hc. unfold owned_by, is_live. rewrite !bool_decide_eq_true_2 by done. simpl.
  set (c' := touch (clock s) _).
  set (s1 := Build_State _ _ _ _ _ _ _ _).
  destruct (collab_directConnection_run c' (set_yd_title title) s1)
    as (d & Hrun & _ & _ & Hd).
  erewrite bind_Ok; [|exact Hrun].
  unfold bind, ret, elasticsearch_upsertCanvas. simpl.
  eexists c', _, _, (set_yd_title title d). split; [reflexivity|].
  set (s' := with_searchIndex _ _).
  assert (getCanvasYDoc (cv_stateStorageKey c) s' = (Ok (Some (set_yd_title title d)), s'))
    as Hdoc.
  { rewrite getCanvasYDoc_run, Hkey. subst s' s1. simpl.
    by rewrite lookup_insert_eq. }
  split.
  - unfold getCanvasRawData.
    erewrite bind_Ok; [|apply canvas_find_run].
    subst s' s1. simpl. rewrite lookup_insert_eq.
    unfold owned_by, is_live. subst c'. simpl.
    rewrite !bool_decide_eq_true_2 by done. simpl.
    erewrite bind_Ok; [|apply prisma_read].
    erewrite bind_Ok; [|exact Hdoc]. reflexivity.
  - simpl. split; [done|]. subst c' s1. simpl in Hd. rewrite Hkey in Hd.
    rewrite Hn, He, Hd.
    split; [by destruct (objects s !! cv_stateStorageKey c) as [[|?|d0]|]|].
    split; [by destruct (objects s !! cv_stateStorageKey c) as [[|?|d0]|]|].
    split; [|done]. by rewrite <- Hd.
Qed.

(** ** Creating and deleting a canvas *)


(** What a successful [deleteCanvas] leaves in the relational store, and that
    it fails only with the not-found error, without a change. *)
Lemma deleteCanvas_db s user canvasId deleteAllFiles :
  match deleteCanvas user canvasId deleteAllFiles s with
  | (Ok _, s') =>
      ∃ c, canvases (db s) !! canvasId = Some c
           ∧ db s' = set_canvases
                       (insert canvasId (touch (clock s) (set_cv_deletedAt (clock s) c)))
                       (db s)
           ∧ objects s' = (if truthy (cv_stateStorageKey c)
                           then delete (cv_stateStorageKey c) (objects s)
                           else objects s)
  | (Err e, s') => e = CanvasNotFoundError ∧ s' = s
  end.
Proof.
  unfold deleteCanvas.
  erewrite bind_Ok; [|apply canvas_find_run].
  destruct (canvases (db s) !! canvasId) as [c|] eqn:Hc; [|done].
  destruct (owned_by (uid user) c && is_live c) eqn:Hcond; [|done].
  unfold bind at 1. unfold now at 1.
  destruct deleteAllFiles.
  - erewrite bind_Ok.
    2:{ erewrite bind_Ok; [|apply prisma_read]. reflexivity. }
    rewrite map_map.
    destruct (truthy (cv_stateStorageKey c)) eqn:Hk; simpl;
      unfold void, bind, ret, prisma, commit, canvas_update, canvas_update_where,
        elasticsearch_deleteCanvas, minio_removeObject; simpl; rewrite ?Hk; simpl;
      rewrite Hc; simpl;
      rewrite enqueue_all_run; simpl; exists c; by rewrite ?Hk.
  - erewrite bind_Ok; [|reflexivity].
    destruct (truthy (cv_stateStorageKey c)) eqn:Hk; simpl;
      unfold void, bind, ret, prisma, commit, canvas_update, canvas_update_where,
        elasticsearch_deleteCanvas, minio_removeObject; simpl; rewrite ?Hk; simpl;
      rewrite Hc; simpl;
      exists c; by rewrite ?Hk.
Qed.

(** X9: After a successful [deleteCanvas] the canvas is gone for every operation
    that looks it up as a live canvas, whoever asks: [getCanvasDetail],
    [getCanvasRawData], [updateCanvas], [autoNameCanvas] and a second
    [deleteCanvas] all fail with the not-found error and change nothing. *)
Theorem deleteCanvas_then_not_found s user canvasId deleteAllFiles s' user' :
  deleteCanvas user canvasId deleteAllFiles s = (Ok (), s') →
  getCanvasDetail user' canvasId s' = (Err CanvasNotFoundError, s')
  ∧ getCanvasRawData user' canvasId s' = (Err CanvasNotFoundError, s')
  ∧ (∀ title minimapStorageKey,
       updateCanvas user' canvasId title minimapStorageKey s'
       = (Err CanvasNotFoundError, s'))
  ∧ (∀ directUpdate,
       autoNameCanvas user' canvasId directUpdate s' = (Err CanvasNotFoundError, s'))
  ∧ (∀ deleteAllFiles',
       deleteCanvas user' canvasId deleteAllFiles' s' = (Err CanvasNotFoundError, s')).
Proof.
  intros Hdel. pose proof (deleteCanvas_db s user canvasId deleteAllFiles) as H.
  rewrite Hdel in H. destruct H as (c & Hc & Hdb & _).
  assert (prisma (canvas_find canvasId (λ c, owned_by (uid user') c && is_live c)) s'
          = (Ok None, s')) as Hfind.
  { rewrite canvas_find_run, Hdb. simpl. rewrite lookup_insert_eq.
    unfold is_live. simpl. by rewrite andb_false_r. }
  split; [|split; [|split; [|split]]].
  - unfold getCanvasDetail. by erewrite bind_Ok; [|exact Hfind].
  - unfold getCanvasRawData. by erewrite bind_Ok; [|exact Hfind].
  - intros title minimapStorageKey. unfold updateCanvas.
    by erewrite bind_Ok; [|exact Hfind].
  - intros directUpdate. unfold autoNameCanvas. by erewrite bind_Ok; [|exact Hfind].
  - intros b. unfold deleteCanvas. by erewrite bind_Ok; [|exact Hfind].
Qed.

(** ** Reconciliation and removal, composed *)

(** After a pass, every live row of the canvas has the entity id of a node, and
    every node that carries an entity id and a type has a live row with its
    entity id. *)
Lemma syncCanvasEntityRelation_live_ids canvasId s c s' :
  canvases (db s) !! canvasId = Some c →
  syncCanvasEntityRelation canvasId s = (Ok (), s') →
  let entities := entities_of_nodes (stored_nodes (cv_stateStorageKey c) s) in
  (∀ r, r ∈ relations (db s') → rel_canvasId r = canvasId → rel_deletedAt r = None →
        rel_entityId r ∈ map entityId entities)
  ∧ (∀ e, e ∈ entities →
          ∃ r, r ∈ relations (db s') ∧ rel_canvasId r = canvasId
               ∧ rel_deletedAt r = None ∧ rel_entityId r = entityId e).
Proof.
  intros Hc Hrun entities.
  destruct (syncCanvasEntityRelation_run canvasId s c Hc) as (s'' & Hrun' & Hrel & _).
  rewrite Hrun in Hrun'. injection Hrun' as <-.
  fold entities in Hrel.
  set (existing := filter (λ r, bool_decide (rel_canvasId r = canvasId) && rel_live r = true)
                     (relations (db s))) in *.
  set (entityIds := list_to_set (map entityId entities) : gset string) in *.
  set (toRemove := filter (λ r, rel_entityId r ∉ entityIds) existing) in *.
  set (existingEntityIds := list_to_set (map rel_entityId existing) : gset string) in *.
  set (toCreate := filter (λ e, entityId e ∉ existingEntityIds) entities) in *.
  set (cond := λ r, bool_decide (rel_canvasId r = canvasId)
                    && bool_decide (rel_entityId r ∈ map rel_entityId toRemove)
                    && rel_live r).
  change (relations (db s') =
          map (λ r, if cond r then soft_delete (clock s) r else r) (relations (db s))
          ++ map (relation_for canvasId) toCreate) in Hrel.
  assert (∀ r, r ∈ existing ↔
               r ∈ relations (db s) ∧ rel_canvasId r = canvasId ∧ rel_deletedAt r = None)
    as Hexisting.
  { intros r. unfold existing. rewrite list_elem_of_filter.
    unfold rel_live. rewrite andb_true_iff, !bool_decide_eq_true. tauto. }
  assert (∀ r, r ∈ existing →
               cond r = true ↔ rel_entityId r ∉ map entityId entities) as Hcond.
  { intros r Hr. pose proof Hr as (_ & H1 & H2)%Hexisting.
    unfold cond, rel_live.
    rewrite (bool_decide_eq_true_2 _ H1), (bool_decide_eq_true_2 _ H2). simpl.
    rewrite andb_true_r, bool_decide_eq_true. split.
    - intros [r2 [Heq Hr2]]%list_elem_of_fmap.
      apply list_elem_of_filter in Hr2 as [Hr2 _]. rewrite Heq.
      intros Hin. apply Hr2. unfold entityIds. by apply elem_of_list_to_set.
    - intros Hnot. apply list_elem_of_fmap. exists r. split; [done|].
      apply list_elem_of_filter. split; [|done].
      unfold entityIds. by rewrite elem_of_list_to_set. }
  split.
  - intros r Hr H1 H2. rewrite Hrel in Hr.
    apply elem_of_app in Hr as [Hr|Hr].
    + apply list_elem_of_fmap in Hr as [r0 [Heq Hr0]].
      destruct (cond r0) eqn:Hc0; [by subst r|]. subst r0.
      assert (r ∈ existing) as Hex by by apply Hexisting.
      destruct (decide (rel_entityId r ∈ map entityId entities)) as [|Hn]; [done|].
      apply (Hcond r Hex) in Hn. congruence.
    + apply list_elem_of_fmap in Hr as [e [-> He]]. simpl.
      apply list_elem_of_filter in He as [_ He]. by apply list_elem_of_fmap_2.
  - intros e He.
    destruct (decide (entityId e ∈ existingEntityIds)) as [Hex|Hnew].
    + unfold existingEntityIds in Hex. apply elem_of_list_to_set in Hex.
      apply list_elem_of_fmap in Hex as [r [Heq Hr]].
      pose proof Hr as (Hin & H1 & H2)%Hexisting.
      exists r. split; [|done]. rewrite Hrel. apply elem_of_app. left.
      apply list_elem_of_fmap. exists r. split; [|done].
      destruct (cond r) eqn:Hc0; [|done].
      apply (Hcond r Hr) in Hc0. exfalso. apply Hc0. rewrite <- Heq.
      by apply list_elem_of_fmap_2.
    + exists (relation_for canvasId e). split; [|done].
      rewrite Hrel. apply elem_of_app. right. apply list_elem_of_fmap_2.
      by apply list_elem_of_filter.
Qed.

(** X10: Reconciliation is idempotent on the relation rows: a second pass right
    after a first one changes no relation row. *)
Theorem syncCanvasEntityRelation_idempotent canvasId s s1 :
  syncCanvasEntityRelation canvasId s = (Ok (), s1) →
  ∃ s2, syncCanvasEntityRelation canvasId s1 = (Ok (), s2)
        ∧ relations (db s2) = relations (db s1).
Proof.
  intros Hrun.
  destruct (canvases (db s) !! canvasId) as [c|] eqn:Hc.
  2:{ revert Hrun. unfold syncCanvasEntityRelation.
      erewrite bind_Ok; [|apply canvas_find_run]. by rewrite Hc. }
  destruct (syncCanvasEntityRelation_live_ids canvasId s c s1 Hc Hrun) as [Hlive Hnodes].
  destruct (syncCanvasEntityRelation_run canvasId s c Hc) as (s' & Hrun' & _ & Hcv & Hobj).
  rewrite Hrun in Hrun'. injection Hrun' as <-.
  assert (canvases (db s1) !! canvasId = Some c) as Hc1 by by rewrite Hcv.
  destruct (syncCanvasEntityRelation_run canvasId s1 c Hc1) as (s2 & Hrun2 & Hrel2 & _).
  exists s2. split; [done|]. rewrite Hrel2.
  rewrite (stored_nodes_objects _ s1 s) by done.
  set (entities := entities_of_nodes (stored_nodes (cv_stateStorageKey c) s)) in *.
  set (existing := filter (λ r, bool_decide (rel_canvasId r = canvasId) && rel_live r = true)
                     (relations (db s1))).
  assert (∀ r, r ∈ existing →
               r ∈ relations (db s1) ∧ rel_canvasId r = canvasId ∧ rel_deletedAt r = None)
    as Hexisting.
  { intros r. unfold existing. rewrite list_elem_of_filter.
    unfold rel_live. rewrite andb_true_iff, !bool_decide_eq_true. tauto. }
  rewrite (filter_none (λ r, rel_entityId r ∉ _) existing).
  2:{ intros r (Hin & H1 & H2)%Hexisting Hnot. apply Hnot.
      apply elem_of_list_to_set. by apply Hlive. }
  rewrite (filter_none (λ e, entityId e ∉ _) entities).
  2:{ intros e He Hnot. apply Hnot. apply elem_of_list_to_set.
      destruct (Hnodes e He) as (r & Hin & H1 & H2 & <-).
      apply list_elem_of_fmap_2. unfold existing. apply list_elem_of_filter.
      split; [|done]. unfold rel_live. by rewrite !bool_decide_eq_true_2. }
  simpl. rewrite app_nil_r.
  rewrite <- (map_id (relations (db s1))) at 2. apply map_ext. intros r.
  by rewrite andb_false_r.
Qed.

(** X11: [syncCanvasEntityRelation] does not ask whether the canvas is live: a pass
    right after a successful [deleteCanvas] succeeds, finds no document, and
    leaves the canvas without a live relation row; the rows of the other
    canvases stay as they are. *)
Theorem deleteCanvas_then_sync s user canvasId deleteAllFiles s1 :
  deleteCanvas user canvasId deleteAllFiles s = (Ok (), s1) →
  ∃ s2, syncCanvasEntityRelation canvasId s1 = (Ok (), s2)
        ∧ live_relations canvasId (db s2) = []
        ∧ filter (λ r, rel_canvasId r ≠ canvasId) (relations (db s2))
          = filter (λ r, rel_canvasId r ≠ canvasId) (relations (db s)).
Proof.
  intros Hdel. pose proof (deleteCanvas_db s user canvasId deleteAllFiles) as H.
  rewrite Hdel in H. destruct H as (c & Hc & Hdb & Hobj).
  set (c' := touch (clock s) (set_cv_deletedAt (clock s) c)) in *.
  assert (canvases (db s1) !! canvasId = Some c') as Hc1.
  { rewrite Hdb. simpl. apply lookup_insert_eq. }
  assert (stored_nodes (cv_stateStorageKey c') s1 = []) as Hnone.
  { unfold stored_nodes. rewrite getCanvasYDoc_run. subst c'. simpl.
    rewrite Hobj. destruct (truthy (cv_stateStorageKey c)); [|done].
    by rewrite lookup_delete_eq. }
  destruct (syncCanvasEntityRelation_run canvasId s1 c' Hc1) as (s2 & Hrun & Hrel & _).
  assert (relations (db s1) = relations (db s)) as Hrels by by rewrite Hdb.
  exists s2. split; [done|]. rewrite Hnone in Hrel. simpl in Hrel.
  rewrite app_nil_r in Hrel. unfold live_relations. rewrite Hrel, Hrels. split.
  - apply filter_none.
    intros r' [r [-> Hr]]%list_elem_of_fmap [H1 H2].
    set (existing := filter _ (relations (db s))) in *.
    destruct (bool_decide (rel_canvasId r = canvasId)
              && bool_decide (rel_entityId r ∈ map rel_entityId
                                (filter (λ r0, rel_entityId r0 ∉ (∅ : gset string)) existing))
              && rel_live r) eqn:Hcond; [done|].
    assert (r ∈ existing) as Hex.
    { apply list_elem_of_filter. split; [|done].
      unfold rel_live. by rewrite !bool_decide_eq_true_2. }
    unfold rel_live in Hcond.
    rewrite (bool_decide_eq_true_2 _ H1), (bool_decide_eq_true_2 _ H2) in Hcond.
    simpl in Hcond. rewrite andb_true_r in Hcond.
    apply bool_decide_eq_false in Hcond. apply Hcond.
    apply list_elem_of_fmap_2. apply list_elem_of_filter. split; [|done].
    apply not_elem_of_empty.
  - apply filter_other_canvas_soft_delete.
    intros r Hc0. apply andb_true_iff in Hc0 as [Hc0 _].
    apply andb_true_iff in Hc0 as [Hc0 _]. by apply bool_decide_eq_true in Hc0.
Qed.

Lemma deleteEntityNodesFromCanvases_no_relation_lemma entities s :
  (∀ r, r ∈ relations (db s) → relation_of_entities entities r = false) →
  deleteEntityNodesFromCanvases entities s = (Ok (), s).
Proof.
  intros Hnone. unfold deleteEntityNodesFromCanvases.
  assert (prisma (tx_bind (relation_findMany (relation_of_entities entities))
                    (λ rows, tx_ret (distinct_by rel_canvasId [] rows))) s
          = (Ok [], s)) as Hfind.
  { unfold prisma, commit, tx_bind, relation_findMany, tx_read, tx_ret. simpl.
    rewrite filter_none.
    - destruct s. simpl. by rewrite app_nil_r.
    - intros r Hr Hrel. rewrite (Hnone r Hr) in Hrel. done. }
  by erewrite bind_Ok; [|exact Hfind].
Qed.

(** X12: [deleteEntityNodesFromCanvases] is driven by the relation rows: when no
    live row has an entity id and an entity type of the given entities (in
    particular for an empty list of entities), it returns at once and the
    state, with every stored document, is what it was, whether or not a
    document has a node of one of the entities. *)
Theorem deleteEntityNodesFromCanvases_no_relation entities s :
  (∀ r, r ∈ relations (db s) → rel_deletedAt r = None →
        rel_entityId r ∈ map entityId entities →
        rel_entityType r ∉ map entityType entities) →
  deleteEntityNodesFromCanvases entities s = (Ok (), s).
Proof.
  intros Hnone. apply deleteEntityNodesFromCanvases_no_relation_lemma.
  intros r Hr. unfold relation_of_entities, rel_live.
  destruct (bool_decide (rel_entityId r ∈ map entityId entities)) eqn:H1; [|done].
  destruct (bool_decide (rel_deletedAt r = None)) eqn:H3; [|by rewrite andb_false_r].
  apply bool_decide_eq_true in H1, H3.
  rewrite (bool_decide_eq_false_2 _ (Hnone r Hr H3 H1)). done.
Qed.

(** The run of [deleteEntityNodesFromCanvases], with the progress it has made
    on every canvas that a matching live relation row names. *)
Lemma deleteEntityNodesFromCanvases_run entities s :
  ∃ s' processed,
    deleteEntityNodesFromCanvases entities s = (Ok (), s')
    ∧ removal_progress entities s processed s'
    ∧ ∀ r, r ∈ relations (db s) → relation_of_entities entities r = true →
           rel_canvasId r ∈ processed.
Proof.
  unfold deleteEntityNodesFromCanvases.
  set (rows := filter (λ r, relation_of_entities entities r = true) (relations (db s))).
  set (canvasIds := map rel_canvasId (distinct_by rel_canvasId [] rows)).
  assert (prisma (tx_bind (relation_findMany (relation_of_entities entities))
                    (λ rows, tx_ret (distinct_by rel_canvasId [] rows))) s
          = (Ok (distinct_by rel_canvasId [] rows), s)) as Hfind.
  { unfold prisma, commit, tx_bind, relation_findMany, tx_read, tx_ret. simpl.
    destruct s. simpl. by rewrite app_nil_r. }
  erewrite bind_Ok; [|exact Hfind]. fold canvasIds.
  assert (∀ r, r ∈ relations (db s) → relation_of_entities entities r = true →
               rel_canvasId r ∈ canvasIds) as Hids.
  { intros r Hr Hrel.
    destruct (distinct_by_keys rel_canvasId [] rows r) as [[]%elem_of_nil|Hin]; [|done].
    by apply list_elem_of_filter. }
  destruct (removal_progress_all entities s canvasIds [] s (removal_progress_init _ _))
    as (s' & Hall & Hp).
  destruct canvasIds as [|x l] eqn:Hl.
  - exists s, []. split; [done|]. split; [apply removal_progress_init|done].
  - exists s', (reverse (x :: l) ++ []). cbn [length Nat.eqb].
    unfold void. erewrite bind_Ok; [|exact Hall]. split; [done|]. split; [done|].
    intros r Hr Hrel. rewrite app_nil_r. apply elem_of_reverse. by apply Hids.
Qed.

(** X13: When every relation row names a canvas that has a row, a second
    [deleteEntityNodesFromCanvases] for the same entities, right after a first
    one, finds nothing to do and leaves the state as it is. *)
Theorem deleteEntityNodesFromCanvases_idempotent entities s :
  (∀ r, r ∈ relations (db s) → is_Some (canvases (db s) !! rel_canvasId r)) →
  ∃ s1, deleteEntityNodesFromCanvases entities s = (Ok (), s1)
        ∧ deleteEntityNodesFromCanvases entities s1 = (Ok (), s1).
Proof.
  intros Hint.
  destruct (deleteEntityNodesFromCanvases_run entities s)
    as (s1 & processed & Hrun & (_ & _ & _ & Hrels) & Hids).
  exists s1. split; [done|].
  apply deleteEntityNodesFromCanvases_no_relation_lemma.
  intros r Hr. apply list_elem_of_lookup in Hr as [i Hi].
  destruct (Forall2_lookup_r _ _ _ _ _ Hrels Hi) as (r0 & Hi0 & [Hstep Hdone]).
  pose proof (list_elem_of_lookup_2 _ _ _ Hi0) as Hr0.
  destruct (relation_of_entities entities r0) eqn:Hrel0.
  - assert (rel_deletedAt r ≠ None) as Hdel.
    { apply Hdone; [by apply Hids|by apply Hint|done]. }
    unfold relation_of_entities, rel_live.
    rewrite (bool_decide_eq_false_2 _ Hdel). by rewrite andb_false_r.
  - destruct Hstep as [->|(t & Habs & _)]; [done|congruence].
Qed.

(** ** What a duplication leaves alone *)

Lemma frames_ret {A} (P : State W → State W → Prop) (a : A) :
  (∀ s, P s s) → frames P (ret a).
Proof. intros Hrefl s r s' [= <- <-]. apply Hrefl. Qed.

Lemma frames_throw {A} (P : State W → State W → Prop) e :
  (∀ s, P s s) → frames P (throw (A := A) e).
Proof. intros Hrefl s r s' [= <- <-]. apply Hrefl. Qed.

Lemma frames_lift {A} (P : State W → State W → Prop) (x : Result A) :
  (∀ s, P s s) → frames P (lift x).
Proof. intros Hrefl s r s' [= <- <-]. apply Hrefl. Qed.

Lemma frames_read {A} (P : State W → State W → Prop) (f : Db → A) :
  (∀ s, P s s) → frames P (prisma (tx_read f)).
Proof. intros Hrefl s r s'. rewrite prisma_read. intros [= <- <-]. apply Hrefl. Qed.

Lemma frames_bind {A B} (P : State W → State W → Prop) (m : M A) (k : A → M B) :
  (∀ s1 s2 s3, P s1 s2 → P s2 s3 → P s1 s3) →
  frames P m → (∀ a, frames P (k a)) → frames P (bind m k).
Proof.
  intros Htrans Hm Hk s r s' [(a & s1 & H1 & H2)|(e & H1 & _)]%bind_inv.
  - eapply Htrans; [by eapply Hm|by eapply Hk].
  - by eapply Hm.
Qed.

Lemma frames_try_catch {A} (P : State W → State W → Prop) (m : M A) handler :
  (∀ s1 s2 s3, P s1 s2 → P s2 s3 → P s1 s3) →
  frames P m → (∀ e, frames P (handler e)) → frames P (try_catch m handler).
Proof.
  intros Htrans Hm Hh s r s'. unfold try_catch.
  destruct (m s) as [[a|e] s1] eqn:E.
  - intros [= <- <-]. by eapply Hm.
  - intros H. eapply Htrans; [by eapply Hm|by eapply Hh].
Qed.

Lemma frames_Promise_all {A} (P : State W → State W → Prop) (ps : list (M A)) :
  (∀ s, P s s) → (∀ s1 s2 s3, P s1 s2 → P s2 s3 → P s1 s3) →
  Forall (frames P) ps → frames P (Promise_all ps).
Proof. intros Hrefl Htrans Hps s r s'. by apply Promise_all_frame. Qed.

Lemma frames_weaken {A} (P Q : State W → State W → Prop) (m : M A) :
  (∀ s s', P s s' → Q s s') → frames P m → frames Q m.
Proof. intros HPQ Hm s r s' H. eapply HPQ, Hm, H. Qed.

Lemma duplication_frame_refl target pk s : duplication_frame target pk s s.
Proof. by unfold duplication_frame. Qed.

Lemma duplication_frame_trans target pk s1 s2 s3 :
  duplication_frame target pk s1 s2 → duplication_frame target pk s2 s3 →
  duplication_frame target pk s1 s3.
Proof.
  intros (A1 & A2 & A3 & A4 & A5 & A6 & A7) (B1 & B2 & B3 & B4 & B5 & B6 & B7).
  repeat split; try congruence.
  - intros. rewrite B5, A5; done.
  - intros. rewrite B6, A6; done.
  - intros. rewrite B7, A7; done.
Qed.

Lemma only_services_duplication_frame target pk s s' :
  only_services s s' → duplication_frame target pk s s'.
Proof.
  intros (Hd & _ & Ho & Hi & Hq & _). unfold duplication_frame.
  rewrite Hd, Ho, Hi, Hq. done.
Qed.

Lemma _duplicateCanvas_frame jd :
  frames (duplication_frame (jd_targetCanvasId jd) (fst (jd_dupRecord jd)))
    (_duplicateCanvas jd).
Proof.
  set (P := duplication_frame (jd_targetCanvasId jd) (fst (jd_dupRecord jd))).
  assert (∀ s, P s s) as Hrefl by apply duplication_frame_refl.
  assert (∀ s1 s2 s3, P s1 s2 → P s2 s3 → P s1 s3) as Htrans
    by apply duplication_frame_trans.
  unfold _duplicateCanvas.
  apply frames_bind; [done|by apply frames_read|]. intros [u|]; [|by apply frames_ret].
  apply frames_bind; [done|by apply frames_read|].
  intros [src|]; [|by apply frames_throw].
  apply frames_bind; [done| |].
  { intros s r s' [-> _]%load_source_inv. apply Hrefl. }
  intros doc. apply frames_bind; [done| |].
  { intros s r s' [H _]%fork_step_inv. by apply only_services_duplication_frame. }
  intros nodes. apply frames_bind; [done| |].
  { intros s r s' H%files_step_inv. by apply only_services_duplication_frame. }
  intros _. apply frames_bind; [done| |].
  { intros s r s' [= <- <-]. unfold P, duplication_frame. simpl.
    repeat split; try done. intros key Hk. by apply lookup_insert_ne. }
  intros _. apply frames_bind; [done| |].
  { intros s r s' [= <- <-]. by unfold P, duplication_frame. }
  intros t s r s'. unfold prisma_transaction, commit, tx_bind, canvas_update,
    canvas_update_where, duplicateRecord_update, tx_ret.
  destruct (canvases (db s) !! jd_targetCanvasId jd) as [c|]; simpl;
    [|intros [= <- <-]; apply Hrefl].
  destruct (duplicateRecords (db s) !! fst (jd_dupRecord jd)) as [rec|]; simpl;
    [|intros [= <- <-]; apply Hrefl].
  intros [= <- <-]. unfold P, duplication_frame. simpl.
  repeat split; try done.
  - intros id Hid. by apply lookup_insert_ne.
  - intros pk' Hpk. by apply lookup_insert_ne.
Qed.

Lemma duplicateCanvas_setup_frame user param checkOwnership s :
  let target := fst (genCanvasID (world s)) in
  let pk := next_pk (duplicateRecords (db s)) in
  let '(r, s1) := duplicateCanvas_setup user param checkOwnership s in
  duplication_frame target pk s s1
  ∧ objects s1 = objects s
  ∧ match r with
    | Ok _ => canvases (db s) !! target = None
    | Err _ => db s1 = db s
    end.
Proof.
  unfold duplicateCanvas_setup.
  erewrite bind_Ok; [|apply canvas_find_run].
  destruct (canvases (db s) !! req_canvasId param) as [src|] eqn:Hsrc.
  2:{ split; [apply duplication_frame_refl|done]. }
  destruct (is_live src && _) eqn:Hcond.
  2:{ split; [apply duplication_frame_refl|done]. }
  unfold bind, call, now, prisma, commit, canvas_create, duplicateRecord_create.
  destruct (genCanvasID (world s)) as [newCanvasId w'] eqn:Hid. simpl.
  destruct (canvases (db s) !! newCanvasId) eqn:Hfree; simpl.
  - by unfold duplication_frame.
  - unfold duplication_frame. simpl. repeat split; try done.
    + intros id Hne. by apply lookup_insert_ne.
    + intros pk' Hne. by apply lookup_insert_ne.
Qed.

Lemma duplicateCanvas_setup_calls user param checkOwnership s newCanvas jd s1 :
  duplicateCanvas_setup user param checkOwnership s = (Ok (newCanvas, jd), s1) →
  serviceCalls s1 = serviceCalls s ++ [CallGenCanvasID].
Proof.
  unfold duplicateCanvas_setup.
  erewrite bind_Ok; [|apply canvas_find_run].
  destruct (canvases (db s) !! req_canvasId param) as [src|] eqn:Hsrc; [|done].
  destruct (is_live src && _) eqn:Hcond; [|done].
  unfold bind, call, now, prisma, commit, canvas_create, duplicateRecord_create.
  destruct (genCanvasID (world s)) as [newCanvasId w'] eqn:Hid. simpl.
  destruct (canvases (db s) !! newCanvasId) eqn:Hfree; [done|]. simpl.
  unfold ret. by intros [= <- <- <-].
Qed.

Lemma _duplicateCanvas_quiet jd s r s' :
  jd_duplicateEntities jd = false →
  (∀ src, canvases (db s) !! jd_sourceCanvasId jd = Some src → cv_uid src = jd_uid jd) →
  _duplicateCanvas jd s = (r, s') →
  serviceCalls s' = serviceCalls s.
Proof.
  intros Hdup Hown H. unfold _duplicateCanvas in H.
  erewrite bind_Ok in H; [|apply prisma_read].
  destruct (users (db s) !! jd_uid jd) as [u|].
  2:{ unfold ret in H. by injection H as _ <-. }
  erewrite bind_Ok in H; [|apply canvas_find_run].
  destruct (canvases (db s) !! jd_sourceCanvasId jd) as [src|] eqn:Hsrc.
  2:{ unfold throw in H. by injection H as _ <-. }
  destruct (is_live src).
  2:{ unfold throw in H. by injection H as _ <-. }
  apply bind_inv in H as [(doc & s1 & Hload & H)|(e & Hload & _)].
  2:{ by apply load_source_inv in Hload as [-> _]. }
  apply load_source_inv in Hload as [-> _].
  rewrite Hdup in H. erewrite bind_Ok in H; [|reflexivity].
  rewrite bool_decide_eq_false_2 in H by (intros Hne; by apply Hne, Hown).
  erewrite bind_Ok in H; [|reflexivity].
  revert H. unfold bind, minio_putObject, now, prisma_transaction, commit. simpl.
  destruct (tx_bind _ _ _) as [[[? ?] ?]|?]; by intros [= _ <-].
Qed.

Lemma duplicateCanvas_quiet user param checkOwnership s :
  req_duplicateEntities param = false →
  (∀ src, canvases (db s) !! req_canvasId param = Some src → cv_uid src = uid user) →
  let s' := snd (duplicateCanvas user param checkOwnership s) in
  serviceCalls s' = serviceCalls s ∨ serviceCalls s' = serviceCalls s ++ [CallGenCanvasID].
Proof.
  intros Hdup Hown s'. subst s'. rewrite duplicateCanvas_split.
  destruct (duplicateCanvas_setup user param checkOwnership s) as [[[nc jd]|e] s1] eqn:Hsetup.
  - right. erewrite bind_Ok; [|done].
    pose proof (duplicateCanvas_setup_calls _ _ _ _ _ _ _ Hsetup) as Hcalls1.
    apply duplicateCanvas_setup_Ok in Hsetup
      as (src & Hsrc & _ & _ & _ & Hfree & _ & _ & Hjuid & Hjsrc & _ & Hjdup & _ & _ & _
          & _ & _ & Hdb1 & _ & _).
    unfold bind, try_catch.
    destruct (_duplicateCanvas jd s1) as [[[]|e] s2] eqn:Hbody;
      apply _duplicateCanvas_quiet in Hbody.
    + simpl. by rewrite Hbody.
    + by rewrite Hjdup.
    + intros src'. rewrite Hjsrc, Hdb1, Hjuid. simpl.
      rewrite lookup_insert_ne by congruence. apply Hown.
    + unfold duplicateCanvas_catch, bind, prisma, commit, throw.
      destruct (duplicateRecord_update _ _ _) as [[[? ?] ?]|?]; simpl; by rewrite Hbody.
    + by rewrite Hjdup.
    + intros src'. rewrite Hjsrc, Hdb1, Hjuid. simpl.
      rewrite lookup_insert_ne by congruence. apply Hown.
  - rewrite (bind_Err _ _ _ _ _ Hsetup). simpl.
    revert Hsetup. unfold duplicateCanvas_setup.
    erewrite bind_Ok; [|apply canvas_find_run].
    destruct (canvases (db s) !! req_canvasId param) as [src|].
    2:{ intros [= _ <-]. by left. }
    destruct (is_live src && _).
    2:{ intros [= _ <-]. by left. }
    unfold bind, call, now, prisma, commit, canvas_create, duplicateRecord_create.
    destruct (genCanvasID (world s)) as [newCanvasId w']. simpl.
    destruct (canvases (db s) !! newCanvasId); simpl; [|done].
    intros [= _ <-]. by right.
Qed.

(** X14: A duplication that forks no entity, of a canvas that is the requesting
    user's own, calls no injected service but the generation of the id of the
    target; and, whatever its outcome, it changes no relation row, no entry of
    the search index, no job of the queue, no canvas row and no duplicate
    record that existed, and no object but the one under the state key of the
    target: in particular it gives the target no relation row and no entry in
    the search index, and it leaves the row of the source as it is. *)
Theorem duplicateCanvas_frame user param checkOwnership s :
  req_duplicateEntities param = false →
  (∀ src, canvases (db s) !! req_canvasId param = Some src → cv_uid src = uid user) →
  let target := fst (genCanvasID (world s)) in
  let s' := snd (duplicateCanvas user param checkOwnership s) in
  (serviceCalls s' = serviceCalls s ∨ serviceCalls s' = serviceCalls s ++ [CallGenCanvasID])
  ∧ relations (db s') = relations (db s)
  ∧ searchIndex s' = searchIndex s
  ∧ deleteKnowledgeQueue s' = deleteKnowledgeQueue s
  ∧ (∀ canvasId c, canvases (db s) !! canvasId = Some c →
                   canvases (db s') !! canvasId = Some c)
  ∧ (∀ pk r, duplicateRecords (db s) !! pk = Some r →
             duplicateRecords (db s') !! pk = Some r)
  ∧ (∀ key, key ≠ "state/" +:+ target → objects s' !! key = objects s !! key).
Proof.
  intros Hdup Hown target s'.
  split; [by apply duplicateCanvas_quiet|].
  subst s'. rewrite duplicateCanvas_split.
  pose proof (duplicateCanvas_setup_frame user param checkOwnership s) as Hsetup_frame.
  assert (∀ s2, duplication_frame target (next_pk (duplicateRecords (db s))) s s2 →
                (∀ canvasId c, canvases (db s) !! canvasId = Some c → canvasId ≠ target) →
                relations (db s2) = relations (db s)
                ∧ searchIndex s2 = searchIndex s
                ∧ deleteKnowledgeQueue s2 = deleteKnowledgeQueue s
                ∧ (∀ canvasId c, canvases (db s) !! canvasId = Some c →
                                 canvases (db s2) !! canvasId = Some c)
                ∧ (∀ pk r, duplicateRecords (db s) !! pk = Some r →
                           duplicateRecords (db s2) !! pk = Some r)
                ∧ (∀ key, key ≠ "state/" +:+ target → objects s2 !! key = objects s !! key))
    as Hfinal.
  { intros s2 (A1 & _ & A3 & A4 & A5 & A6 & A7) Hfresh. repeat split; try done.
    - intros id c Hc. rewrite A5; [done|]. by eapply Hfresh.
    - intros pk r Hr. rewrite A6; [done|]. intros ->.
      by rewrite next_pk_fresh in Hr. }
  destruct (duplicateCanvas_setup user param checkOwnership s) as [[[nc jd]|e] s1] eqn:Hsetup.
  - erewrite bind_Ok; [|done].
    destruct Hsetup_frame as (Hf1 & _ & Hfree).
    apply duplicateCanvas_setup_Ok in Hsetup
      as (src & _ & _ & _ & Hid & _ & _ & _ & _ & _ & Hjtgt & _ & _ & Hpk & _).
    assert (frames (duplication_frame target (next_pk (duplicateRecords (db s))))
              (bind (try_catch (_duplicateCanvas jd) (duplicateCanvas_catch (jd_dupRecord jd)))
                 (λ _, ret nc))) as Hframe.
    { unfold target. rewrite <- Hid, <- Hjtgt, <- Hpk.
      apply frames_bind; [apply duplication_frame_trans| |].
      - apply frames_try_catch; [apply duplication_frame_trans|apply _duplicateCanvas_frame|].
        intros e. unfold duplicateCanvas_catch.
        apply frames_bind; [apply duplication_frame_trans| |].
        + intros s0 r s0'. unfold prisma, commit, duplicateRecord_update.
          destruct (duplicateRecords (db s0) !! _) as [rec|]; simpl;
            intros [= <- <-]; [|apply duplication_frame_refl].
          unfold duplication_frame. simpl. repeat split; try done.
          intros pk' Hne. by apply lookup_insert_ne.
        + intros _. apply frames_throw, duplication_frame_refl.
      - intros _. apply frames_ret, duplication_frame_refl. }
    destruct (bind _ _ s1) as [r s2] eqn:Hrun. apply Hframe in Hrun. simpl.
    apply Hfinal; [by eapply duplication_frame_trans|].
    intros id c Hc ->. unfold target in Hc. simpl in Hfree. by rewrite Hfree in Hc.
  - rewrite (bind_Err _ _ _ _ _ Hsetup). simpl.
    destruct Hsetup_frame as ((A1 & _ & A3 & A4 & _ & _ & _) & Hobj & Hdb).
    rewrite Hdb, Hobj. by repeat split.
Qed.

Lemma duplicateCanvas_setup_row user param checkOwnership s newCanvas jd s1 :
  duplicateCanvas_setup user param checkOwnership s = (Ok (newCanvas, jd), s1) →
  ∃ src,
    canvases (db s) !! req_canvasId param = Some src
    ∧ cv_title (snd newCanvas) = or_else (req_title param) (cv_title src)
    ∧ cv_deletedAt (snd newCanvas) = None
    ∧ cv_stateStorageKey (snd newCanvas) = "state/" +:+ fst newCanvas
    ∧ users (db s1) = users (db s)
    ∧ searchIndex s1 = searchIndex s.
Proof.
  unfold duplicateCanvas_setup.
  erewrite bind_Ok; [|apply canvas_find_run].
  destruct (canvases (db s) !! req_canvasId param) as [src|] eqn:Hsrc; [|done].
  destruct (is_live src && _) eqn:Hcond; [|done].
  unfold bind, call, now, prisma, commit, canvas_create, duplicateRecord_create.
  destruct (genCanvasID (world s)) as [newCanvasId w'] eqn:Hid. simpl.
  destruct (canvases (db s) !! newCanvasId) eqn:Hfree; [done|]. simpl.
  unfold ret. intros [= <- <- <-]. by exists src.
Qed.

(** X15: When [duplicateCanvas] succeeds for a user that has a row, the row stored
    for the target is ready, live, owned by the requesting user and titled
    with the requested title, or with the title of the source when none is
    requested; the duplicate record is finished; the stored document has the
    title of the row. The row that is returned is the row as it was inserted:
    its status is still duplicating. *)
Theorem duplicateCanvas_success user param checkOwnership s newCanvas s' u src :
  duplicateCanvas user param checkOwnership s = (Ok newCanvas, s') →
  users (db s) !! uid user = Some u →
  canvases (db s) !! req_canvasId param = Some src →
  ∃ row doc,
    cv_status (snd newCanvas) = "duplicating"
    ∧ canvases (db s') !! fst newCanvas = Some row
    ∧ cv_status row = "ready"
    ∧ cv_uid row = uid user
    ∧ cv_title row = or_else (req_title param) (cv_title src)
    ∧ cv_stateStorageKey row = "state/" +:+ fst newCanvas
    ∧ cv_deletedAt row = None
    ∧ (dr_status <$> duplicateRecords (db s') !! next_pk (duplicateRecords (db s)))
      = Some "finish"
    ∧ getCanvasYDoc (cv_stateStorageKey row) s' = (Ok (Some doc), s')
    ∧ yd_title doc = cv_title row.
Proof.
  intros H Hu Hsrc.
  rewrite duplicateCanvas_split in H.
  apply bind_inv in H as [([nc jd] & s1 & Hsetup & H)|(e & _ & ?)]; [|done].
  destruct (duplicateCanvas_setup_row _ _ _ _ _ _ _ Hsetup)
    as (src0 & Hsrc0 & Htitle & Hlive & Hkey & _).
  assert (src0 = src) as -> by congruence.
  apply duplicateCanvas_setup_Ok in Hsetup
    as (src1 & Hsrc1 & _ & _ & _ & Hfree & Hst & Huid & Hjuid & _ & Hjtgt & _ & Hjtitle & Hpk
        & _ & _ & _ & Hdb1 & _ & _).
  assert (src1 = src) as -> by congruence.
  pose proof (_duplicateCanvas_outcome jd s1) as Hout.
  unfold bind, try_catch in H.
  destruct (_duplicateCanvas jd s1) as [[[]|e] s2] eqn:Hbody.
  2:{ unfold duplicateCanvas_catch, bind, throw in H.
      destruct (prisma _ s2) as [[?|?] ?]; done. }
  unfold ret in H. inversion H; subst nc s2; clear H.
  rewrite Hjuid, Hdb1 in Hout. simpl in Hout. rewrite Hu in Hout.
  destruct Hout as (src' & doc & nodes' & c & rec & _ & _ & _ & _ & Hc & Hrec & Hdb2 & _ & Hobj2).
  rewrite Hjtgt, lookup_insert_eq in Hc. injection Hc as <-.
  rewrite Hpk in *. rewrite Hjtgt in *.
  eexists _, _. split; [done|].
  split; [by rewrite Hdb2; simpl; rewrite lookup_insert_eq|]. simpl.
  repeat split; try done.
  - by rewrite Hdb2; simpl; rewrite lookup_insert_eq.
  - rewrite getCanvasYDoc_run, Hkey. simpl. rewrite Hobj2, lookup_insert_eq.
    reflexivity.
  - simpl. by rewrite Hjtitle, Htitle.
Qed.

(** X16: When the requesting user has no row, [duplicateCanvas] still returns the
    new row as a success, once the source is found and the rows are inserted:
    the copy body returns at once, so the target stays duplicating, the record
    stays pending and no document is written for the target. *)
Theorem duplicateCanvas_missing_user user param checkOwnership s newCanvas jd s1 :
  duplicateCanvas_setup user param checkOwnership s = (Ok (newCanvas, jd), s1) →
  users (db s) !! uid user = None →
  duplicateCanvas user param checkOwnership s = (Ok newCanvas, s1)
  ∧ (cv_status <$> canvases (db s1) !! fst newCanvas) = Some "duplicating"
  ∧ (dr_status <$> duplicateRecords (db s1) !! fst (jd_dupRecord jd)) = Some "pending"
  ∧ objects s1 = objects s.
Proof.
  intros Hsetup Hu.
  rewrite duplicateCanvas_split. erewrite bind_Ok; [|done].
  destruct (duplicateCanvas_setup_row _ _ _ _ _ _ _ Hsetup) as (_ & _ & _ & _ & _ & Hus & _).
  apply duplicateCanvas_setup_Ok in Hsetup
    as (src & _ & _ & _ & _ & Hfree & Hst & _ & Hjuid & _ & _ & _ & _ & Hpk & Hpending
        & _ & _ & Hdb1 & _ & Hobj).
  assert (_duplicateCanvas jd s1 = (Ok (), s1)) as Hbody.
  { unfold _duplicateCanvas. erewrite bind_Ok; [|apply prisma_read].
    by rewrite Hjuid, Hus, Hu. }
  unfold bind, try_catch. rewrite Hbody. split; [done|].
  rewrite Hdb1. simpl. rewrite Hpk, !lookup_insert_eq. simpl.
  by rewrite Hst, Hpending.
Qed.

(** X17: For a requesting user that has a row, a source whose state key is not
    empty but holds no update of a document reads as an empty canvas, yet
    cannot be duplicated: the copy body reads the object itself, not through
    the fail-soft [getCanvasYDoc], so the duplication fails, with the error of
    the object store when the key holds no object and otherwise with what the
    decoder throws on the bytes that the key holds; the record of the run is
    failed and the row of the target stays duplicating. *)
Theorem duplicateCanvas_unreadable_source user param checkOwnership s newCanvas jd s1 u src :
  duplicateCanvas_setup user param checkOwnership s = (Ok (newCanvas, jd), s1) →
  users (db s) !! uid user = Some u →
  canvases (db s) !! req_canvasId param = Some src →
  cv_stateStorageKey src ≠ "" →
  (∀ doc, objects s !! cv_stateStorageKey src ≠ Some (UpdateBuffer doc)) →
  stored_nodes (cv_stateStorageKey src) s = []
  ∧ ∃ e s',
      duplicateCanvas user param checkOwnership s = (Err e, s')
      ∧ match objects s !! cv_stateStorageKey src with
        | None => e = S3Error "NoSuchKey"
        | Some state => applyUpdate new_YDoc state = Err e
        end
      ∧ (dr_status <$> duplicateRecords (db s') !! fst (jd_dupRecord jd)) = Some "failed"
      ∧ (cv_status <$> canvases (db s') !! fst newCanvas) = Some "duplicating".
Proof.
  intros Hsetup Hu Hsrc Hkey Hnodoc. apply truthy_iff in Hkey. split.
  { unfold stored_nodes. rewrite getCanvasYDoc_run, Hkey. simpl.
    destruct (objects s !! _) as [[|?|doc]|] eqn:Ho; try done. by destruct (Hnodoc doc). }
  rewrite duplicateCanvas_split. erewrite bind_Ok; [|done].
  destruct (duplicateCanvas_setup_row _ _ _ _ _ _ _ Hsetup) as (_ & _ & _ & _ & _ & Hus & _).
  apply duplicateCanvas_setup_Ok in Hsetup
    as (src0 & Hsrc0 & Hlive & _ & _ & Hfree & Hst & _ & Hjuid & Hjsrc & _ & _ & _ & Hpk & _
        & _ & _ & Hdb1 & _ & Hobj).
  assert (src0 = src) as -> by congruence.
  assert (∃ e, _duplicateCanvas jd s1 = (Err e, s1)
               ∧ match objects s !! cv_stateStorageKey src with
                 | None => e = S3Error "NoSuchKey"
                 | Some state => applyUpdate new_YDoc state = Err e
                 end) as (e & Hbody & He).
  { unfold _duplicateCanvas. erewrite bind_Ok; [|apply prisma_read].
    rewrite Hjuid, Hus, Hu.
    erewrite bind_Ok; [|apply canvas_find_run].
    rewrite Hjsrc, Hdb1. simpl. rewrite lookup_insert_ne by congruence. rewrite Hsrc.
    unfold is_live. rewrite bool_decide_eq_true_2 by done. rewrite Hkey.
    unfold bind, minio_getObject, lift. rewrite Hkey, Hobj. simpl.
    destruct (objects s !! _) as [[|thrown|doc]|] eqn:Ho; simpl.
    - by eexists.
    - by eexists.
    - by destruct (Hnodoc doc).
    - by eexists. }
  unfold bind at 1. unfold try_catch. rewrite Hbody.
  unfold duplicateCanvas_catch, bind, prisma, commit, duplicateRecord_update, throw.
  rewrite Hdb1. simpl. rewrite Hpk, lookup_insert_eq. simpl.
  exists e. eexists. split; [done|]. split; [exact He|]. simpl.
  rewrite !lookup_insert_eq. simpl. by rewrite Hst.
Qed.

(** ** Pages of the listing *)

Lemma listCanvases_run user page pageSize s :
  listCanvases user page pageSize s
  = (match paginate ((page - 1) * pageSize) pageSize
             (merge_sort newer_first
                (filter (λ r : string * Canvas,
                           owned_by (uid user) (snd r) && is_live (snd r) = true)
                   (map_to_list (canvases (db s))))) with
     | Ok rows => Ok (map (λ canvas, {| cd_canvas := canvas;
                                        cd_minimapUrl := minimapUrl_of (snd canvas) |}) rows)
     | Err e => Err e
     end, s).
Proof.
  unfold listCanvases, bind, prisma, commit, canvas_findMany.
  destruct (paginate _ _ _) as [rows|e]; [|done].
  unfold ret. destruct s; simpl. by rewrite app_nil_r.
Qed.

Lemma paginate_all {A} (take : Z) (rows : list A) :
  Z.of_nat (length rows) ≤ take → paginate 0 take rows = Ok rows.
Proof.
  intros H. unfold paginate. simpl.
  destruct (Z.ltb_spec take 0) as [E|E]; [lia|].
  change (Z.to_nat 0) with 0%nat. rewrite skipn_O.
  rewrite firstn_all2; [done|]. lia.
Qed.

Lemma listing_length user s :
  (length (merge_sort newer_first
             (filter (λ r : string * Canvas,
                        owned_by (uid user) (snd r) && is_live (snd r) = true)
                (map_to_list (canvases (db s)))))
   ≤ size (canvases (db s)))%nat.
Proof.
  rewrite merge_sort_Permutation.
  etrans; [apply length_filter|]. by rewrite length_map_to_list.
Qed.

(** X18: The first page of [listCanvases], with a page size that is not below the
    number of canvas rows, is the whole listing: it holds every live canvas of
    the user, once, each with the URL of its minimap when it has one, and
    nothing else; and [getCanvasDetail] succeeds for a canvas id exactly with
    the entry of the listing for that id. *)
Theorem listCanvases_complete user pageSize s :
  Z.of_nat (size (canvases (db s))) ≤ pageSize →
  ∃ details,
    listCanvases user 1 pageSize s = (Ok details, s)
    ∧ NoDup (map (λ d, fst (cd_canvas d)) details)
    ∧ (∀ d, d ∈ details ↔
            listed_for user s d ∧ cd_minimapUrl d = minimapUrl_of (snd (cd_canvas d)))
    ∧ (∀ canvasId d, getCanvasDetail user canvasId s = (Ok d, s) ↔
                     d ∈ details ∧ fst (cd_canvas d) = canvasId).
Proof.
  intros Hsize. rewrite listCanvases_run.
  replace ((1 - 1) * pageSize) with 0 by lia.
  pose proof (listing_length user s) as Hlen.
  rewrite paginate_all by lia.
  set (rows := merge_sort _ _) in *.
  assert (∀ id c, (id, c) ∈ rows ↔
                  canvases (db s) !! id = Some c ∧ cv_uid c = uid user
                  ∧ cv_deletedAt c = None) as Hrows.
  { intros id c. subst rows. rewrite merge_sort_Permutation, list_elem_of_filter.
    rewrite elem_of_map_to_list. simpl. unfold owned_by, is_live.
    rewrite andb_true_iff, !bool_decide_eq_true. tauto. }
  assert (∀ d, d ∈ map (λ canvas, {| cd_canvas := canvas;
                                     cd_minimapUrl := minimapUrl_of (snd canvas) |}) rows
               ↔ listed_for user s d
                 ∧ cd_minimapUrl d = minimapUrl_of (snd (cd_canvas d))) as Hdetails.
  { intros d. rewrite list_elem_of_fmap. unfold listed_for. split.
    - intros ([id c] & -> & Hin). apply Hrows in Hin. simpl. tauto.
    - intros [Hl Hm]. destruct d as [[id c] m]. simpl in *. subst m.
      exists (id, c). split; [done|]. by apply Hrows. }
  eexists. split; [reflexivity|]. split; [|split; [exact Hdetails|]].
  - rewrite map_map. simpl.
    apply (NoDup_fmap_fst rows).
    + intros id c1 c2 H1%Hrows H2%Hrows. destruct H1, H2. congruence.
    + subst rows. rewrite merge_sort_Permutation.
      apply NoDup_filter, NoDup_map_to_list.
  - intros canvasId d. rewrite Hdetails. unfold getCanvasDetail.
    erewrite bind_Ok; [|apply canvas_find_run]. unfold listed_for.
    destruct (canvases (db s) !! canvasId) as [c|] eqn:Hc.
    + unfold owned_by, is_live.
      destruct (bool_decide (cv_uid c = uid user)) eqn:Ho; simpl.
      * destruct (bool_decide (cv_deletedAt c = None)) eqn:Hl; simpl.
        -- apply bool_decide_eq_true in Ho, Hl. unfold ret. split.
           ++ intros [= <-]. simpl. done.
           ++ intros [[(H1 & H2 & H3) Hm] <-]. destruct d as [[id c0] m]. simpl in *.
              rewrite Hc in H1. injection H1 as <-. by subst m.
        -- apply bool_decide_eq_false in Hl. unfold throw. split; [done|].
           intros [[(H1 & H2 & H3) Hm] <-]. rewrite Hc in H1. injection H1 as ->. done.
      * apply bool_decide_eq_false in Ho. unfold throw. split; [done|].
        intros [[(H1 & H2 & H3) Hm] <-]. rewrite Hc in H1. injection H1 as ->. done.
    + unfold throw. split; [done|].
      intros [[(H1 & H2 & H3) Hm] <-]. congruence.
Qed.

(** X19: A page of [listCanvases] is a slice of the whole listing: page [page] of
    size [pageSize] holds the entries from position [(page - 1) * pageSize] on,
    at most [pageSize] of them. *)
Theorem listCanvases_page user page pageSize total s :
  1 ≤ page → 0 ≤ pageSize → Z.of_nat (size (canvases (db s))) ≤ total →
  ∃ all,
    listCanvases user 1 total s = (Ok all, s)
    ∧ listCanvases user page pageSize s
      = (Ok (take (Z.to_nat pageSize) (drop (Z.to_nat ((page - 1) * pageSize)) all)), s)
    ∧ Z.of_nat (length (take (Z.to_nat pageSize)
                          (drop (Z.to_nat ((page - 1) * pageSize)) all))) ≤ pageSize.
Proof.
  intros Hpage Hsize Htotal. rewrite !listCanvases_run.
  replace ((1 - 1) * total) with 0 by lia.
  pose proof (listing_length user s) as Hlen.
  rewrite paginate_all by lia.
  eexists. split; [reflexivity|]. split.
  - unfold paginate.
    destruct (Z.ltb_spec ((page - 1) * pageSize) 0) as [E1|E1]; [nia|].
    destruct (Z.ltb_spec pageSize 0) as [E2|E2]; [lia|].
    by rewrite <- fmap_drop, <- fmap_take.
  - rewrite length_take. lia.
Qed.

(** ** Auto-naming with content *)

Lemma updateCanvas_title_run s user canvasId title c :
  canvases (db s) !! canvasId = Some c →
  cv_uid c = uid user →
  cv_deletedAt c = None →
  let c' := touch (clock s) (set_cv_title title c) in
  ∃ document s',
    updateCanvas user canvasId (Some title) None s = (Ok (canvasId, c'), s')
    ∧ db s' = set_canvases (insert canvasId c') (db s)
    ∧ objects s' = <[cv_stateStorageKey c := UpdateBuffer (set_yd_title title document)]>
                     (objects s)
    ∧ yd_nodes document = stored_nodes (cv_stateStorageKey c) s
    ∧ (es_title <$> searchIndex s' !! canvasId) = Some title
    ∧ serviceCalls s' = serviceCalls s.
Proof.
  intros Hc Ho Hl c'. unfold updateCanvas.
  erewrite bind_Ok; [|apply canvas_find_run]. rewrite Hc.
  unfold owned_by, is_live. rewrite !bool_decide_eq_true_2 by done. simpl.
  unfold bind at 1. unfold now at 1.
  unfold bind at 1. unfold prisma_transaction, commit, canvas_update_where. simpl.
  rewrite Hc. unfold owned_by, is_live. rewrite !bool_decide_eq_true_2 by done. simpl.
  fold c'.
  set (s1 := Build_State _ _ _ _ _ _ _ _).
  destruct (collab_directConnection_run c' (set_yd_title title) s1)
    as (d & Hrun & Hnodes & _).
  erewrite bind_Ok; [|exact Hrun].
  unfold bind, ret, elasticsearch_upsertCanvas. simpl.
  exists d. eexists. split; [reflexivity|]. simpl.
  rewrite lookup_insert_eq. repeat split; try done.
  rewrite Hnodes. by apply stored_nodes_objects.
Qed.

Lemma contentItem_of_result_run result s :
  contentItem_of_result result s
  = (match parseQuery (default "{}" (ar_input result)) with
     | Ok query =>
         Ok (Answered (default (ar_title result) query)
               (utf16_join newline
                  (map (λ step, slice_500 (as_content step))
                     (filter (λ step, as_resultId step = ar_resultId result
                                      ∧ as_version step = ar_version result)
                        (actionSteps (db s))))))
     | Err e => Err e
     end, s).
Proof.
  unfold contentItem_of_result.
  erewrite bind_Ok; [|apply prisma_read].
  unfold bind, lift, ret.
  destruct (parseQuery _) as [query|e]; [|done].
  do 5 f_equal. apply list_filter_iff. intros step.
  rewrite andb_true_iff, String.eqb_eq, Z.eqb_eq. done.
Qed.

Lemma contentItems_run results s r s' :
  Promise_all (map contentItem_of_result results) s = (r, s') →
  s' = s
  ∧ match r with
    | Ok items => Forall2 (answered_by (db s)) results items
    | Err e => ∃ result, result ∈ results
                         ∧ parseQuery (default "{}" (ar_input result)) = Err e
    end.
Proof.
  revert r s'. induction results as [|result results IH]; intros r s'; simpl.
  - unfold ret. intros [= <- <-]. split; [done|]. constructor.
  - rewrite contentItem_of_result_run.
    destruct (Promise_all _ s) as [r2 s2] eqn:E2.
    destruct (IH _ _ eq_refl) as [-> Hr2].
    destruct (parseQuery _) as [query|e] eqn:Eq.
    + destruct r2 as [l|e]; intros [= <- <-]; (split; [done|]).
      * constructor; [|done]. by exists query.
      * destruct Hr2 as (x & Hx & Hp). exists x. split; [by right|done].
    + simpl. intros [= <- <-]. split; [done|].
      exists result. split; [by left|done].
Qed.

Lemma autoNameCanvas_outcome user canvasId directUpdate s :
  match autoNameCanvas user canvasId directUpdate s with
  | (Err _, s') => only_services s s'
  | (Ok title, s') =>
      ∃ c items s3,
        canvases (db s) !! canvasId = Some c
        ∧ cv_uid c = uid user ∧ cv_deletedAt c = None
        ∧ content_of canvasId (db s) items
        ∧ only_services s s3
        ∧ serviceCalls s3 = serviceCalls s ++ naming_calls items
        ∧ (items = [] → title = "")
        ∧ s' = if directUpdate && truthy title
               then snd (updateCanvas user canvasId (Some title) None s3)
               else s3
  end.
Proof.
  destruct (autoNameCanvas user canvasId directUpdate s) as [r s'] eqn:H.
  unfold autoNameCanvas in H.
  erewrite bind_Ok in H; [|apply canvas_find_run].
  destruct (canvases (db s) !! canvasId) as [c|] eqn:Hc.
  2:{ unfold throw in H. injection H as <- <-. apply only_services_refl. }
  destruct (owned_by (uid user) c && is_live c) eqn:Hcond.
  2:{ unfold throw in H. injection H as <- <-. apply only_services_refl. }
  apply andb_true_iff in Hcond as [Ho Hl].
  unfold owned_by in Ho. unfold is_live in Hl. apply bool_decide_eq_true in Ho, Hl.
  erewrite bind_Ok in H; [|apply prisma_read].
  assert (filter (λ r, String.eqb (ar_targetId r) canvasId
                       && String.eqb (ar_targetType r) "canvas" = true) (actionResults (db s))
          = results_of canvasId (db s)) as Hres.
  { apply list_filter_iff. intros x. by rewrite andb_true_iff, !String.eqb_eq. }
  cbv beta in H. rewrite Hres in H. clear Hres.
  apply bind_inv in H as [(answered & s1 & Hitems & H)|(e & Hitems & ->)].
  2:{ apply contentItems_run in Hitems as [-> _]. apply only_services_refl. }
  apply contentItems_run in Hitems as [-> Hanswered].
  set (items := match answered with [] => previews_of canvasId (db s) | _ => answered end).
  assert (content_of canvasId (db s) items) as Hcontent by (by exists answered).
  erewrite bind_Ok in H.
  2:{ instantiate (1 := s). instantiate (1 := items). subst items.
      destruct answered as [|a l]; simpl; [|done].
      erewrite bind_Ok; [|apply prisma_read].
      erewrite bind_Ok; [|apply prisma_read].
      erewrite bind_Ok; [|apply prisma_read].
      unfold ret, previews_of. simpl. do 3 f_equal.
      - f_equal. apply list_filter_iff. intros x. rewrite bool_decide_eq_true.
        erewrite list_filter_iff; [done|]. intros y. simpl.
        rewrite !andb_true_iff, String.eqb_eq, !bool_decide_eq_true. unfold rel_live.
        rewrite bool_decide_eq_true. tauto.
      - f_equal. apply list_filter_iff. intros x. rewrite bool_decide_eq_true.
        erewrite list_filter_iff; [done|]. intros y. simpl.
        rewrite !andb_true_iff, String.eqb_eq, !bool_decide_eq_true. unfold rel_live.
        rewrite bool_decide_eq_true. tauto. }
  clearbody items. clear Hanswered answered.
  destruct items as [|item items]; simpl in H.
  { unfold ret in H. injection H as <- <-.
    exists c, [], s. rewrite andb_false_r. simpl. rewrite app_nil_r.
    repeat split; try done. }
  apply bind_inv in H as [(model & s2 & Hmodel & H)|(e & Hmodel & ->)].
  2:{ by apply call_frame in Hmodel. }
  assert (serviceCalls s2 = serviceCalls s ++ [CallGetDefaultModel]) as Hcalls2.
  { revert Hmodel. unfold call. destruct (getDefaultModel _). by intros [= _ <-]. }
  apply call_frame in Hmodel.
  apply bind_inv in H as [(title & s3 & Htitle & H)|(e & Htitle & ->)].
  2:{ apply call_frame in Htitle. by eapply only_services_trans. }
  assert (serviceCalls s3 = serviceCalls s2 ++ [CallGenerateCanvasTitle (item :: items)])
    as Hcalls3.
  { revert Htitle. unfold call. destruct (generateCanvasTitle _ _ _). by intros [= _ <-]. }
  apply call_frame in Htitle.
  pose proof (only_services_trans _ _ _ Hmodel Htitle) as Hs3.
  assert (r = Ok title
          ∧ s' = if directUpdate && truthy title
                 then snd (updateCanvas user canvasId (Some title) None s3)
                 else s3) as [-> ->].
  { destruct (directUpdate && truthy title) eqn:Hdu.
    - destruct Hs3 as (Hdb & _).
      destruct (updateCanvas_title_run s3 user canvasId title c)
        as (document & s4 & Hrun & _); [by rewrite Hdb|done|done|].
      revert H. unfold void. unfold bind. rewrite Hrun. unfold ret. simpl.
      by intros [= <- <-].
    - revert H. unfold bind, ret. by intros [= <- <-]. }
  exists c, (item :: items), s3. split_and!; try done.
  rewrite Hcalls3, Hcalls2. simpl. by rewrite <- app_assoc.
Qed.

(** X20: What [autoNameCanvas] generates the title from. When it succeeds, the
    calls it has added to those made on the injected services are none when
    there is no content, and the title is then empty; otherwise the lookup of
    the default model followed by one generation of a title, from one
    question and answer per action result of the canvas or, only when the
    canvas has no action result, from the previews of its documents and
    resources. *)
Theorem autoNameCanvas_generates_from user canvasId directUpdate s title s' :
  autoNameCanvas user canvasId directUpdate s = (Ok title, s') →
  ∃ items,
    content_of canvasId (db s) items
    ∧ serviceCalls s' = serviceCalls s ++ naming_calls items
    ∧ (items = [] → title = "").
Proof.
  intros H. pose proof (autoNameCanvas_outcome user canvasId directUpdate s) as Hout.
  rewrite H in Hout.
  destruct Hout as (c & items & s3 & Hc & Ho & Hl & Hcontent & Hs3 & Hcalls & Hempty & ->).
  exists items. repeat split; try done.
  destruct (directUpdate && truthy title); [|done].
  destruct Hs3 as (Hdb & _).
  destruct (updateCanvas_title_run s3 user canvasId title c)
    as (document & s4 & Hrun & _ & _ & _ & _ & Hcalls4); [by rewrite Hdb|done|done|].
  rewrite Hrun. simpl. by rewrite Hcalls4.
Qed.

(** X21: An action result whose input does not parse makes [autoNameCanvas] fail
    with the error of the parser, for a live canvas of the user, before any
    call of an injected service: the state is as it was. *)
Theorem autoNameCanvas_malformed_input user canvasId directUpdate s c :
  canvases (db s) !! canvasId = Some c →
  cv_uid c = uid user →
  cv_deletedAt c = None →
  (∃ result e, result ∈ results_of canvasId (db s)
               ∧ parseQuery (default "{}" (ar_input result)) = Err e) →
  ∃ result e,
    result ∈ results_of canvasId (db s)
    ∧ parseQuery (default "{}" (ar_input result)) = Err e
    ∧ autoNameCanvas user canvasId directUpdate s = (Err e, s).
Proof.
  intros Hc Ho Hl (bad & e0 & Hbad & Hparse).
  unfold autoNameCanvas.
  erewrite bind_Ok; [|apply canvas_find_run]. rewrite Hc.
  unfold owned_by, is_live. rewrite !bool_decide_eq_true_2 by done. simpl.
  erewrite bind_Ok; [|apply prisma_read]. cbv beta.
  assert (filter (λ r, String.eqb (ar_targetId r) canvasId
                       && String.eqb (ar_targetType r) "canvas" = true) (actionResults (db s))
          = results_of canvasId (db s)) as ->.
  { apply list_filter_iff. intros x. by rewrite andb_true_iff, !String.eqb_eq. }
  destruct (Promise_all (map contentItem_of_result (results_of canvasId (db s))) s)
    as [r s1] eqn:Hitems.
  pose proof (contentItems_run _ _ _ _ Hitems) as [-> Hr].
  destruct r as [items|e].
  - exfalso. apply list_elem_of_lookup in Hbad as [i Hi].
    destruct (Forall2_lookup_l _ _ _ _ _ Hr Hi) as (item & _ & query & Hq & _).
    congruence.
  - destruct Hr as (result & Hin & Hp). exists result, e.
    repeat split; try done. by erewrite bind_Err.
Qed.

(** X22: [autoNameCanvas] writes nothing unless it is asked to update the canvas
    and has generated a title that is not empty: when it fails, when no direct
    update is asked for, or when the title is empty, the database, the object
    store, the search index and the queue are as they were. *)
Theorem autoNameCanvas_read_only user canvasId directUpdate s :
  match autoNameCanvas user canvasId directUpdate s with
  | (Err _, s') => only_services s s'
  | (Ok title, s') => directUpdate = false ∨ title = "" → only_services s s'
  end.
Proof.
  pose proof (autoNameCanvas_outcome user canvasId directUpdate s) as Hout.
  destruct (autoNameCanvas user canvasId directUpdate s) as [[title|e] s']; [|done].
  destruct Hout as (c & items & s3 & _ & _ & _ & _ & Hs3 & _ & _ & ->).
  intros [-> | ->]; [done|]. by rewrite andb_false_r.
Qed.

(** X23: With a direct update, a title that is not empty is written through
    [updateCanvas]: afterwards the row of the canvas has the title, the entry
    of the canvas in the search index has it, and so has the stored document
    when the canvas has a state key; the nodes of the document, the other
    canvas rows and the relation rows are as they were. *)
Theorem autoNameCanvas_directUpdate user canvasId s title s' :
  autoNameCanvas user canvasId true s = (Ok title, s') →
  title ≠ "" →
  ∃ c c',
    canvases (db s) !! canvasId = Some c
    ∧ canvases (db s') = <[canvasId := c']> (canvases (db s))
    ∧ cv_title c' = title
    ∧ cv_uid c' = uid user
    ∧ cv_deletedAt c' = None
    ∧ cv_stateStorageKey c' = cv_stateStorageKey c
    ∧ relations (db s') = relations (db s)
    ∧ (es_title <$> searchIndex s' !! canvasId) = Some title
    ∧ stored_nodes (cv_stateStorageKey c) s' = stored_nodes (cv_stateStorageKey c) s
    ∧ (cv_stateStorageKey c ≠ "" →
       ∃ doc, getCanvasYDoc (cv_stateStorageKey c) s' = (Ok (Some doc), s')
              ∧ yd_title doc = title).
Proof.
  intros H Htitle. apply truthy_iff in Htitle.
  pose proof (autoNameCanvas_outcome user canvasId true s) as Hout. rewrite H in Hout.
  destruct Hout as (c & items & s3 & Hc & Ho & Hl & _ & Hs3 & _ & _ & ->).
  rewrite Htitle. simpl.
  destruct Hs3 as (Hdb & _ & Hobj & _ & _ & Hclock).
  destruct (updateCanvas_title_run s3 user canvasId title c)
    as (document & s4 & Hrun & Hdb4 & Hobj4 & Hnodes & Hes & _); [by rewrite Hdb|done|done|].
  rewrite Hrun. simpl. rewrite Hdb in Hdb4. rewrite Hobj in Hobj4.
  eexists c, _. split; [done|]. rewrite Hdb4. simpl.
  repeat split; try done.
  - rewrite (stored_nodes_put _ _ _ _ _ Hobj4).
    rewrite (stored_nodes_objects _ s3 s) in Hnodes by done.
    case_bool_decide as Hk; simpl; [|done].
    destruct (truthy (cv_stateStorageKey c)) eqn:Ht; [done|].
    by rewrite stored_nodes_falsy.
  - intros Hkey. apply truthy_iff in Hkey. eexists.
    rewrite getCanvasYDoc_run, Hkey, Hobj4, lookup_insert_eq. done.
Qed.

(** X24: The worker of the auto-naming queue keeps every canvas row, with its owner
    and its live mark, whatever it returns; it changes the title of no canvas
    but the one of the job, and of that one only when it is a canvas of the
    user of the job, to a title that is not empty. A job of a user without a
    row does nothing and succeeds. *)
Theorem autoNameCanvasFromQueue_titles jobData s :
  let s' := snd (autoNameCanvasFromQueue jobData s) in
  (users (db s) !! aj_uid jobData = None →
   autoNameCanvasFromQueue jobData s = (Ok (), s))
  ∧ ∀ canvasId c,
      canvases (db s) !! canvasId = Some c →
      ∃ c', canvases (db s') !! canvasId = Some c'
            ∧ cv_uid c' = cv_uid c
            ∧ cv_deletedAt c' = cv_deletedAt c
            ∧ (cv_title c' = cv_title c
               ∨ (canvasId = aj_canvasId jobData ∧ cv_uid c = aj_uid jobData
                  ∧ cv_deletedAt c = None ∧ cv_title c' ≠ "")).
Proof.
  intros s'. subst s'. unfold autoNameCanvasFromQueue.
  erewrite bind_Ok; [|apply prisma_read].
  destruct (users (db s) !! aj_uid jobData) as [u|] eqn:Hu.
  2:{ split; [done|]. intros canvasId c Hc. exists c. simpl. tauto. }
  split; [done|]. intros canvasId c Hc.
  pose proof (autoNameCanvas_outcome {| uid := aj_uid jobData |} (aj_canvasId jobData) true s)
    as Hout.
  unfold bind.
  destruct (autoNameCanvas _ _ true s) as [[title|e] s1].
  2:{ destruct Hout as (Hdb & _). simpl. rewrite Hdb. exists c. tauto. }
  destruct Hout as (c0 & items & s3 & Hc0 & Ho & Hl & _ & Hs3 & _ & _ & ->).
  unfold ret. simpl in *.
  destruct Hs3 as (Hdb & _).
  destruct (truthy title) eqn:Ht.
  2:{ rewrite Hdb. exists c. tauto. }
  destruct (updateCanvas_title_run s3 {| uid := aj_uid jobData |} (aj_canvasId jobData) title c0)
    as (document & s4 & Hrun & Hdb4 & _); [by rewrite Hdb|done|done|].
  rewrite Hrun. simpl. rewrite Hdb4, Hdb. simpl.
  destruct (decide (canvasId = aj_canvasId jobData)) as [->|Hne].
  - rewrite lookup_insert_eq. eexists. split; [done|].
    assert (c0 = c) as -> by congruence. simpl.
    repeat split; try done. right. repeat split; try done. by apply truthy_iff.
  - rewrite lookup_insert_ne by done. exists c. tauto.
Qed.

(** ** The services that a duplication calls *)

Lemma call_calls {A} c (f : W → Result A * W) s r s' :
  call c f s = (r, s') → serviceCalls s' = serviceCalls s ++ [c].
Proof. unfold call. destruct (f (world s)) as [r' w]. by intros [= <- <-]. Qed.

Lemma duplicateNodeEntity_calls user_uid targetCanvasId node s r s' :
  duplicateNodeEntity user_uid targetCanvasId node s = (r, s') →
  serviceCalls s' = serviceCalls s ++ duplication_call user_uid targetCanvasId node.
Proof.
  unfold duplicateNodeEntity, duplication_call. destruct (node_data node) as [data|].
  2:{ intros [= <- <-]. by rewrite app_nil_r. }
  destruct (String.eqb_spec (node_type node) "document") as [E1|E1].
  { rewrite bool_decide_eq_true_2 by done.
    intros [(a & s1 & Hc & Hk)|(e & Hc & ->)]%bind_inv; apply call_calls in Hc; [|done].
    unfold ret in Hk. by inversion Hk; subst. }
  rewrite (bool_decide_eq_false_2 _ E1).
  destruct (String.eqb_spec (node_type node) "resource") as [E2|E2].
  { rewrite bool_decide_eq_true_2 by done.
    intros [(a & s1 & Hc & Hk)|(e & Hc & ->)]%bind_inv; apply call_calls in Hc; [|done].
    unfold ret in Hk. by inversion Hk; subst. }
  rewrite (bool_decide_eq_false_2 _ E2).
  destruct (String.eqb_spec (node_type node) "skillResponse") as [E3|E3].
  { rewrite bool_decide_eq_true_2 by done.
    intros [(a & s1 & Hc & Hk)|(e & Hc & ->)]%bind_inv; apply call_calls in Hc; [|done].
    unfold ret in Hk. by inversion Hk; subst. }
  rewrite (bool_decide_eq_false_2 _ E3).
  unfold ret. intros [= <- <-]. by rewrite app_nil_r.
Qed.

Lemma Promise_all_calls user_uid targetCanvasId nodes s r s' :
  Promise_all (map (duplicateNodeEntity user_uid targetCanvasId) nodes) s = (r, s') →
  serviceCalls s' =
  serviceCalls s ++ concat (map (duplication_call user_uid targetCanvasId) nodes).
Proof.
  revert s r s'. induction nodes as [|node nodes IH]; intros s r s'; simpl.
  - unfold ret. intros [= <- <-]. by rewrite app_nil_r.
  - destruct (duplicateNodeEntity _ _ node s) as [r1 s1] eqn:E1.
    apply duplicateNodeEntity_calls in E1.
    destruct (Promise_all _ s1) as [r2 s2] eqn:E2. apply IH in E2.
    rewrite app_assoc, <- E1, <- E2.
    destruct r1 as [a|e]; [destruct r2 as [l|e]|]; simpl; by intros [= <- <-].
Qed.

Lemma _duplicateCanvas_calls jd s s' u src :
  _duplicateCanvas jd s = (Ok (), s') →
  users (db s) !! jd_uid jd = Some u →
  canvases (db s) !! jd_sourceCanvasId jd = Some src →
  serviceCalls s' =
  serviceCalls s
  ++ (if jd_duplicateEntities jd
      then concat (map (duplication_call (jd_uid jd) (jd_targetCanvasId jd))
                     (stored_nodes (cv_stateStorageKey src) s))
      else [])
  ++ (if bool_decide (cv_uid src ≠ jd_uid jd)
      then [CallDuplicateFilesNoCopy (jd_uid jd) (jd_sourceCanvasId jd) (cv_uid src)
              (jd_targetCanvasId jd)]
      else []).
Proof.
  intros H Hu Hsrc. unfold _duplicateCanvas in H.
  erewrite bind_Ok in H; [|apply prisma_read]. rewrite Hu in H.
  erewrite bind_Ok in H; [|apply canvas_find_run]. rewrite Hsrc in H.
  destruct (is_live src) eqn:Hlive; [|done].
  apply bind_inv in H as [(doc & s1 & Hload & H)|(e & _ & ?)]; [|done].
  apply load_source_inv in Hload as [-> Hdoc]. specialize (Hdoc doc eq_refl).
  apply bind_inv in H as [(nodes' & s1 & Hfork & H)|(e & _ & ?)]; [|done].
  assert (serviceCalls s1 =
          serviceCalls s
          ++ (if jd_duplicateEntities jd
              then concat (map (duplication_call (jd_uid jd) (jd_targetCanvasId jd))
                             (stored_nodes (cv_stateStorageKey src) s))
              else [])) as Hcalls1.
  { rewrite <- Hdoc. destruct (jd_duplicateEntities jd).
    - by apply Promise_all_calls in Hfork.
    - unfold ret in Hfork. assert (s1 = s) as -> by congruence. by rewrite app_nil_r. }
  apply bind_inv in H as [([] & s2 & Hfiles & H)|(e & _ & ?)]; [|done].
  assert (serviceCalls s2 =
          serviceCalls s1
          ++ (if bool_decide (cv_uid src ≠ jd_uid jd)
              then [CallDuplicateFilesNoCopy (jd_uid jd) (jd_sourceCanvasId jd) (cv_uid src)
                      (jd_targetCanvasId jd)]
              else [])) as Hcalls2.
  { destruct (bool_decide (cv_uid src ≠ jd_uid jd)).
    - by apply call_calls in Hfiles.
    - unfold ret in Hfiles. assert (s2 = s1) as -> by congruence. by rewrite app_nil_r. }
  assert (serviceCalls s' = serviceCalls s2) as ->.
  { revert H. unfold bind, minio_putObject, now, prisma_transaction, commit. simpl.
    destruct (tx_bind _ _ _) as [[[? ?] ?]|?]; [by intros [= _ <-]|done]. }
  by rewrite Hcalls2, Hcalls1, <- app_assoc.
Qed.

(** X25: The calls that a successful duplication makes on the injected services,
    for a user that has a row: the generation of the id of the target; then,
    only when entities are duplicated, one duplication for each node of the
    source that is a document, a resource or a skill response, in the order of
    the nodes, on behalf of the requesting user; then the sharing of the files
    of the source, exactly when the source is a canvas of another user. *)
Theorem duplicateCanvas_calls user param checkOwnership s newCanvas s' u src :
  duplicateCanvas user param checkOwnership s = (Ok newCanvas, s') →
  users (db s) !! uid user = Some u →
  canvases (db s) !! req_canvasId param = Some src →
  serviceCalls s' =
  serviceCalls s
  ++ [CallGenCanvasID]
  ++ (if req_duplicateEntities param
      then concat (map (duplication_call (uid user) (fst newCanvas))
                     (stored_nodes (cv_stateStorageKey src) s))
      else [])
  ++ (if bool_decide (cv_uid src ≠ uid user)
      then [CallDuplicateFilesNoCopy (uid user) (req_canvasId param) (cv_uid src)
              (fst newCanvas)]
      else []).
Proof.
  intros H Hu Hsrc.
  rewrite duplicateCanvas_split in H.
  apply bind_inv in H as [([nc jd] & s1 & Hsetup & H)|(e & _ & ?)]; [|done].
  pose proof (duplicateCanvas_setup_calls _ _ _ _ _ _ _ Hsetup) as Hcalls1.
  apply duplicateCanvas_setup_Ok in Hsetup
    as (src0 & Hsrc0 & _ & _ & _ & Hfree & _ & _ & Hjuid & Hjsrc & Hjtgt & Hjdup & _ & _ & _
        & _ & _ & Hdb1 & _ & Hobj1).
  assert (src0 = src) as -> by congruence.
  unfold bind, try_catch in H.
  destruct (_duplicateCanvas jd s1) as [[[]|e] s2] eqn:Hbody.
  2:{ unfold duplicateCanvas_catch, bind, throw in H.
      destruct (prisma _ s2) as [[?|?] ?]; done. }
  unfold ret in H. inversion H; subst nc s2; clear H.
  apply (_duplicateCanvas_calls jd s1 s' u src) in Hbody.
  - rewrite Hbody, Hcalls1, Hjuid, Hjsrc, Hjtgt, Hjdup.
    rewrite (stored_nodes_objects _ s1 s) by done.
    by rewrite <- !app_assoc.
  - by rewrite Hjuid, Hdb1.
  - rewrite Hjsrc, Hdb1. simpl. rewrite lookup_insert_ne by congruence. done.
Qed.

End Coverage.

(** * The properties on concrete runs *)

Example remove_entity_nodes_example :
  indices_toRemove [ {| entityId := "d-1"; entityType := "document" |} ] 0
    [a_node "document" "d-1"; a_node "memo" "m-1"; a_node "document" "d-1";
     a_node "resource" "d-1"]
  = [0; 2]%nat
  ∧ yd_nodes
      (remove_entity_nodes [ {| entityId := "d-1"; entityType := "document" |} ]
         (a_doc [a_node "document" "d-1"; a_node "memo" "m-1"; a_node "document" "d-1";
                 a_node "resource" "d-1"]))
    = [a_node "memo" "m-1"; a_node "resource" "d-1"].
Proof. split; reflexivity. Qed.

Example slice_500_example :
  slice_500 (replicate 499 97%N ++ [55357%N; 56832%N]) = replicate 499 97%N ++ [55357%N]
  ∧ utf16_join newline [utf16_of_ascii "ab"; []; utf16_of_ascii "c"]
    = [97; 98; 10; 10; 99]%N
  ∧ utf16_join newline [] = [].
Proof. repeat split; reflexivity. Qed.

Example createCanvas_without_title_example :
  let '(r, s') := @createCanvas nat (test_collaborators Forks) alice None s_alice in
  (∃ message, r = Err (TypeError message))
  ∧ is_Some (canvases (db s') !! "c-0")
  ∧ objects s' !! "state/c-0" = None
  ∧ searchIndex s' !! "c-0" = None.
Proof.
  destruct (createCanvas alice None s_alice) as [r s'] eqn:E.
  vm_compute in E. injection E as <- <-.
  split; [by eexists|]. split; [by eexists|]. split; reflexivity.
Qed.

Example paginate_example :
  paginate 2 2 [1; 2; 3; 4; 5] = Ok [3; 4]
  ∧ paginate 1 (-2) [1; 2; 3; 4; 5] = Ok [3; 4]
  ∧ paginate (-1) 2 [1; 2; 3] = Err (PrismaClientError "P2009").
Proof. repeat split; reflexivity. Qed.

Example getCanvasYDoc_example :
  fst (@getCanvasYDoc nat "state/c-src" s_alice)
  = Ok (Some (a_doc [a_node "document" "doc-src"; a_node "memo" "memo-src"]))
  ∧ fst (@getCanvasYDoc nat "state/none" s_alice) = Ok None
  ∧ fst (@getCanvasYDoc nat "" s_alice) = Ok None.
Proof. repeat split; vm_compute; reflexivity. Qed.

Lemma duplicateCanvas_copy_failure_witness :
  ∃ s3 record row,
    @duplicateCanvas nat (test_collaborators Throws) alice (duplicate_request true) false s_alice
    = (Err (ServiceError "storage quota exceeded"), s3)
    ∧ duplicateRecords (db s3) !! 0%nat = Some record
    ∧ dr_status record = "failed"
    ∧ dr_targetId record = "c-0"
    ∧ canvases (db s3) !! "c-0" = Some row
    ∧ cv_status row = "duplicating"
    ∧ cv_status row ≠ "ready".
Proof.
  let setup := eval vm_compute in
    (@duplicateCanvas_setup nat (test_collaborators Throws) alice
       (duplicate_request true) false s_alice) in
  match setup with
  | (Ok (?newCanvas, ?jd), ?s1) =>
      let body := eval vm_compute in
        (@_duplicateCanvas nat (test_collaborators Throws) jd s1) in
      match body with
      | (Err ?e, ?s2) =>
          exact (duplicateCanvas_copy_failure (collaborators := test_collaborators Throws)
                   alice (duplicate_request true) false s_alice newCanvas jd s1 e s2
                   ltac:(vm_compute; reflexivity) ltac:(vm_compute; reflexivity))
      end
  end.
Defined.

Lemma duplicateRecord_lifecycle_witness :
  ∃ r s' status commits,
    @duplicateCanvas nat (test_collaborators Forks) alice (duplicate_request true) false s_alice
    = (r, s')
    ∧ status_updates 0 commits = [status]
    ∧ dr_status <$> duplicateRecords (db s') !! 0%nat = Some status.
Proof.
  let setup := eval vm_compute in
    (@duplicateCanvas_setup nat (test_collaborators Forks) alice
       (duplicate_request true) false s_alice) in
  match setup with
  | (Ok (?newCanvas, ?jd), ?s1) =>
      destruct (duplicateRecord_lifecycle (collaborators := test_collaborators Forks)
                  alice (duplicate_request true) false s_alice newCanvas jd s1 a_user_row
                  ltac:(vm_compute; reflexivity) ltac:(vm_compute; reflexivity))
        as (_ & _ & _ & r & s' & status & commits & Hrun & _ & Hupdates & Hstatus & _)
  end.
  exists r, s', status, commits. split; [exact Hrun|]. split; [exact Hupdates|exact Hstatus].
Defined.

(** C2 fails as stated: in a run that succeeds, the canvas row and the
    duplicate record are inserted by two commits and no commit holds both
    inserts; and in a run for a user without a row, which succeeds too, the
    status of the record is never written again and stays pending. *)
Lemma duplicateRecord_not_atomic_counterexample :
  (let '(r, s') := @duplicateCanvas nat (test_collaborators Forks) alice
                     (duplicate_request false) false s_alice in
   (∃ newCanvas, r = Ok newCanvas)
   ∧ dbLog s' = [[CanvasCreate "c-0"]; [DuplicateRecordCreate 0];
                 [CanvasUpdate "c-0"; DuplicateRecordUpdate 0 "finish"]]
   ∧ ¬ created_in_one_commit "c-0" 0 (dbLog s'))
  ∧ (let '(r, s') := @duplicateCanvas nat (test_collaborators Forks) alice
                       (duplicate_request false) false s_no_user in
     (∃ newCanvas, r = Ok newCanvas)
     ∧ status_updates 0 (dbLog s') = []
     ∧ dr_status <$> duplicateRecords (db s') !! 0%nat = Some "pending").
Proof.
  split.
  - destruct (duplicateCanvas _ _ _ s_alice) as [r s'] eqn:E.
    vm_compute in E. injection E as <- <-.
    split; [by eexists|]. split; [reflexivity|].
    unfold created_in_one_commit. simpl.
    rewrite !Exists_cons, Exists_nil, !elem_of_cons, !elem_of_nil. intuition discriminate.
  - destruct (duplicateCanvas _ _ _ s_no_user) as [r s'] eqn:E.
    vm_compute in E. injection E as <- <-.
    split; [by eexists|]. split; reflexivity.
Qed.

Lemma duplicateCanvas_nodes_witness :
  Forall2 (forked (collaborators := test_collaborators Forks) "u-alice" "c-0")
    [a_node "document" "doc-src"; a_node "memo" "memo-src"]
    [a_node "document" "d-1"; a_node "memo" "memo-src"].
Proof.
  let run := eval vm_compute in
    (@duplicateCanvas nat (test_collaborators Forks) alice
       (duplicate_request true) false s_alice) in
  match run with
  | (Ok ?newCanvas, ?s') =>
      exact (duplicateCanvas_nodes (collaborators := test_collaborators Forks)
               alice (duplicate_request true) false s_alice newCanvas s' a_user_row
               (a_canvas "u-alice" "state/c-src" 5 None)
               ltac:(vm_compute; reflexivity) ltac:(vm_compute; reflexivity)
               ltac:(vm_compute; reflexivity))
  end.
Defined.

(** C3 fails as stated: the document service returns nothing for the document
    node, so no entity is made for it (the services hand out one id, that of
    the canvas), and with duplication of the entities asked for the run
    succeeds and stores the document node for the target with the entity id it
    has in the source. And for a user without a row a run without duplication
    of the entities succeeds and stores no node for the target. *)
Lemma duplicateCanvas_entityId_counterexample :
  (let '(r, s') := @duplicateCanvas nat (test_collaborators ReturnsNothing) alice
                     (duplicate_request true) false s_alice in
   (∃ newCanvas, r = Ok newCanvas)
   ∧ stored_nodes "state/c-src" s_alice
     = [a_node "document" "doc-src"; a_node "memo" "memo-src"]
   ∧ stored_nodes "state/c-0" s'
     = [a_node "document" "doc-src"; a_node "memo" "memo-src"]
   ∧ serviceCalls s' = [CallGenCanvasID; CallDuplicateDocument "u-alice" "doc-src" "t"]
   ∧ world s' = 1%nat)
  ∧ (let '(r, s') := @duplicateCanvas nat (test_collaborators Forks) alice
                       (duplicate_request false) false s_no_user in
     (∃ newCanvas, r = Ok newCanvas ∧ fst newCanvas = "c-0"
                   ∧ cv_stateStorageKey (snd newCanvas) = "state/c-0")
     ∧ stored_nodes "state/c-src" s_no_user
       = [a_node "document" "doc-src"; a_node "memo" "memo-src"]
     ∧ stored_nodes "state/c-0" s' = []).
Proof.
  split.
  - destruct (duplicateCanvas _ _ _ s_alice) as [r s'] eqn:E.
    vm_compute in E. injection E as <- <-.
    split; [by eexists|]. repeat split; reflexivity.
  - destruct (duplicateCanvas _ _ _ s_no_user) as [r s'] eqn:E.
    vm_compute in E. injection E as <- <-.
    split; [by eexists|]. split; reflexivity.
Qed.

Lemma syncCanvasEntityRelation_entity_ids_witness :
  ∃ s', @syncCanvasEntityRelation nat "c-1" s_document = (Ok (), s')
    ∧ (∀ x, x ∈ map rel_entityId (live_relations "c-1" (db s'))
            ↔ x ∈ map entityId
                  (entities_of_nodes (stored_nodes "state/c-1" s_document))).
Proof.
  destruct (syncCanvasEntityRelation_entity_ids (W := nat) "c-1" s_document
              (a_canvas "u-alice" "state/c-1" 5 None) ltac:(vm_compute; reflexivity))
    as (s' & Hrun & Hids & _).
  exists s'. split; [exact Hrun|exact Hids].
Defined.

(** C4 fails as stated: the only node of the canvas is a resource, the only
    live relation row of the canvas has the same entity id with the type
    document; a pass succeeds and changes no row, so that after it the pair of
    the node has no live relation row and the live row has no node. *)
Lemma syncCanvasEntityRelation_pairs_counterexample :
  let '(r, s') := @syncCanvasEntityRelation nat "c-1" s_relation in
  r = Ok ()
  ∧ entities_of_nodes (stored_nodes "state/c-1" s')
    = [ {| entityId := "e-1"; entityType := "resource" |} ]
  ∧ map entity_of_relation (live_relations "c-1" (db s'))
    = [ {| entityId := "e-1"; entityType := "document" |} ]
  ∧ {| entityId := "e-1"; entityType := "resource" |}
    ∉ map entity_of_relation (live_relations "c-1" (db s')).
Proof.
  destruct (syncCanvasEntityRelation "c-1" s_relation) as [r s'] eqn:E.
  vm_compute in E. injection E as <- <-.
  split; [reflexivity|]. split; [reflexivity|].
  assert (map entity_of_relation
            (live_relations "c-1"
               (db (snd (@syncCanvasEntityRelation nat "c-1" s_relation))))
          = [ {| entityId := "e-1"; entityType := "document" |} ]) as Hlive
    by (vm_compute; reflexivity).
  split; [exact Hlive|].
  intros Hin. vm_compute in Hin.
  apply elem_of_cons in Hin as [Heq|Hin]; [discriminate|by apply elem_of_nil in Hin].
Qed.

Lemma deleteEntityNodesFromCanvases_removes_witness :
  ∃ s',
    @deleteEntityNodesFromCanvases nat
      [ {| entityId := "d-1"; entityType := "document" |} ] s_document = (Ok (), s')
    ∧ stored_nodes "state/c-1" s' = [a_node "memo" "m-1"]
    ∧ Forall (λ r, rel_deletedAt r ≠ None) (relations (db s')).
Proof.
  destruct (deleteEntityNodesFromCanvases_removes (W := nat)
              [ {| entityId := "d-1"; entityType := "document" |} ] s_document)
    as (s' & Hrun & Hnodes & Hrels & _).
  { intros e ->%list_elem_of_singleton. by simpl. }
  exists s'. split; [exact Hrun|]. split.
  - pose proof (Hnodes {| rel_canvasId := "c-1"; rel_entityId := "d-1";
                          rel_entityType := "document"; rel_deletedAt := None |}
                  (a_canvas "u-alice" "state/c-1" 5 None)
                  ltac:(apply list_elem_of_here) eq_refl
                  ltac:(apply list_elem_of_here) ltac:(vm_compute; reflexivity)) as H.
    etrans; [exact H|]. vm_compute. reflexivity.
  - change (relations (db s_document))
      with [ {| rel_canvasId := "c-1"; rel_entityId := "d-1";
                rel_entityType := "document"; rel_deletedAt := None |} ] in Hrels.
    apply Forall2_cons_inv_l in Hrels as (r & rest & (_ & _ & Hdel & _) & Hrest & ->).
    apply Forall2_nil_inv_l in Hrest as ->.
    constructor; [|constructor]. apply Hdel; [apply list_elem_of_here|].
    vm_compute. by eexists.
Defined.

(** C5 fails as stated. A live relation row of a given pair whose canvas id
    has no canvas row stays live: the task of that canvas returns before it
    updates the rows, while the row of the canvas that has a row is
    soft-deleted and its node removed. And a node with an empty entity id is
    not removed, though its type and id are those of a given pair: the
    transaction counts a node only when its id and its type are truthy. *)
Lemma deleteEntityNodesFromCanvases_orphan_counterexample :
  (let '(r, s') := @deleteEntityNodesFromCanvases nat
                     [ {| entityId := "d-1"; entityType := "document" |} ] s_orphan in
   r = Ok ()
   ∧ stored_nodes "state/c-1" s' = [a_node "memo" "m-1"]
   ∧ relations (db s')
     = [ {| rel_canvasId := "c-1"; rel_entityId := "d-1";
            rel_entityType := "document"; rel_deletedAt := Some 1000 |};
         {| rel_canvasId := "c-2"; rel_entityId := "d-1";
            rel_entityType := "document"; rel_deletedAt := None |} ])
  ∧ (let '(r, s') := @deleteEntityNodesFromCanvases nat
                       [ {| entityId := ""; entityType := "document" |} ] s_unnamed in
     r = Ok ()
     ∧ entity_of_node (a_node "document" "") = {| entityId := ""; entityType := "document" |}
     ∧ stored_nodes "state/c-1" s' = [a_node "document" ""]
     ∧ Forall (λ r, rel_deletedAt r ≠ None) (relations (db s'))).
Proof.
  split.
  - destruct (deleteEntityNodesFromCanvases _ s_orphan) as [r s'] eqn:E.
    vm_compute in E. injection E as <- <-. repeat split; reflexivity.
  - destruct (deleteEntityNodesFromCanvases _ s_unnamed) as [r s'] eqn:E.
    vm_compute in E. injection E as <- <-.
    split; [reflexivity|]. split; [reflexivity|]. split; [reflexivity|].
    constructor; [discriminate|constructor].
Qed.

Lemma duplicateCanvas_source_not_found_witness :
  @duplicateCanvas nat (test_collaborators Forks) bob (duplicate_request false) true s_alice
  = (Err CanvasNotFoundError, s_alice).
Proof.
  apply (duplicateCanvas_source_not_found (collaborators := test_collaborators Forks)
           bob (duplicate_request false) true s_alice).
  vm_compute. right. split; [reflexivity|discriminate].
Defined.

(** C6 fails as stated: the source canvas is not owned by the requesting user,
    the caller did not ask for the ownership check, and [duplicateCanvas]
    succeeds, having created a target canvas row and a duplicate record. *)
Lemma duplicateCanvas_unowned_source_counterexample :
  (cv_uid <$> canvases (db s_alice) !! "c-src") = Some "u-alice"
  ∧ uid bob ≠ "u-alice"
  ∧ let '(r, s') := @duplicateCanvas nat (test_collaborators Forks) bob
                      (duplicate_request false) false s_alice in
    (∃ newCanvas, r = Ok newCanvas)
    ∧ canvases (db s_alice) !! "c-0" = None
    ∧ (cv_uid <$> canvases (db s') !! "c-0") = Some "u-bob"
    ∧ duplicateRecords (db s_alice) !! 0%nat = None
    ∧ (dr_sourceId <$> duplicateRecords (db s') !! 0%nat) = Some "c-src".
Proof.
  split; [reflexivity|]. split; [discriminate|].
  destruct (duplicateCanvas _ _ _ s_alice) as [r s'] eqn:E.
  vm_compute in E. injection E as <- <-.
  split; [by eexists|]. repeat split; reflexivity.
Qed.

Lemma deleted_canvas_is_hidden_witness :
  match @listCanvases nat (test_collaborators Forks) alice 1 10 s_listing with
  | (Ok details, _) =>
      map (λ d, fst (cd_canvas d)) details = ["c-b"; "c-a"]
      ∧ "c-old" ∉ map (λ d, fst (cd_canvas d)) details
  | (Err _, _) => False
  end
  ∧ @getCanvasDetail nat (test_collaborators Forks) alice "c-old" s_listing
    = (Err CanvasNotFoundError, s_listing).
Proof.
  destruct (deleted_canvas_is_hidden (collaborators := test_collaborators Forks)
              s_listing alice 1 10) as [Hlist Hget].
  split.
  - destruct (listCanvases alice 1 10 s_listing) as [[details|e] s'] eqn:E.
    + destruct Hlist as (_ & _ & _ & Hhidden). split.
      * vm_compute in E. by injection E as <- <-.
      * apply (Hhidden "c-old" (a_canvas "u-alice" "state/c-old" 9 (Some 10)));
          [vm_compute; reflexivity|discriminate].
    + destruct Hlist as [_ Hneg]. vm_compute in Hneg. discriminate.
  - apply (Hget "c-old" (a_canvas "u-alice" "state/c-old" 9 (Some 10)));
      [vm_compute; reflexivity|discriminate].
Defined.

Lemma createCanvas_then_getCanvasRawData_witness :
  ∃ canvas s' raw,
    @createCanvas nat (test_collaborators Forks) alice (Some "T") s_alice = (Ok canvas, s')
    ∧ @getCanvasRawData nat (test_collaborators Forks) alice (fst canvas) s' = (Ok raw, s')
    ∧ raw_title raw = "T" ∧ raw_nodes raw = [] ∧ raw_edges raw = [].
Proof.
  let run := eval vm_compute in
    (@createCanvas nat (test_collaborators Forks) alice (Some "T") s_alice) in
  match run with
  | (Ok ?canvas, ?s') =>
      destruct (createCanvas_then_getCanvasRawData (collaborators := test_collaborators Forks)
                  s_alice alice "T" canvas s' ltac:(vm_compute; reflexivity))
        as (raw & Hraw & Htitle & Hnodes & Hedges);
      exists canvas, s', raw
  end.
  split; [vm_compute; reflexivity|]. split; [exact Hraw|].
  split; [exact Htitle|]. split; [exact Hnodes|exact Hedges].
Defined.

Lemma autoNameCanvas_without_content_witness :
  @autoNameCanvas nat (test_collaborators Forks) alice "c-src" true s_alice = (Ok "", s_alice)
  ∧ serviceCalls
      (snd (@autoNameCanvas nat (test_collaborators Forks) alice "c-src" true s_alice))
    = serviceCalls s_alice.
Proof.
  apply (autoNameCanvas_without_content (collaborators := test_collaborators Forks)
           s_alice alice "c-src" true (a_canvas "u-alice" "state/c-src" 5 None)).
  - vm_compute. reflexivity.
  - reflexivity.
  - reflexivity.
  - intros r Hr. by apply elem_of_nil in Hr.
  - intros r Hr. by apply elem_of_nil in Hr.
Defined.

Lemma deleteCanvas_keeps_relations_witness :
  let '(r, s') := @deleteCanvas nat alice "c-1" true s_document in
  r = Ok ()
  ∧ relations (db s') = relations (db s_document)
  ∧ "d-1" ∈ map job_entityId (deleteKnowledgeQueue s').
Proof.
  pose proof (deleteCanvas_keeps_relations (W := nat) s_document alice "c-1" true) as H.
  destruct (deleteCanvas alice "c-1" true s_document) as [[[]|e] s'] eqn:E.
  - destruct H as (Hrel & c & c' & _ & _ & _ & _ & _ & _ & _ & Hq).
    split; [reflexivity|]. split; [exact Hrel|].
    apply (Hq {| rel_canvasId := "c-1"; rel_entityId := "d-1";
                 rel_entityType := "document"; rel_deletedAt := None |}).
    apply list_elem_of_filter. split; [done|apply list_elem_of_here].
  - vm_compute in E. discriminate.
Defined.

Lemma updateCanvas_not_found_witness :
  @updateCanvas nat bob "c-src" (Some "Mine") None s_alice = (Err CanvasNotFoundError, s_alice).
Proof.
  apply (updateCanvas_not_found (W := nat) s_alice bob "c-src" (Some "Mine") None).
  vm_compute. left. discriminate.
Defined.

Lemma updateCanvas_row_witness :
  ∃ c' s',
    @updateCanvas nat alice "c-src" (Some "Renamed") None s_alice = (Ok ("c-src", c'), s')
    ∧ canvases (db s') !! "c-src" = Some c'
    ∧ cv_title c' = "Renamed"
    ∧ cv_stateStorageKey c' = "state/c-src"
    ∧ es_title <$> searchIndex s' !! "c-src" = Some "Renamed".
Proof.
  destruct (updateCanvas_row (W := nat) s_alice alice "c-src" (Some "Renamed") None
              (a_canvas "u-alice" "state/c-src" 5 None)
              ltac:(vm_compute; reflexivity) ltac:(reflexivity) ltac:(reflexivity))
    as (c' & s' & Hrun & Hrows & Htitle & _ & _ & _ & Hkey & _ & _ & _ & Hes & _).
  exists c', s'. split; [exact Hrun|]. split; [by rewrite Hrows, lookup_insert_eq|].
  split; [exact Htitle|]. split; [exact Hkey|]. by rewrite Hes, Htitle.
Defined.

Lemma updateCanvas_minimap_witness :
  objects s_minimap !! "minimap/old" = Some an_image
  ∧ objects (snd (@updateCanvas nat alice "c-1" None (Some "minimap/new") s_minimap))
    = delete "minimap/old" (objects s_minimap)
  ∧ objects (snd (@updateCanvas nat alice "c-1" None (Some "minimap/old") s_minimap))
    = objects s_minimap.
Proof.
  split; [vm_compute; reflexivity|]. split.
  - exact (updateCanvas_minimap (W := nat) s_minimap alice "c-1" "minimap/new"
             {| cv_uid := "u-alice"; cv_title := "Plan"; cv_status := "ready";
                cv_stateStorageKey := "state/c-1"; cv_minimapStorageKey := "minimap/old";
                cv_createdAt := 1; cv_updatedAt := 5; cv_deletedAt := None |}
             ltac:(vm_compute; reflexivity) ltac:(reflexivity) ltac:(reflexivity)).
  - exact (updateCanvas_minimap (W := nat) s_minimap alice "c-1" "minimap/old"
             {| cv_uid := "u-alice"; cv_title := "Plan"; cv_status := "ready";
                cv_stateStorageKey := "state/c-1"; cv_minimapStorageKey := "minimap/old";
                cv_createdAt := 1; cv_updatedAt := 5; cv_deletedAt := None |}
             ltac:(vm_compute; reflexivity) ltac:(reflexivity) ltac:(reflexivity)).
Defined.

Lemma updateCanvas_title_keeps_content_witness :
  ∃ c' s' raw',
    @updateCanvas nat alice "c-src" (Some "Renamed") None s_alice = (Ok ("c-src", c'), s')
    ∧ @getCanvasRawData nat (test_collaborators Forks) alice "c-src" s' = (Ok raw', s')
    ∧ raw_title raw' = "Renamed"
    ∧ raw_nodes raw' = [a_node "document" "doc-src"; a_node "memo" "memo-src"].
Proof.
  let run := eval vm_compute in
    (@getCanvasRawData nat (test_collaborators Forks) alice "c-src" s_alice) in
  match run with
  | (Ok ?raw, _) =>
      destruct (updateCanvas_title_keeps_content (collaborators := test_collaborators Forks)
                  s_alice alice "c-src" "Renamed" (a_canvas "u-alice" "state/c-src" 5 None) raw
                  ltac:(vm_compute; reflexivity) ltac:(discriminate)
                  ltac:(vm_compute; reflexivity))
        as (c' & s' & raw' & doc & Hrun & Hraw & Htitle & Hnodes & _)
  end.
  exists c', s', raw'. split; [exact Hrun|]. split; [exact Hraw|]. split; [exact Htitle|].
  rewrite Hnodes. reflexivity.
Defined.

Lemma deleteCanvas_then_not_found_witness :
  ∃ s',
    @deleteCanvas nat alice "c-1" true s_document = (Ok (), s')
    ∧ @getCanvasDetail nat (test_collaborators Forks) alice "c-1" s'
      = (Err CanvasNotFoundError, s')
    ∧ @deleteCanvas nat alice "c-1" true s' = (Err CanvasNotFoundError, s').
Proof.
  let run := eval vm_compute in (@deleteCanvas nat alice "c-1" true s_document) in
  match run with
  | (Ok _, ?s') =>
      destruct (deleteCanvas_then_not_found (collaborators := test_collaborators Forks)
                  s_document alice "c-1" true s' alice ltac:(vm_compute; reflexivity))
        as (Hdetail & _ & _ & _ & Hdelete);
      exists s'; split; [vm_compute; reflexivity|]; split; [exact Hdetail|exact (Hdelete true)]
  end.
Defined.

Lemma syncCanvasEntityRelation_idempotent_witness :
  ∃ s1 s2,
    @syncCanvasEntityRelation nat "c-1" s_relation = (Ok (), s1)
    ∧ @syncCanvasEntityRelation nat "c-1" s1 = (Ok (), s2)
    ∧ relations (db s2) = relations (db s1).
Proof.
  let run := eval vm_compute in (@syncCanvasEntityRelation nat "c-1" s_relation) in
  match run with
  | (Ok _, ?s1) =>
      destruct (syncCanvasEntityRelation_idempotent (W := nat) "c-1" s_relation s1
                  ltac:(vm_compute; reflexivity)) as (s2 & Hrun & Hrel);
      exists s1, s2; split; [vm_compute; reflexivity|]; split; [exact Hrun|exact Hrel]
  end.
Defined.

Lemma deleteCanvas_then_sync_witness :
  ∃ s1 s2,
    @deleteCanvas nat alice "c-1" true s_document = (Ok (), s1)
    ∧ live_relations "c-1" (db s1) ≠ []
    ∧ @syncCanvasEntityRelation nat "c-1" s1 = (Ok (), s2)
    ∧ live_relations "c-1" (db s2) = [].
Proof.
  let run := eval vm_compute in (@deleteCanvas nat alice "c-1" true s_document) in
  match run with
  | (Ok _, ?s1) =>
      destruct (deleteCanvas_then_sync (W := nat) s_document alice "c-1" true s1
                  ltac:(vm_compute; reflexivity)) as (s2 & Hrun & Hlive & _);
      exists s1, s2; split; [vm_compute; reflexivity|];
      split; [vm_compute; discriminate|]; split; [exact Hrun|exact Hlive]
  end.
Defined.

Lemma deleteEntityNodesFromCanvases_no_relation_witness :
  @deleteEntityNodesFromCanvases nat [ {| entityId := "d-1"; entityType := "resource" |} ]
    s_document
  = (Ok (), s_document).
Proof.
  apply (deleteEntityNodesFromCanvases_no_relation (W := nat)).
  intros r Hr _ _. simpl in Hr. apply list_elem_of_singleton in Hr as ->. simpl.
  rewrite list_elem_of_singleton. discriminate.
Defined.

Lemma deleteEntityNodesFromCanvases_idempotent_witness :
  ∃ s1,
    @deleteEntityNodesFromCanvases nat [ {| entityId := "d-1"; entityType := "document" |} ]
      s_document
    = (Ok (), s1)
    ∧ stored_nodes "state/c-1" s1 = [a_node "memo" "m-1"]
    ∧ @deleteEntityNodesFromCanvases nat [ {| entityId := "d-1"; entityType := "document" |} ]
        s1
      = (Ok (), s1).
Proof.
  destruct (deleteEntityNodesFromCanvases_idempotent (W := nat)
              [ {| entityId := "d-1"; entityType := "document" |} ] s_document)
    as (s1 & Hrun & Hagain).
  { intros r Hr. simpl in Hr. apply list_elem_of_singleton in Hr as ->.
    vm_compute. by eexists. }
  exists s1. split; [exact Hrun|]. split; [|exact Hagain].
  vm_compute in Hrun. injection Hrun as <-. vm_compute. reflexivity.
Defined.

Lemma duplicateCanvas_success_witness :
  ∃ newCanvas s' row,
    @duplicateCanvas nat (test_collaborators Forks) alice (duplicate_request false) false s_alice
    = (Ok newCanvas, s')
    ∧ cv_status (snd newCanvas) = "duplicating"
    ∧ canvases (db s') !! fst newCanvas = Some row
    ∧ cv_status row = "ready"
    ∧ cv_title row = "Plan".
Proof.
  let run := eval vm_compute in
    (@duplicateCanvas nat (test_collaborators Forks) alice
       (duplicate_request false) false s_alice) in
  match run with
  | (Ok ?newCanvas, ?s') =>
      destruct (duplicateCanvas_success (collaborators := test_collaborators Forks)
                  alice (duplicate_request false) false s_alice newCanvas s' a_user_row
                  (a_canvas "u-alice" "state/c-src" 5 None)
                  ltac:(vm_compute; reflexivity) ltac:(vm_compute; reflexivity)
                  ltac:(vm_compute; reflexivity))
        as (row & doc & Hreturned & Hrow & Hready & _ & Htitle & _);
      exists newCanvas, s', row;
      split; [vm_compute; reflexivity|]; split; [exact Hreturned|];
      split; [exact Hrow|]; split; [exact Hready|exact Htitle]
  end.
Defined.

Lemma duplicateCanvas_missing_user_witness :
  ∃ newCanvas s1,
    @duplicateCanvas nat (test_collaborators Forks) alice (duplicate_request false) false
      s_no_user
    = (Ok newCanvas, s1)
    ∧ cv_status <$> canvases (db s1) !! fst newCanvas = Some "duplicating"
    ∧ objects s1 = objects s_no_user.
Proof.
  let setup := eval vm_compute in
    (@duplicateCanvas_setup nat (test_collaborators Forks) alice
       (duplicate_request false) false s_no_user) in
  match setup with
  | (Ok (?newCanvas, ?jd), ?s1) =>
      destruct (duplicateCanvas_missing_user (collaborators := test_collaborators Forks)
                  alice (duplicate_request false) false s_no_user newCanvas jd s1
                  ltac:(vm_compute; reflexivity) ltac:(vm_compute; reflexivity))
        as (Hrun & Hstatus & _ & Hobjects);
      exists newCanvas, s1;
      split; [exact Hrun|]; split; [exact Hstatus|exact Hobjects]
  end.
Defined.

Lemma duplicateCanvas_unreadable_source_witness :
  stored_nodes "state/c-src" s_unreadable = []
  ∧ ∃ s',
      @duplicateCanvas nat (test_collaborators Forks) alice (duplicate_request false) false
        s_unreadable
      = (Err (S3Error "NoSuchKey"), s').
Proof.
  let setup := eval vm_compute in
    (@duplicateCanvas_setup nat (test_collaborators Forks) alice
       (duplicate_request false) false s_unreadable) in
  match setup with
  | (Ok (?newCanvas, ?jd), ?s1) =>
      destruct (duplicateCanvas_unreadable_source (collaborators := test_collaborators Forks)
                  alice (duplicate_request false) false s_unreadable newCanvas jd s1
                  a_user_row (a_canvas "u-alice" "state/c-src" 5 None)
                  ltac:(vm_compute; reflexivity) ltac:(vm_compute; reflexivity)
                  ltac:(vm_compute; reflexivity) ltac:(discriminate)
                  ltac:(intros doc; vm_compute; discriminate))
        as (Hnodes & e & s' & Hrun & He & _)
  end.
  split; [exact Hnodes|]. exists s'. rewrite Hrun. simpl in He. by rewrite He.
Defined.

Lemma duplicateCanvas_calls_witness :
  ∃ newCanvas s',
    @duplicateCanvas nat (test_collaborators Forks) bob (duplicate_request true) false s_alice
    = (Ok newCanvas, s')
    ∧ serviceCalls s'
      = [CallGenCanvasID; CallDuplicateDocument "u-bob" "doc-src" "t";
         CallDuplicateFilesNoCopy "u-bob" "c-src" "u-alice" "c-0"].
Proof.
  let run := eval vm_compute in
    (@duplicateCanvas nat (test_collaborators Forks) bob
       (duplicate_request true) false s_alice) in
  match run with
  | (Ok ?newCanvas, ?s') =>
      pose proof (duplicateCanvas_calls (collaborators := test_collaborators Forks)
                    bob (duplicate_request true) false s_alice newCanvas s' a_user_row
                    (a_canvas "u-alice" "state/c-src" 5 None)
                    ltac:(vm_compute; reflexivity) ltac:(vm_compute; reflexivity)
                    ltac:(vm_compute; reflexivity)) as Hcalls;
      exists newCanvas, s'; split; [vm_compute; reflexivity|];
      rewrite Hcalls; vm_compute; reflexivity
  end.
Defined.

Lemma listCanvases_complete_witness :
  ∃ details,
    @listCanvases nat (test_collaborators Forks) alice 1 10 s_listing = (Ok details, s_listing)
    ∧ map (λ d, fst (cd_canvas d)) details = ["c-b"; "c-a"]
    ∧ NoDup (map (λ d, fst (cd_canvas d)) details).
Proof.
  destruct (listCanvases_complete (collaborators := test_collaborators Forks) alice 10 s_listing
              ltac:(vm_compute; discriminate)) as (details & Hrun & Hnodup & _).
  exists details. split; [exact Hrun|]. split; [|exact Hnodup].
  vm_compute in Hrun. injection Hrun as <-. reflexivity.
Defined.

Lemma listCanvases_page_witness :
  ∃ all,
    @listCanvases nat (test_collaborators Forks) alice 1 10 s_listing = (Ok all, s_listing)
    ∧ @listCanvases nat (test_collaborators Forks) alice 2 1 s_listing
      = (Ok (take 1 (drop 1 all)), s_listing).
Proof.
  destruct (listCanvases_page (collaborators := test_collaborators Forks) alice 2 1 10 s_listing
              ltac:(lia) ltac:(lia) ltac:(vm_compute; discriminate))
    as (all & Hall & Hpage & _).
  exists all. split; [exact Hall|exact Hpage].
Defined.

Lemma autoNameCanvas_generates_from_witness :
  ∃ s' items,
    @autoNameCanvas nat (test_collaborators Forks) alice "c-1" false (s_answered None)
    = (Ok "Generated title", s')
    ∧ content_of (collaborators := test_collaborators Forks) "c-1" (db (s_answered None)) items
    ∧ serviceCalls s' = serviceCalls (s_answered None) ++ naming_calls items
    ∧ serviceCalls s'
      = [CallGetDefaultModel;
         CallGenerateCanvasTitle
           [Answered "What is a canvas?"
              (utf16_of_ascii "A board of nodes." ++ [10%N]
               ++ replicate 499 97%N ++ [55357%N])]].
Proof.
  let run := eval vm_compute in
    (@autoNameCanvas nat (test_collaborators Forks) alice "c-1" false (s_answered None)) in
  match run with
  | (Ok ?title, ?s') =>
      destruct (autoNameCanvas_generates_from (collaborators := test_collaborators Forks)
                  alice "c-1" false (s_answered None) title s'
                  ltac:(vm_compute; reflexivity)) as (items & Hcontent & Hcalls & _);
      exists s', items; split; [vm_compute; reflexivity|];
      split; [exact Hcontent|]; split; [exact Hcalls|vm_compute; reflexivity]
  end.
Defined.

Lemma autoNameCanvas_malformed_input_witness :
  ∃ e,
    @autoNameCanvas nat parsing_collaborators alice "c-1" true (s_answered (Some "{"))
    = (Err e, s_answered (Some "{")).
Proof.
  destruct (autoNameCanvas_malformed_input (collaborators := parsing_collaborators)
              alice "c-1" true (s_answered (Some "{")) (a_canvas "u-alice" "state/c-1" 5 None))
    as (result & e & _ & _ & Hrun).
  - vm_compute. reflexivity.
  - reflexivity.
  - reflexivity.
  - exists {| ar_resultId := "ar-1"; ar_version := 0; ar_title := "What is a canvas?";
              ar_input := Some "{"; ar_targetId := "c-1"; ar_targetType := "canvas" |},
           (JsError "Unexpected end of JSON input").
    split; [|reflexivity]. apply list_elem_of_filter. split; [done|apply list_elem_of_here].
  - exists e. exact Hrun.
Defined.

Lemma autoNameCanvas_directUpdate_witness :
  ∃ s' c',
    @autoNameCanvas nat (test_collaborators Forks) alice "c-1" true (s_answered None)
    = (Ok "Generated title", s')
    ∧ canvases (db s') !! "c-1" = Some c'
    ∧ cv_title c' = "Generated title"
    ∧ es_title <$> searchIndex s' !! "c-1" = Some "Generated title".
Proof.
  let run := eval vm_compute in
    (@autoNameCanvas nat (test_collaborators Forks) alice "c-1" true (s_answered None)) in
  match run with
  | (Ok ?title, ?s') =>
      destruct (autoNameCanvas_directUpdate (collaborators := test_collaborators Forks)
                  alice "c-1" (s_answered None) title s'
                  ltac:(vm_compute; reflexivity) ltac:(discriminate))
        as (c & c' & _ & Hrows & Htitle & _ & _ & _ & _ & Hes & _);
      exists s', c'; split; [vm_compute; reflexivity|];
      split; [by rewrite Hrows, lookup_insert_eq|]; split; [exact Htitle|exact Hes]
  end.
Defined.

Lemma duplicateCanvas_frame_witness :
  let s' := snd (@duplicateCanvas nat (test_collaborators Forks) alice
                   (duplicate_request false) false s_alice) in
  serviceCalls s' = [CallGenCanvasID]
  ∧ relations (db s') = relations (db s_alice)
  ∧ searchIndex s' = searchIndex s_alice
  ∧ canvases (db s') !! "c-src" = Some (a_canvas "u-alice" "state/c-src" 5 None)
  ∧ objects s' !! "state/c-src" = objects s_alice !! "state/c-src".
Proof.
  pose proof (duplicateCanvas_frame (collaborators := test_collaborators Forks)
                alice (duplicate_request false) false s_alice eq_refl) as H.
  cbv zeta in H.
  destruct H as (Hcalls & Hrel & Hindex & _ & Hrows & _ & Hobjects).
  { intros src Hsrc. vm_compute in Hsrc. by injection Hsrc as <-. }
  cbv zeta. split; [vm_compute; reflexivity|]. split; [exact Hrel|]. split; [exact Hindex|].
  split.
  - apply Hrows. vm_compute. reflexivity.
  - apply Hobjects. vm_compute. discriminate.
Defined.
